(** * Order, inventory and promo-code workflow of [server/routes-sqlite.ts]

    A shallow embedding of the order handlers of the storefront server:
    [POST /api/orders], [PUT /api/orders/:id], [PUT /api/orders/:id/status],
    [DELETE /api/orders/:id], [POST /api/orders/:orderId/apply-promo] and the
    helper [updateProductQuantities]; then of the code around them: the
    receipt upload and the completion of an order, [formatOrderForClient],
    the promo preview and the administrator's endpoints of [promo_codes],
    the CSV escaping, the payment details, the middlewares of the
    administrator's rights with [PUT /api/users/:id] and the change of a
    password; of [auth-sqlite.ts] and the storage module the stored
    passwords, [registerUser] and the login callback; of the shop front the
    cart of [ProductCard] and the price range of [CategoryFilter].

    Conventions of the embedding.
    - Money and stock are JavaScript numbers in the source; here they are
      integers ([Z]), and the quantities of a cart are whole numbers.  Sums,
      differences and products of them are exact, as they are in doubles up
      to [2 ^ 53]; the quotient and the product of a percentage,
      [itemsTotal * (v / 100)], are rounded as doubles are.
    - A text is the sequence of the bytes of its UTF-8 form.  [trim],
      [parseInt] and [length] know the white space and the characters of
      more than one byte; [toUpperCase] and [toLowerCase] change the ASCII
      letters only.
    - The SQLite tables are components of one record [Db].  Tables read by
      primary key ([products], [orders]) are finite maps from the id, tables
      scanned by other columns ([promo_codes], [promo_code_uses]) are lists of
      rows in insertion order.
    - The JSON text of [orders.items] is kept as the list it parses to.
    - Timestamps are the text values SQLite compares: [datetime('now')] is the
      parameter [now] and [<=] on text is the byte-wise order [String.leb].
    - Statements on the database do not throw; the [catch] branches that only
      serve driver failures are not modelled.
    - What the source leaves to a library or to the database engine is a
      parameter: the key derivation [pbkdf2Sync], the random salt and uuid,
      the format check [z.string().datetime()], and the integer SQLite reads
      a bound text as.  The table of users is a list of rows of its own. *)

From Stdlib Require Import ZArith String Ascii List Bool Lia.
From stdpp Require Import gmap strings list fin_maps pretty.
Import ListNotations.

Local Open Scope string_scope.
Local Open Scope Z_scope.

(** ** JavaScript values and primitives *)

Module Js.

(** The values a JSON column or a row read from the database can hold. *)
Inductive JsVal : Type :=
| JUndefined
| JNull
| JBool (b : bool)
| JNum (n : Z)
| JStr (s : string).

(** [ToBoolean]: what [if (v)], [v || d] and [v && w] test. *)
Definition truthy (v : JsVal) : bool :=
  match v with
  | JUndefined | JNull => false
  | JBool b => b
  | JNum n => negb (n =? 0)
  | JStr s => negb (String.eqb s EmptyString)
  end.

(** [a === b]: no conversion between types. *)
Definition strict_eq (a b : JsVal) : bool :=
  match a, b with
  | JUndefined, JUndefined => true
  | JNull, JNull => true
  | JBool x, JBool y => Bool.eqb x y
  | JNum x, JNum y => x =? y
  | JStr x, JStr y => String.eqb x y
  | _, _ => false
  end.

(** [v || d]. *)
Definition or_else (v d : JsVal) : JsVal := if truthy v then v else d.

(** [String(v)].  A number is an integer here, and [String] writes an
    integer in decimal digits as long as its absolute value is under
    [10 ^ 21], and all its digits as long as it is no more than [2 ^ 53]. *)
Definition to_String (v : JsVal) : string :=
  match v with
  | JUndefined => "undefined"
  | JNull => "null"
  | JBool true => "true"
  | JBool false => "false"
  | JNum n => pretty n
  | JStr s => s
  end.

(** Truthiness of an optional string ([undefined], [null] and the empty
    string are falsy). *)
Definition str_truthy (o : option string) : bool :=
  match o with
  | Some s => negb (String.eqb s EmptyString)
  | None => false
  end.

(** Truthiness of a nullable number. *)
Definition num_truthy (o : option Z) : bool :=
  match o with
  | Some n => negb (n =? 0)
  | None => false
  end.

(** [n || 0] on a nullable number. *)
Definition num_or_zero (o : option Z) : Z :=
  match o with
  | Some n => n
  | None => 0
  end.

(** *** The arithmetic of doubles on integers

    A number of the source is an IEEE 754 double.  The amounts of the model
    are integers, which a double holds exactly up to [2 ^ 53]; a quotient or
    a product of them is rounded to the nearest double, a tie going to the
    even mantissa.  A finite double is kept as the fraction [(a, b)] it is
    equal to, [a / b] with [b] a power of two.  The overflow to [Infinity],
    beyond [2 ^ 1024], is not modelled. *)

(** The integer nearest to [n / d], a tie going to the even one; for
    [0 <= n] and [0 < d]. *)
Definition nearest_even (n d : Z) : Z :=
  let q := n / d in
  let r := n mod d in
  if 2 * r <? d then q
  else if d <? 2 * r then q + 1
  else if Z.even q then q else q + 1.

(** The position of the leading bit of [n / d]: the [k] with
    [2 ^ k <= n / d < 2 ^ (k + 1)]; for [0 < n] and [0 < d]. *)
Definition ratio_log2 (n d : Z) : Z :=
  let k := Z.log2 n - Z.log2 d in
  if (if 0 <=? k then d * 2 ^ k <=? n else d <=? n * 2 ^ (- k)) then k else k - 1.

(** The double nearest to [n / d], for [0 <= n] and [0 < d]: a mantissa of
    53 bits at the exponent of the leading bit, or at the smallest exponent,
    -1074, under it. *)
Definition double_of_ratio (n d : Z) : Z * Z :=
  if n =? 0 then (0, 1)
  else
    let e := Z.max (ratio_log2 n d - 52) (-1074) in
    if 0 <=? e then (nearest_even n (d * 2 ^ e) * 2 ^ e, 1)
    else (nearest_even (n * 2 ^ (- e)) d, 2 ^ (- e)).

(** The same for a numerator of either sign: rounding is symmetric. *)
Definition to_double (n d : Z) : Z * Z :=
  let '(a, b) := double_of_ratio (Z.abs n) d in (Z.sgn n * a, b).

(** [Math.round(x)] of the double [a / b]: the nearest integer, a half going
    up. *)
Definition Math_round (x : Z * Z) : Z :=
  let '(a, b) := x in (2 * a + b) / (2 * b).

(** [Math.round(t * (v / 100))]: the quotient is rounded to a double, then
    the product, then [Math.round] is taken.  For 350 at 35 percent the
    quotient is the double under 0.35, the product the double under 122.5,
    and the result 122. *)
Definition round_percent (t v : Z) : Z :=
  let '(a, b) := to_double v 100 in
  Math_round (to_double (t * a) b).

(** *** White space

    A text is the sequence of the bytes of its UTF-8 form. *)

(** The white space of one byte: space, tab, line feed, vertical tab, form
    feed and carriage return. *)
Definition is_white_space (c : ascii) : bool :=
  let n := nat_of_ascii c in
  (n =? 32)%nat || ((9 <=? n)%nat && (n <=? 13)%nat).

(** What SQLite skips in front of a number in a text: the white space of
    one byte. *)
Fixpoint skip_white_space (s : string) : string :=
  match s with
  | String c r => if is_white_space c then skip_white_space r else s
  | EmptyString => s
  end.

(** The white space of JavaScript beyond one byte ([WhiteSpace] and
    [LineTerminator] of the language): U+00A0 in two bytes, and in three
    U+1680, U+2000 to U+200A, U+2028, U+2029, U+202F, U+205F, U+3000 and
    U+FEFF. *)
Definition is_white_space2 (c1 c2 : ascii) : bool :=
  (nat_of_ascii c1 =? 194)%nat && (nat_of_ascii c2 =? 160)%nat.

Definition is_white_space3 (c1 c2 c3 : ascii) : bool :=
  let n1 := nat_of_ascii c1 in
  let n2 := nat_of_ascii c2 in
  let n3 := nat_of_ascii c3 in
  ((n1 =? 225) && (n2 =? 154) && (n3 =? 128))%nat
  || ((n1 =? 226) && (n2 =? 128)
      && (((128 <=? n3) && (n3 <=? 138)) || (n3 =? 168) || (n3 =? 169) || (n3 =? 175)))%nat
  || ((n1 =? 226) && (n2 =? 129) && (n3 =? 159))%nat
  || ((n1 =? 227) && (n2 =? 128) && (n3 =? 128))%nat
  || ((n1 =? 239) && (n2 =? 187) && (n3 =? 191))%nat.

(** The first byte of a white space of two bytes, of three bytes. *)
Definition leads_white_space2 (c : ascii) : bool := (nat_of_ascii c =? 194)%nat.

Definition leads_white_space3 (c : ascii) : bool :=
  let n := nat_of_ascii c in
  ((n =? 225) || (n =? 226) || (n =? 227) || (n =? 239))%nat.

(** [s.trimStart()], which is also what [parseInt] leaves of its
    argument. *)
Fixpoint trimStart (s : string) : string :=
  match s with
  | String c r =>
      if is_white_space c then trimStart r
      else if leads_white_space2 c then
        match r with
        | String c2 r2 => if is_white_space2 c c2 then trimStart r2 else s
        | EmptyString => s
        end
      else if leads_white_space3 c then
        match r with
        | String c2 (String c3 r3) => if is_white_space3 c c2 c3 then trimStart r3 else s
        | _ => s
        end
      else s
  | EmptyString => s
  end.

(** [s.trimEnd()]: the text up to the place from which only white space
    follows. *)
Fixpoint trimEnd (s : string) : string :=
  match s with
  | String c r =>
      if String.eqb (trimStart s) EmptyString then EmptyString
      else String c (trimEnd r)
  | EmptyString => EmptyString
  end.

(** [s.trim()]. *)
Definition trim (s : string) : string := trimEnd (trimStart s).

(** *** [parseInt] with the radix left out *)

Definition digit_value (radix : Z) (c : ascii) : option Z :=
  let n := Z.of_nat (nat_of_ascii c) in
  let d :=
    if (48 <=? n) && (n <=? 57) then Some (n - 48)
    else if (97 <=? n) && (n <=? 122) then Some (n - 87)
    else if (65 <=? n) && (n <=? 90) then Some (n - 55)
    else None in
  match d with
  | Some k => if k <? radix then Some k else None
  | None => None
  end.

(** The longest prefix of digits; [None] when there is no digit at all. *)
Fixpoint parse_digits (radix : Z) (s : string) (acc : option Z) : option Z :=
  match s with
  | String c r =>
      match digit_value radix c with
      | Some d => parse_digits radix r (Some (radix * num_or_zero acc + d))
      | None => acc
      end
  | EmptyString => acc
  end.

(** An optional sign in front of the digits. *)
Definition split_sign (s : string) : bool * string :=
  match s with
  | String "-" r => (true, r)
  | String "+" r => (false, r)
  | _ => (false, s)
  end.

(** The prefix [0x] or [0X] selects radix 16. *)
Definition split_radix (s : string) : Z * string :=
  match s with
  | String "0" (String "x" r) => (16, r)
  | String "0" (String "X" r) => (16, r)
  | _ => (10, s)
  end.

(** [parseInt(s)]; [None] stands for [NaN]. *)
Definition parseInt (s : string) : option Z :=
  let '(negative, s2) := split_sign (trimStart s) in
  let '(radix, s3) := split_radix s2 in
  match parse_digits radix s3 None with
  | Some n => Some (if negative then - n else n)
  | None => None
  end.

(** [s.toUpperCase()] on the ASCII letters; other bytes are left alone. *)
Definition upper_ascii (c : ascii) : ascii :=
  let n := nat_of_ascii c in
  if ((97 <=? n)%nat && (n <=? 122)%nat) then ascii_of_nat (n - 32) else c.

Fixpoint toUpperCase (s : string) : string :=
  match s with
  | String c r => String (upper_ascii c) (toUpperCase r)
  | EmptyString => EmptyString
  end.

(** [s.length]: the number of UTF-16 units of the text.  A character of
    one, two or three bytes is one unit, a character of four bytes is two;
    the bytes that continue a character count with its first byte. *)
Fixpoint length_utf16 (s : string) : nat :=
  match s with
  | String c r =>
      let n := nat_of_ascii c in
      if ((n <? 128) || ((192 <=? n) && (n <? 240)))%nat then S (length_utf16 r)
      else if (n <? 192)%nat then length_utf16 r
      else
        match r with
        | String _ (String _ (String _ r4)) => S (S (length_utf16 r4))
        | _ => 1%nat
        end
  | EmptyString => 0%nat
  end.

End Js.

Import Js.

(** ** Tables *)

(** [products]: the columns the order workflow reads and writes. *)
Record ProductRow : Type := {
  p_name : string;
  p_price : Z;
  p_quantity : Z
}.

Inductive DiscountType : Type := Percentage | Fixed.

(** [promo_codes].  [pc_expires_at] is the column the apply-promo query
    names; the admin endpoints never write it, so it is [NULL] ([None]) for
    the rows they create. *)
Record PromoRow : Type := {
  pc_id : Z;
  pc_code : string;
  pc_discount_type : DiscountType;
  pc_discount_value : Z;
  pc_min_order_amount : option Z;
  pc_start_date : string;
  pc_end_date : string;
  pc_expires_at : option string;
  pc_max_uses : option Z;
  pc_current_uses : Z;
  pc_is_active : Z
}.

(** [promo_code_uses]. *)
Record PromoUse : Type := {
  pu_promo_code_id : Z;
  pu_user_id : string;
  pu_order_id : Z;
  pu_discount_amount : Z;
  pu_used_at : string
}.

(** One element of the JSON array in [orders.items]. *)
Record LineItem : Type := {
  li_id : Z;
  li_name : string;
  li_price : Z;
  li_quantity : JsVal
}.

(** [orders]: the columns of the workflow.  The INTEGER column
    [product_quantities_reduced] holds 0 or 1. *)
Record OrderRow : Type := {
  o_user_id : string;
  o_items : list LineItem;
  o_total_amount : Z;
  o_delivery_amount : Z;
  o_payment_method : string;
  o_payment_status : string;
  o_order_status : string;
  o_payment_proof_url : option string;
  o_promo_code : option string;
  o_promo_code_discount : option Z;
  o_product_quantities_reduced : Z
}.

Record Db : Type := {
  products : gmap Z ProductRow;
  promo_codes : list PromoRow;
  promo_code_uses : list PromoUse;
  orders : gmap Z OrderRow
}.

(** Field updates. *)
Definition set_products (f : gmap Z ProductRow -> gmap Z ProductRow) (db : Db) : Db :=
  {| products := f (products db); promo_codes := promo_codes db;
     promo_code_uses := promo_code_uses db; orders := orders db |}.

Definition set_promo_codes (f : list PromoRow -> list PromoRow) (db : Db) : Db :=
  {| products := products db; promo_codes := f (promo_codes db);
     promo_code_uses := promo_code_uses db; orders := orders db |}.

Definition set_promo_code_uses (f : list PromoUse -> list PromoUse) (db : Db) : Db :=
  {| products := products db; promo_codes := promo_codes db;
     promo_code_uses := f (promo_code_uses db); orders := orders db |}.

Definition set_orders (f : gmap Z OrderRow -> gmap Z OrderRow) (db : Db) : Db :=
  {| products := products db; promo_codes := promo_codes db;
     promo_code_uses := promo_code_uses db; orders := f (orders db) |}.

Definition with_quantity (q : Z) (p : ProductRow) : ProductRow :=
  {| p_name := p_name p; p_price := p_price p; p_quantity := q |}.

Definition with_current_uses (n : Z) (p : PromoRow) : PromoRow :=
  {| pc_id := pc_id p; pc_code := pc_code p;
     pc_discount_type := pc_discount_type p;
     pc_discount_value := pc_discount_value p;
     pc_min_order_amount := pc_min_order_amount p;
     pc_start_date := pc_start_date p; pc_end_date := pc_end_date p;
     pc_expires_at := pc_expires_at p; pc_max_uses := pc_max_uses p;
     pc_current_uses := n; pc_is_active := pc_is_active p |}.

Definition with_reduced (n : Z) (o : OrderRow) : OrderRow :=
  {| o_user_id := o_user_id o; o_items := o_items o;
     o_total_amount := o_total_amount o;
     o_delivery_amount := o_delivery_amount o;
     o_payment_method := o_payment_method o;
     o_payment_status := o_payment_status o;
     o_order_status := o_order_status o;
     o_payment_proof_url := o_payment_proof_url o;
     o_promo_code := o_promo_code o;
     o_promo_code_discount := o_promo_code_discount o;
     o_product_quantities_reduced := n |}.

Definition with_order_status (s : string) (o : OrderRow) : OrderRow :=
  {| o_user_id := o_user_id o; o_items := o_items o;
     o_total_amount := o_total_amount o;
     o_delivery_amount := o_delivery_amount o;
     o_payment_method := o_payment_method o;
     o_payment_status := o_payment_status o;
     o_order_status := s;
     o_payment_proof_url := o_payment_proof_url o;
     o_promo_code := o_promo_code o;
     o_promo_code_discount := o_promo_code_discount o;
     o_product_quantities_reduced := o_product_quantities_reduced o |}.

Definition with_promo (code : string) (discount : Z) (o : OrderRow) : OrderRow :=
  {| o_user_id := o_user_id o; o_items := o_items o;
     o_total_amount := o_total_amount o - discount;
     o_delivery_amount := o_delivery_amount o;
     o_payment_method := o_payment_method o;
     o_payment_status := o_payment_status o;
     o_order_status := o_order_status o;
     o_payment_proof_url := o_payment_proof_url o;
     o_promo_code := Some code;
     o_promo_code_discount := Some discount;
     o_product_quantities_reduced := o_product_quantities_reduced o |}.

(** [result.lastInsertRowid] of an INSERT into [orders]: one more than the
    largest rowid in the table. *)
Definition lastInsertRowid (t : gmap Z OrderRow) : Z :=
  1 + map_fold (fun k _ acc => Z.max k acc) 0 t.

(** ** Requests and responses *)

(** [req.user]. *)
Record User : Type := {
  u_id : string;
  u_isAdmin : bool
}.

(** One cart line of [CreateOrderRequest.items].  The quantity is a whole
    number: the handler itself never looks whether it is one (nor whether it
    is positive), and a request with a fraction for a quantity is outside
    this embedding. *)
Record CartItem : Type := {
  ci_id : Z;
  ci_quantity : Z
}.

(** [CreateOrderRequest].  [items = None] is a body whose [items] is not an
    array; [deliveryAmount = None] is [undefined], [null] or a value that is
    not a number. *)
Record CreateOrderRequest : Type := {
  userId : string;
  items : option (list CartItem);
  deliveryAmount : option Z;
  paymentMethod : string;
  paymentProof : option string;
  promoCode : option string
}.

(** The rejections of [POST /api/orders]. *)
Inductive OrderError : Type :=
| Forbidden
| EmptyCart
| NoDeliveryAmount
| ProductNotFound (id : Z)
| InsufficientStock (name : string) (available : Z)
| MinOrderAmount (minimum : Z)
| InvalidPromo.

Definition double_quote : string := String (ascii_of_nat 34) EmptyString.

(** [res.status(...)]. *)
Definition error_status (e : OrderError) : Z :=
  match e with
  | Forbidden => 403
  | _ => 400
  end.

(** [res.json({ message })]. *)
Definition error_message (e : OrderError) : string :=
  match e with
  | Forbidden => "Нельзя создать заказ от имени другого пользователя"
  | EmptyCart => "Корзина пуста или имеет неверный формат"
  | NoDeliveryAmount => "Не указана стоимость доставки"
  | ProductNotFound id => "Товар с ID " +:+ pretty id +:+ " не найден"
  | InsufficientStock name available =>
      "Недостаточное количество товара " +:+ double_quote +:+ name +:+ double_quote
        +:+ " в наличии (доступно: " +:+ pretty available +:+ ")"
  | MinOrderAmount m =>
      "Минимальная сумма заказа для применения промокода: " +:+ pretty m +:+ " ₽"
  | InvalidPromo => "Недействительный промокод"
  end.

Inductive OrderResult : Type :=
| Rejected (e : OrderError)
| Created (orderId : Z).

Definition result_status (r : OrderResult) : Z :=
  match r with
  | Rejected e => error_status e
  | Created _ => 201
  end.

(** ** [POST /api/orders] *)

(** The loop "Validate and calculate items total". *)
Fixpoint validate_items (t : gmap Z ProductRow) (l : list CartItem) (itemsTotal : Z)
  : OrderError + Z :=
  match l with
  | [] => inr itemsTotal
  | item :: rest =>
      match t !! ci_id item with
      | None => inl (ProductNotFound (ci_id item))
      | Some product =>
          if p_quantity product <? ci_quantity item
          then inl (InsufficientStock (p_name product) (p_quantity product))
          else validate_items t rest (itemsTotal + p_price product * ci_quantity item)
      end
  end.

(** The WHERE clause of the promo query of the handler. *)
Definition promo_matches_now (code now : string) (p : PromoRow) : bool :=
  String.eqb (pc_code p) code
  && (pc_is_active p =? 1)
  && (String.leb (pc_start_date p) now && String.leb now (pc_end_date p))
  && match pc_max_uses p with
     | None => true
     | Some m => pc_current_uses p <? m
     end.

(** "Validate and calculate promo code discount": the value of
    [promoCodeDiscount], or the rejection. *)
Definition order_promo_discount (db : Db) (now : string) (code : option string) (itemsTotal : Z)
  : OrderError + option Z :=
  match code with
  | Some c =>
      if str_truthy code then
        match List.find (promo_matches_now (toUpperCase c) now) (promo_codes db) with
        | Some promoCode =>
            if num_truthy (pc_min_order_amount promoCode)
               && (itemsTotal <? num_or_zero (pc_min_order_amount promoCode))
            then inl (MinOrderAmount (num_or_zero (pc_min_order_amount promoCode)))
            else
              let promoCodeDiscount :=
                match pc_discount_type promoCode with
                | Percentage => round_percent itemsTotal (pc_discount_value promoCode)
                | Fixed => pc_discount_value promoCode
                end in
              inr (Some (Z.min promoCodeDiscount itemsTotal))
        | None => inl InvalidPromo
        end
      else inr None
  | None => inr None
  end.

(** The snapshot of the cart saved in [orders.items]. *)
Definition snapshot_item (t : gmap Z ProductRow) (item : CartItem) : LineItem :=
  let product := t !! ci_id item in
  {| li_id := ci_id item;
     li_name :=
       match product with
       | Some p => if String.eqb (p_name p) EmptyString then "Unknown Product" else p_name p
       | None => "Unknown Product"
       end;
     li_price :=
       match product with
       | Some p => p_price p
       | None => 0
       end;
     li_quantity := JNum (ci_quantity item) |}.

(** [UPDATE promo_codes SET current_uses = current_uses + 1 WHERE code = ?]. *)
Definition bump_uses_by_code (code : string) (delta : Z) (l : list PromoRow) : list PromoRow :=
  List.map (fun p =>
    if String.eqb (pc_code p) code
    then with_current_uses (pc_current_uses p + delta) p
    else p) l.

(** [INSERT INTO promo_code_uses (...) SELECT id, ?, ?, ?, datetime('now')
    FROM promo_codes WHERE code = ?]. *)
Definition uses_for_code (code user : string) (orderId discount : Z) (now : string)
  (l : list PromoRow) : list PromoUse :=
  List.map (fun p =>
    {| pu_promo_code_id := pc_id p; pu_user_id := user; pu_order_id := orderId;
       pu_discount_amount := discount; pu_used_at := now |})
    (List.filter (fun p => String.eqb (pc_code p) code) l).

(** [UPDATE products SET quantity = quantity - ? WHERE id = ?], once for
    each cart line. *)
Fixpoint reduce_quantities (l : list CartItem) (t : gmap Z ProductRow) : gmap Z ProductRow :=
  match l with
  | [] => t
  | item :: rest =>
      reduce_quantities rest
        (alter (fun p => with_quantity (p_quantity p - ci_quantity item) p) (ci_id item) t)
  end.

(** "Prepare order data for saving": the row handed to the INSERT.  The
    column [product_quantities_reduced] is not in the INSERT and takes its
    default, 0. *)
Definition order_to_save (db : Db) (orderData : CreateOrderRequest) (cart : list CartItem)
  (delivery itemsTotal : Z) (promoCodeDiscount : option Z) : OrderRow :=
  let totalAmount := itemsTotal - num_or_zero promoCodeDiscount + delivery in
  let balance := String.eqb (paymentMethod orderData) "balance" in
  {| o_user_id := userId orderData;
     o_items := List.map (snapshot_item (products db)) cart;
     o_total_amount := totalAmount;
     o_delivery_amount := delivery;
     o_payment_method := paymentMethod orderData;
     o_payment_status := if balance then "completed" else "pending";
     o_order_status := if balance then "processing" else "pending";
     o_payment_proof_url :=
       if str_truthy (paymentProof orderData) then paymentProof orderData else None;
     o_promo_code :=
       if str_truthy (promoCode orderData) then promoCode orderData else None;
     o_promo_code_discount := promoCodeDiscount;
     o_product_quantities_reduced := 0 |}.

(** The transaction of the handler: the INSERT, the promo usage, and the
    stock reduction of a paid order.  Returns [lastInsertRowid] too. *)
Definition save_order (db : Db) (now : string) (orderData : CreateOrderRequest)
  (cart : list CartItem) (orderToSave : OrderRow) (promoCodeDiscount : option Z) : Z * Db :=
  let orderId := lastInsertRowid (orders db) in
  let db1 := set_orders (insert orderId orderToSave) db in
  let db2 :=
    match promoCode orderData with
    | Some c =>
        if str_truthy (promoCode orderData) then
          let code := toUpperCase c in
          let db' := set_promo_codes (bump_uses_by_code code 1) db1 in
          set_promo_code_uses
            (fun u => (u ++ uses_for_code code (userId orderData) orderId
                              (num_or_zero promoCodeDiscount) now (promo_codes db'))%list)
            db'
        else db1
    | None => db1
    end in
  let db3 :=
    if String.eqb (paymentMethod orderData) "balance" || str_truthy (paymentProof orderData)
    then set_orders (alter (with_reduced 1) orderId) (set_products (reduce_quantities cart) db2)
    else db2 in
  (orderId, db3).

(** The handler: the response and the database it leaves. *)
Definition create_order (db : Db) (now : string) (user : User) (orderData : CreateOrderRequest)
  : OrderResult * Db :=
  if negb (String.eqb (u_id user) (userId orderData)) && negb (u_isAdmin user)
  then (Rejected Forbidden, db)
  else
    match items orderData with
    | None | Some [] => (Rejected EmptyCart, db)
    | Some (first :: others) =>
        let cart := first :: others in
        match deliveryAmount orderData with
        | None => (Rejected NoDeliveryAmount, db)
        | Some delivery =>
            match validate_items (products db) cart 0 with
            | inl e => (Rejected e, db)
            | inr itemsTotal =>
                match order_promo_discount db now (promoCode orderData) itemsTotal with
                | inl e => (Rejected e, db)
                | inr promoCodeDiscount =>
                    let orderToSave :=
                      order_to_save db orderData cart delivery itemsTotal promoCodeDiscount in
                    let '(orderId, db') :=
                      save_order db now orderData cart orderToSave promoCodeDiscount in
                    (Created orderId, db')
                end
            end
        end
    end.

(** ** [updateProductQuantities] *)

(** What JavaScript receives for the INTEGER column
    [product_quantities_reduced] of a row of [orders]: the number stored.
    (The rest of the file reads INTEGER flags of rows the same way:
    [order.need_insulation === 1], [dbUser.is_admin === 1],
    [review.is_approved === 1].) *)
Definition row_reduced (o : OrderRow) : JsVal := JNum (o_product_quantities_reduced o).

(** [parseInt(String(v || 0))]. *)
Definition parse_quantity (v : JsVal) : option Z :=
  parseInt (to_String (or_else v (JNum 0))).

(** The body of the loop over the items, for one item.  An item without id
    ([item.id] falsy), with a quantity that is not a number or is [<= 0], or
    whose product is gone is skipped ([continue]). *)
Definition reduce_item (item : LineItem) (t : gmap Z ProductRow) : gmap Z ProductRow :=
  if li_id item =? 0 then t
  else
    match parse_quantity (li_quantity item) with
    | None => t
    | Some quantity =>
        if quantity <=? 0 then t
        else
          match t !! li_id item with
          | None => t
          | Some product =>
              let currentQuantity :=
                match parse_quantity (JNum (p_quantity product)) with
                | Some n => n
                | None => 0
                end in
              let newQuantity := Z.max 0 (currentQuantity - quantity) in
              alter (with_quantity newQuantity) (li_id item) t
          end
    end.

Definition reduce_items (l : list LineItem) (t : gmap Z ProductRow) : gmap Z ProductRow :=
  fold_left (fun acc item => reduce_item item acc) l t.

(** The check "не списаны ли уже товары для этого заказа". *)
Definition already_reduced (db : Db) (orderId : Z) : bool :=
  match orders db !! orderId with
  | Some orderRecord => strict_eq (row_reduced orderRecord) (JBool true)
  | None => false
  end.

(** The function: its boolean result and the database it leaves.  The route
    parameter [orderId] is never empty and the column exists, so the first
    check and the schema repair do nothing.  Every UPDATE of the loop follows
    a successful SELECT of the same id, so [success] stays [true]. *)
Definition updateProductQuantities (db : Db) (orderId : Z) (l : list LineItem) : bool * Db :=
  match l with
  | [] => (false, db)
  | _ =>
      if already_reduced db orderId then (true, db)
      else
        let db1 := set_products (reduce_items l) db in
        (true, set_orders (alter (with_reduced 1) orderId) db1)
  end.

(** ** [PUT /api/orders/:id/status] and [PUT /api/orders/:id] *)

Inductive StatusResult : Type :=
| StatusMissing       (* 400 *)
| StatusNoOrder       (* 404 *)
| StatusUpdated.      (* 200 *)

Definition is_paid_or_processing (s : string) : bool :=
  String.eqb s "paid" || String.eqb s "processing".

(** [PUT /api/orders/:id/status]. *)
Definition update_order_status (db : Db) (orderId : Z) (orderStatus : string)
  : StatusResult * Db :=
  if String.eqb orderStatus EmptyString then (StatusMissing, db)
  else
    match orders db !! orderId with
    | None => (StatusNoOrder, db)
    | Some currentOrder =>
        let previousStatus :=
          if String.eqb (o_order_status currentOrder) EmptyString then "pending"
          else o_order_status currentOrder in
        let db1 := set_orders (alter (with_order_status orderStatus) orderId) db in
        if is_paid_or_processing orderStatus && negb (is_paid_or_processing previousStatus)
        then
          match o_items currentOrder with
          | [] => (StatusUpdated, db1)
          | l => (StatusUpdated, snd (updateProductQuantities db1 orderId l))
          end
        else (StatusUpdated, db1)
    end.

(** [PUT /api/orders/:id]; of the fields it can write only [order_status] is
    a column of the model.  [orderStatus = None] is a body without it. *)
Definition update_order (db : Db) (orderId : Z) (orderStatus : option string)
  : StatusResult * Db :=
  match orders db !! orderId with
  | None => (StatusNoOrder, db)
  | Some currentOrder =>
      let prevStatus :=
        if String.eqb (o_order_status currentOrder) EmptyString then "unknown"
        else o_order_status currentOrder in
      match orderStatus with
      | Some s =>
          if str_truthy orderStatus then
            let db1 := set_orders (alter (with_order_status s) orderId) db in
            if is_paid_or_processing s && negb (is_paid_or_processing prevStatus)
            then
              match o_items currentOrder with
              | [] => (StatusUpdated, db1)
              | l => (StatusUpdated, snd (updateProductQuantities db1 orderId l))
              end
            else (StatusUpdated, db1)
          else (StatusUpdated, db)
      | None => (StatusUpdated, db)
      end
  end.

(** ** [DELETE /api/orders/:id] *)

(** The number SQLite adds for a bound parameter in [quantity + ?]: a number
    as it is, a text by its leading integer (0 when it has none).  The driver
    binds no boolean: [None] is its [TypeError]. *)
Definition sqlite_text_to_int (s : string) : Z :=
  let '(negative, s2) := split_sign (skip_white_space s) in
  match parse_digits 10 s2 None with
  | Some n => if negative then - n else n
  | None => 0
  end.

Definition bound_number (v : JsVal) : option Z :=
  match v with
  | JNum n => Some n
  | JStr s => Some (sqlite_text_to_int s)
  | JNull | JUndefined => Some 0
  | JBool _ => None
  end.

(** The loop "возвращаем их количество": [UPDATE products SET quantity =
    quantity + ? WHERE id = ?] for each item with an id and a quantity; an
    exception leaves the loop (it is caught and logged). *)
Fixpoint restore_quantities (l : list LineItem) (t : gmap Z ProductRow) : gmap Z ProductRow :=
  match l with
  | [] => t
  | item :: rest =>
      if negb (li_id item =? 0) && truthy (li_quantity item) then
        match bound_number (li_quantity item) with
        | Some n =>
            restore_quantities rest
              (alter (fun p => with_quantity (p_quantity p + n) p) (li_id item) t)
        | None => t
        end
      else restore_quantities rest t
  end.

Inductive DeleteResult : Type :=
| DeleteNoOrder       (* 404 *)
| Deleted.            (* 200 *)

Definition delete_order (db : Db) (orderId : Z) : DeleteResult * Db :=
  match orders db !! orderId with
  | None => (DeleteNoOrder, db)
  | Some order =>
      let db1 :=
        match o_promo_code order with
        | Some code =>
            if str_truthy (o_promo_code order) then
              set_promo_codes (bump_uses_by_code code (-1))
                (set_promo_code_uses
                   (List.filter (fun u => negb (pu_order_id u =? orderId))) db)
            else db
        | None => db
        end in
      let db2 :=
        if truthy (row_reduced order)
        then set_products (restore_quantities (o_items order)) db1
        else db1 in
      (Deleted, set_orders (delete orderId) db2)
  end.

(** ** [POST /api/orders/:orderId/apply-promo] *)

Inductive PromoError : Type :=
| Unauthorized
| OrderNotFound
| PromoInvalid
| PromoMinOrder (minimum : Z)
| PromoLimitReached
| PromoAlreadyUsed.

Definition promo_error_status (e : PromoError) : Z :=
  match e with
  | Unauthorized => 401
  | OrderNotFound => 404
  | _ => 400
  end.

Definition promo_error_message (e : PromoError) : string :=
  match e with
  | Unauthorized => "Пользователь не авторизован"
  | OrderNotFound => "Заказ не найден"
  | PromoInvalid => "Недействительный промокод"
  | PromoMinOrder m =>
      "Минимальная сумма заказа для этого промокода: " +:+ pretty m +:+ " ₽"
  | PromoLimitReached => "Достигнут лимит использований промокода"
  | PromoAlreadyUsed => "Вы уже использовали этот промокод"
  end.

Inductive PromoResult : Type :=
| PromoRejected (e : PromoError)
| PromoApplied (orderId : Z).     (* 200 with the formatted order *)

(** The WHERE clause of the promo query of this endpoint. *)
Definition promo_matches_apply (code now : string) (p : PromoRow) : bool :=
  String.eqb (pc_code p) code
  && match pc_expires_at p with
     | None => true
     | Some e => String.ltb now e
     end
  && (pc_is_active p =? 1).

Definition apply_promo (db : Db) (now : string) (userId : string) (orderId : Z)
  (promoCode : string) : PromoResult * Db :=
  if String.eqb userId EmptyString then (PromoRejected Unauthorized, db)
  else
    match orders db !! orderId with
    | None => (PromoRejected OrderNotFound, db)
    | Some order =>
        match List.find (promo_matches_apply promoCode now) (promo_codes db) with
        | None => (PromoRejected PromoInvalid, db)
        | Some promo =>
            if num_truthy (pc_min_order_amount promo)
               && (o_total_amount order <? num_or_zero (pc_min_order_amount promo))
            then (PromoRejected (PromoMinOrder (num_or_zero (pc_min_order_amount promo))), db)
            else if num_truthy (pc_max_uses promo)
                    && (num_or_zero (pc_max_uses promo) <=? pc_current_uses promo)
            then (PromoRejected PromoLimitReached, db)
            else
              match List.find
                      (fun u => (pu_promo_code_id u =? pc_id promo)
                                && String.eqb (pu_user_id u) userId)
                      (promo_code_uses db) with
              | Some _ => (PromoRejected PromoAlreadyUsed, db)
              | None =>
                  let itemsTotal := o_total_amount order - o_delivery_amount order in
                  let discountAmount :=
                    match pc_discount_type promo with
                    | Percentage => round_percent itemsTotal (pc_discount_value promo)
                    | Fixed => pc_discount_value promo
                    end in
                  let discountAmount := Z.min discountAmount itemsTotal in
                  let db1 :=
                    set_orders (alter (with_promo (pc_code promo) discountAmount) orderId) db in
                  let db2 :=
                    set_promo_codes
                      (List.map (fun p =>
                         if pc_id p =? pc_id promo
                         then with_current_uses (pc_current_uses p + 1) p
                         else p)) db1 in
                  let db3 :=
                    set_promo_code_uses
                      (fun u => (u ++ [ {| pu_promo_code_id := pc_id promo;
                                           pu_user_id := userId;
                                           pu_order_id := orderId;
                                           pu_discount_amount := discountAmount;
                                           pu_used_at := now |} ])%list) db2 in
                  (PromoApplied orderId, db3)
              end
        end
    end.

(** ** Specification-side definitions *)

(** "Payment is completed": the test that guards the stock reduction. *)
Definition paid_at_creation (req : CreateOrderRequest) : bool :=
  String.eqb (paymentMethod req) "balance" || str_truthy (paymentProof req).

(** The item subtotal of a cart: the sum over its lines of the product price
    times the requested quantity. *)
Fixpoint items_total (t : gmap Z ProductRow) (l : list CartItem) : Z :=
  match l with
  | [] => 0
  | item :: rest =>
      match t !! ci_id item with
      | Some p => p_price p
      | None => 0
      end * ci_quantity item + items_total t rest
  end.

(** The discount rule of the handlers as one function of the base: what
    [Math.round(base * (value / 100))] gives for a percentage, the value
    itself for a fixed discount, and never more than the base
    ([Math.min]). *)
Definition spec_discount (ty : DiscountType) (value subtotal : Z) : Z :=
  match ty with
  | Percentage => Z.min (round_percent subtotal value) subtotal
  | Fixed => Z.min value subtotal
  end.

(** The item subtotal of a saved order: price times quantity over its line
    items. *)
Fixpoint line_items_total (l : list LineItem) : Z :=
  match l with
  | [] => 0
  | item :: rest =>
      li_price item * match li_quantity item with
                      | JNum q => q
                      | _ => 0
                      end + line_items_total rest
  end.

(** Data invariants the admin endpoints establish: [promoCodeSchema] accepts
    no negative [discountValue], and prices are not negative. *)
Definition nonneg_prices (db : Db) : Prop :=
  forall id p, products db !! id = Some p -> 0 <= p_price p.

Definition nonneg_discount_values (db : Db) : Prop :=
  Forall (fun p => 0 <= pc_discount_value p) (promo_codes db).

(** No product is in negative stock. *)
Definition nonneg_stock (t : gmap Z ProductRow) : Prop :=
  forall id p, t !! id = Some p -> 0 <= p_quantity p.

(** When a promo code may be used, in the words of the specification: its
    flag is set, the current time is inside its window, and its use counter
    is under its cap. *)
Definition promo_active (p : PromoRow) : Prop := pc_is_active p = 1.

Definition promo_in_window (now : string) (p : PromoRow) : Prop :=
  String.leb (pc_start_date p) now = true /\ String.leb now (pc_end_date p) = true.

Definition promo_under_cap (p : PromoRow) : Prop :=
  match pc_max_uses p with
  | None => True
  | Some m => pc_current_uses p < m
  end.

Definition promo_usable (now : string) (p : PromoRow) : Prop :=
  promo_active p /\ promo_in_window now p /\ promo_under_cap p.

(** The causes for which [POST /api/orders] refuses a request. *)
Inductive FailureKind : Type :=
| OtherUser
| CartEmpty
| DeliveryMissing
| ProductMissing
| StockExceeded
| BelowMinimum
| PromoNotValid.

Definition failure_kind (e : OrderError) : FailureKind :=
  match e with
  | Forbidden => OtherUser
  | EmptyCart => CartEmpty
  | NoDeliveryAmount => DeliveryMissing
  | ProductNotFound _ => ProductMissing
  | InsufficientStock _ _ => StockExceeded
  | MinOrderAmount _ => BelowMinimum
  | InvalidPromo => PromoNotValid
  end.

(** What is wrong with a request, stated on the request and the store. *)
Inductive request_failure (db : Db) (now : string) (user : User) (req : CreateOrderRequest)
  : FailureKind -> Prop :=
| fail_other_user :
    u_id user <> userId req -> u_isAdmin user = false ->
    request_failure db now user req OtherUser
| fail_cart_empty :
    items req = None \/ items req = Some [] ->
    request_failure db now user req CartEmpty
| fail_delivery_missing :
    deliveryAmount req = None ->
    request_failure db now user req DeliveryMissing
| fail_product_missing cart item :
    items req = Some cart -> In item cart -> products db !! ci_id item = None ->
    request_failure db now user req ProductMissing
| fail_stock_exceeded cart item p :
    items req = Some cart -> In item cart -> products db !! ci_id item = Some p ->
    p_quantity p < ci_quantity item ->
    request_failure db now user req StockExceeded
| fail_below_minimum c cart promo m :
    promoCode req = Some c -> items req = Some cart ->
    In promo (promo_codes db) -> pc_code promo = toUpperCase c ->
    promo_usable now promo ->
    pc_min_order_amount promo = Some m -> m <> 0 ->
    items_total (products db) cart < m ->
    request_failure db now user req BelowMinimum
| fail_promo_not_valid c :
    promoCode req = Some c -> c <> EmptyString ->
    (forall p, In p (promo_codes db) -> pc_code p = toUpperCase c -> ~ promo_usable now p) ->
    request_failure db now user req PromoNotValid.

(** The checks that stand before the per-user check, on the promo row the
    query returned. *)
Definition meets_minimum (order : OrderRow) (promo : PromoRow) : Prop :=
  forall m, pc_min_order_amount promo = Some m -> m = 0 \/ m <= o_total_amount order.

Definition below_cap (promo : PromoRow) : Prop :=
  forall m, pc_max_uses promo = Some m -> m = 0 \/ pc_current_uses promo < m.

Definition used_by (uses : list PromoUse) (promo : PromoRow) (user : string) : Prop :=
  exists u, In u uses /\ pu_promo_code_id u = pc_id promo /\ pu_user_id u = user.

(** The database an accepted request leaves. *)
Definition promo_applied_db (db : Db) (now userId : string) (orderId : Z)
  (order : OrderRow) (promo : PromoRow) : Db :=
  let discount :=
    spec_discount (pc_discount_type promo) (pc_discount_value promo)
      (o_total_amount order - o_delivery_amount order) in
  {| products := products db;
     promo_codes :=
       List.map (fun p => if pc_id p =? pc_id promo
                          then with_current_uses (pc_current_uses p + 1) p else p)
         (promo_codes db);
     promo_code_uses :=
       (promo_code_uses db ++
          [ {| pu_promo_code_id := pc_id promo; pu_user_id := userId;
               pu_order_id := orderId; pu_discount_amount := discount;
               pu_used_at := now |} ])%list;
     orders := alter (with_promo (pc_code promo) discount) orderId (orders db) |}.

(** The quantity an order holds of one product: the sum over its line items
    with that id. *)
Fixpoint ordered_quantity (l : list LineItem) (id : Z) : Z :=
  match l with
  | [] => 0
  | item :: rest =>
      (if li_id item =? id
       then match li_quantity item with
            | JNum q => q
            | _ => 0
            end
       else 0) + ordered_quantity rest id
  end.

(** Every line carries a number as quantity and an id other than 0, as the
    lines saved by [POST /api/orders] do for products with a proper id. *)
Definition numeric_lines (l : list LineItem) : Prop :=
  Forall (fun item => li_id item <> 0 /\ exists q, li_quantity item = JNum q) l.

(** ** A small shop for the worked examples *)

Module Sample.

Definition now : string := "2024-06-01 12:00:00".

Definition fern : ProductRow := {| p_name := "Fern"; p_price := 500; p_quantity := 10 |}.

Definition palm : ProductRow := {| p_name := "Palm"; p_price := 1000; p_quantity := 5 |}.

Definition promo (id : Z) (code : string) (ty : DiscountType) (value : Z)
  (end_date : string) (max_uses : option Z) : PromoRow :=
  {| pc_id := id; pc_code := code; pc_discount_type := ty; pc_discount_value := value;
     pc_min_order_amount := None;
     pc_start_date := "2024-01-01T00:00:00.000Z"; pc_end_date := end_date;
     pc_expires_at := None; pc_max_uses := max_uses; pc_current_uses := 0;
     pc_is_active := 1 |}.

(** Ten percent off, valid until 2030. *)
Definition save10 : PromoRow := promo 1 "SAVE10" Percentage 10 "2030-01-01T00:00:00.000Z" None.

(** Fifty percent off, valid until 2030. *)
Definition half : PromoRow := promo 2 "HALF" Percentage 50 "2030-01-01T00:00:00.000Z" None.

(** Fifty percent off, over since February 2024. *)
Definition old50 : PromoRow := promo 3 "OLD50" Percentage 50 "2024-02-01T00:00:00.000Z" None.

(** A fixed 100 off that can be used once. *)
Definition once : PromoRow := promo 4 "ONCE" Fixed 100 "2030-01-01T00:00:00.000Z" (Some 1).

Definition shop : Db :=
  {| products := <[1 := fern]> (<[2 := palm]> ∅);
     promo_codes := [save10; half; old50; once];
     promo_code_uses := [];
     orders := ∅ |}.

Definition alice : User := {| u_id := "alice"; u_isAdmin := false |}.

Definition line (id quantity : Z) : CartItem := {| ci_id := id; ci_quantity := quantity |}.

Definition request (cart : list CartItem) (delivery : Z) (method : string)
  (proof code : option string) : CreateOrderRequest :=
  {| userId := "alice"; items := Some cart; deliveryAmount := Some delivery;
     paymentMethod := method; paymentProof := proof; promoCode := code |}.

(** The database after a request of [alice]. *)
Definition after_order (db : Db) (req : CreateOrderRequest) : Db :=
  snd (create_order db now alice req).

Definition stock (db : Db) (id : Z) : option Z := p_quantity <$> products db !! id.

(** The saved order of alice for one palm with delivery 200, as a row. *)
Definition palm_order (code : option string) (discount : option Z) (total : Z) : OrderRow :=
  {| o_user_id := "alice";
     o_items := [ {| li_id := 2; li_name := "Palm"; li_price := 1000;
                     li_quantity := JNum 1 |} ];
     o_total_amount := total; o_delivery_amount := 200;
     o_payment_method := "card"; o_payment_status := "pending";
     o_order_status := "pending"; o_payment_proof_url := None;
     o_promo_code := code; o_promo_code_discount := discount;
     o_product_quantities_reduced := 0 |}.

Definition uses_of (db : Db) (code : string) : list Z :=
  List.map pc_current_uses (List.filter (fun p => String.eqb (pc_code p) code) (promo_codes db)).

End Sample.

(** ** CSV export: [escapeCSVField] and the row writer *)

Module Csv.

Definition quote : ascii := ascii_of_nat 34.

Definition newline : ascii := ascii_of_nat 10.

Definition semicolon : ascii := ascii_of_nat 59.

(** [field.includes(c)] for a one-character [c]. *)
Fixpoint includes (c : ascii) (s : string) : bool :=
  match s with
  | String a r => Ascii.eqb a c || includes c r
  | EmptyString => false
  end.

(** The global replace of the field: every quote character is written
    twice. *)
Fixpoint double_quotes (s : string) : string :=
  match s with
  | String a r =>
      if Ascii.eqb a quote then String quote (String quote (double_quotes r))
      else String a (double_quotes r)
  | EmptyString => EmptyString
  end.

(** The test of the second [if]: the field has a semicolon, a quote or a
    line feed. *)
Definition needs_quotes (field : string) : bool :=
  includes semicolon field || includes quote field || includes newline field.

Definition escapeCSVField (field : string) : string :=
  if String.eqb field EmptyString then EmptyString
  else if needs_quotes field
       then String quote (double_quotes field +:+ String quote EmptyString)
       else field.

(** [cells.join(sep)] on strings. *)
Fixpoint join (sep : string) (l : list string) : string :=
  match l with
  | [] => EmptyString
  | [x] => x
  | x :: rest => x +:+ sep +:+ join sep rest
  end.

(** [row.map(field => escapeCSVField(field.toString())).join(';')], the line
    the user, statistics and order exports write for one row of cells. *)
Definition csv_row (row : list string) : string :=
  join (String semicolon EmptyString) (List.map escapeCSVField row).

(** How a reader of the file takes a line apart: a cell that opens with a
    quote runs to the next single quote, two quotes inside it standing for
    one; any other cell runs to the next semicolon.  [cell] holds the
    characters of the current cell, last one first. *)
Inductive ReadMode : Type := AtStart | InPlain | InQuoted | AfterQuote.

Fixpoint read_row (mode : ReadMode) (cell : list ascii) (s : string) : list string :=
  match s with
  | EmptyString => [string_of_list_ascii (rev cell)]
  | String c r =>
      match mode with
      | AtStart =>
          if Ascii.eqb c quote then read_row InQuoted [] r
          else if Ascii.eqb c semicolon
               then string_of_list_ascii (rev cell) :: read_row AtStart [] r
               else read_row InPlain (c :: cell) r
      | InPlain =>
          if Ascii.eqb c semicolon
          then string_of_list_ascii (rev cell) :: read_row AtStart [] r
          else read_row InPlain (c :: cell) r
      | InQuoted =>
          if Ascii.eqb c quote then read_row AfterQuote cell r
          else read_row InQuoted (c :: cell) r
      | AfterQuote =>
          if Ascii.eqb c quote then read_row InQuoted (c :: cell) r
          else if Ascii.eqb c semicolon
               then string_of_list_ascii (rev cell) :: read_row AtStart [] r
               else read_row InPlain (c :: cell) r
      end
  end.

End Csv.

(** ** [formatOrderForClient] *)

(** The part of the client object that is computed; the remaining fields are
    copies of columns with a default for a missing value.  A number that may
    be [NaN] is an [option Z] with [None] for [NaN]. *)
Record ClientOrder : Type := {
  co_items : list LineItem;
  co_itemsTotal : option Z;
  co_totalAmount : Z;
  co_deliveryAmount : Z;
  co_promoCode : option string;
  co_promoCodeDiscount : option Z;
  co_paymentMethod : string;
  co_paymentStatus : string;
  co_orderStatus : string
}.

(** One step of the [reduce] that adds up the items: the price is a number
    and comes back from [parseFloat(String(price || 0))] as it is; the
    quantity is [parseInt(String(quantity || 1))]. *)
Definition add_line (sum : option Z) (item : LineItem) : option Z :=
  match sum, parseInt (to_String (or_else (li_quantity item) (JNum 1))) with
  | Some s, Some quantity => Some (s + li_price item * quantity)
  | _, _ => None
  end.

Definition default_text (s d : string) : string :=
  if String.eqb s EmptyString then d else s.

Definition formatOrderForClient (order : OrderRow) : ClientOrder :=
  let itemsTotal := fold_left add_line (o_items order) (Some 0) in
  let promoCodeDiscount :=
    if num_truthy (o_promo_code_discount order) then
      match itemsTotal with
      | Some t => Some (Z.min (num_or_zero (o_promo_code_discount order)) t)
      | None => None
      end
    else None in
  {| co_items := o_items order;
     co_itemsTotal := itemsTotal;
     co_totalAmount := o_total_amount order;
     co_deliveryAmount := o_delivery_amount order;
     co_promoCode :=
       if str_truthy (o_promo_code order) then o_promo_code order else None;
     co_promoCodeDiscount :=
       if num_truthy promoCodeDiscount then promoCodeDiscount else None;
     co_paymentMethod := default_text (o_payment_method order) "card";
     co_paymentStatus := default_text (o_payment_status order) "pending";
     co_orderStatus := default_text (o_order_status order) "pending" |}.

(** ** [POST /api/promo-codes/validate] *)

Inductive ValidateResult : Type :=
| ValidateBadData                          (* 400, the schema refuses the body *)
| ValidateNotFound                         (* 404 *)
| ValidateBelowMinimum (minimum : Z)       (* 400 *)
| ValidatePreview (code : string) (discount : Z).   (* 200 *)

(** [validatePromoCodeSchema] on a body with a text [code] and a number
    [cartTotal], then the handler.  It writes nothing. *)
Definition validate_promo_code (db : Db) (now code : string) (cartTotal : Z)
  : ValidateResult :=
  if String.eqb code EmptyString || (cartTotal <? 0) then ValidateBadData
  else
    match List.find (promo_matches_now (toUpperCase code) now) (promo_codes db) with
    | None => ValidateNotFound
    | Some promoCode =>
        if num_truthy (pc_min_order_amount promoCode)
           && (cartTotal <? num_or_zero (pc_min_order_amount promoCode))
        then ValidateBelowMinimum (num_or_zero (pc_min_order_amount promoCode))
        else
          let discount :=
            match pc_discount_type promoCode with
            | Percentage => round_percent cartTotal (pc_discount_value promoCode)
            | Fixed => pc_discount_value promoCode
            end in
          ValidatePreview (pc_code promoCode) (Z.min discount cartTotal)
    end.

(** ** [POST /api/orders/:id/payment-proof] and [POST /api/orders/:id/complete] *)

Definition with_payment (proof : option string) (payment_status order_status : string)
  (o : OrderRow) : OrderRow :=
  {| o_user_id := o_user_id o; o_items := o_items o;
     o_total_amount := o_total_amount o;
     o_delivery_amount := o_delivery_amount o;
     o_payment_method := o_payment_method o;
     o_payment_status := payment_status;
     o_order_status := order_status;
     o_payment_proof_url := proof;
     o_promo_code := o_promo_code o;
     o_promo_code_discount := o_promo_code_discount o;
     o_product_quantities_reduced := o_product_quantities_reduced o |}.

Inductive ProofResult : Type :=
| ProofNoFile          (* 400 *)
| ProofNoOrder         (* 404 *)
| ProofSaved.          (* 200 *)

(** The upload route.  [file] is the name multer gave the stored file, if a
    file came with the request; [id] is the text of the route parameter,
    which the handler passes through [parseInt] and back to text. *)
Definition upload_payment_proof (db : Db) (file : option string) (id : string)
  : ProofResult * Db :=
  match file with
  | None => (ProofNoFile, db)
  | Some filename =>
      match parseInt id with
      | None => (ProofNoOrder, db)
      | Some orderId =>
          match orders db !! orderId with
          | None => (ProofNoOrder, db)
          | Some order =>
              (ProofSaved,
               set_orders
                 (alter (fun o => with_payment (Some ("/uploads/" +:+ filename))
                                    "pending_verification" (o_order_status o) o)
                    orderId) db)
          end
      end
  end.

Inductive CompleteResult : Type :=
| CompleteNoOrder      (* 404 *)
| CompleteForbidden    (* 403 *)
| CompleteNoProof      (* 400 *)
| Completed.           (* 200 *)

Definition complete_order (db : Db) (user : User) (orderId : Z) : CompleteResult * Db :=
  match orders db !! orderId with
  | None => (CompleteNoOrder, db)
  | Some order =>
      if negb (u_isAdmin user) && negb (String.eqb (o_user_id order) (u_id user))
      then (CompleteForbidden, db)
      else if str_truthy (o_payment_proof_url order)
      then (Completed,
            set_orders
              (alter (fun o => with_payment (o_payment_proof_url o) "verification"
                                 "pending" o) orderId) db)
      else (CompleteNoProof, db)
  end.

(** ** The administrator's endpoints of [promo_codes] *)

(** The body of [POST] and [PUT /api/promo-codes], field by field as JSON
    gives it ([JUndefined]: the field is absent). *)
Record PromoCodeBody : Type := {
  b_code : JsVal;
  b_description : JsVal;
  b_discountType : JsVal;
  b_discountValue : JsVal;
  b_minOrderAmount : JsVal;
  b_startDate : JsVal;
  b_endDate : JsVal;
  b_maxUses : JsVal;
  b_isActive : JsVal
}.

(** What [promoCodeSchema.parse] returns.  [description] is checked and
    stored in a column that no handler of the model reads. *)
Record PromoCodeData : Type := {
  d_code : string;
  d_discountType : DiscountType;
  d_discountValue : Z;
  d_minOrderAmount : option Z;
  d_startDate : string;
  d_endDate : string;
  d_maxUses : option Z;
  d_isActive : bool
}.

(** [z.string().min(1)]. *)
Definition z_string_min1 (v : JsVal) : option string :=
  match v with
  | JStr s => if String.eqb s EmptyString then None else Some s
  | _ => None
  end.

(** [z.string().optional()]: [Some tt] when the value passes. *)
Definition z_string_optional (v : JsVal) : option unit :=
  match v with
  | JUndefined | JStr _ => Some tt
  | _ => None
  end.

(** [z.enum(["percentage", "fixed"])]. *)
Definition z_discount_type (v : JsVal) : option DiscountType :=
  match v with
  | JStr s =>
      if String.eqb s "percentage" then Some Percentage
      else if String.eqb s "fixed" then Some Fixed
      else None
  | _ => None
  end.

(** [z.number().min(m)]. *)
Definition z_number_min (m : Z) (v : JsVal) : option Z :=
  match v with
  | JNum n => if n <? m then None else Some n
  | _ => None
  end.

(** [z.number().min(m).optional()]. *)
Definition z_number_min_optional (m : Z) (v : JsVal) : option (option Z) :=
  match v with
  | JUndefined => Some None
  | _ => option_map Some (z_number_min m v)
  end.

(** [z.boolean().default(true)]. *)
Definition z_boolean_default_true (v : JsVal) : option bool :=
  match v with
  | JUndefined => Some true
  | JBool b => Some b
  | _ => None
  end.

(** [n || null] for an optional number. *)
Definition number_or_null (o : option Z) : option Z :=
  if num_truthy o then o else None.

Inductive PromoAdminResult : Type :=
| PromoBadData                             (* 400, a ZodError *)
| PromoDuplicate                           (* 400 *)
| PromoMissing                             (* 404 *)
| PromoSaved (row : option PromoRow)       (* 201 or 200, with the row read back *)
| PromoDeleted.                            (* 204 *)

(** The id SQLite gives to the next row of [promo_codes]: one more than the
    largest id of the table. *)
Definition next_promo_id (l : list PromoRow) : Z :=
  1 + fold_right (fun p acc => Z.max (pc_id p) acc) 0 l.

Section PromoAdmin.

(** [z.string().datetime()] accepts the texts of one fixed format; which
    ones plays no part below. *)
Variable is_datetime : string -> bool.

(** The route parameter [id] is bound as a text; [id = ?] holds for the row
    whose id is the integer SQLite reads the text as, if it reads it as
    one. *)
Variable text_as_integer : string -> option Z.

Definition z_datetime (v : JsVal) : option string :=
  match v with
  | JStr s => if is_datetime s then Some s else None
  | _ => None
  end.

(** [promoCodeSchema.parse(req.body)]; [None] is the [ZodError]. *)
Definition promoCodeSchema_parse (body : PromoCodeBody) : option PromoCodeData :=
  match z_string_min1 (b_code body),
        z_string_optional (b_description body),
        z_discount_type (b_discountType body),
        z_number_min 0 (b_discountValue body),
        z_number_min_optional 0 (b_minOrderAmount body),
        z_datetime (b_startDate body),
        z_datetime (b_endDate body),
        z_number_min_optional 1 (b_maxUses body),
        z_boolean_default_true (b_isActive body) with
  | Some code, Some _, Some discountType, Some discountValue, Some minOrderAmount,
    Some startDate, Some endDate, Some maxUses, Some isActive =>
      Some {| d_code := code; d_discountType := discountType;
              d_discountValue := discountValue; d_minOrderAmount := minOrderAmount;
              d_startDate := startDate; d_endDate := endDate;
              d_maxUses := maxUses; d_isActive := isActive |}
  | _, _, _, _, _, _, _, _, _ => None
  end.

(** The columns the INSERT and the UPDATE of the two handlers write, beside
    the ones they leave alone: the id, [current_uses] and [expires_at]. *)
Definition promo_row (id current_uses : Z) (expires_at : option string)
  (data : PromoCodeData) : PromoRow :=
  {| pc_id := id;
     pc_code := toUpperCase (d_code data);
     pc_discount_type := d_discountType data;
     pc_discount_value := d_discountValue data;
     pc_min_order_amount := number_or_null (d_minOrderAmount data);
     pc_start_date := d_startDate data;
     pc_end_date := d_endDate data;
     pc_expires_at := expires_at;
     pc_max_uses := number_or_null (d_maxUses data);
     pc_current_uses := current_uses;
     pc_is_active := if d_isActive data then 1 else 0 |}.

Definition id_is (id : string) (p : PromoRow) : bool :=
  match text_as_integer id with
  | Some n => pc_id p =? n
  | None => false
  end.

(** [POST /api/promo-codes].  The new row has no use yet and no
    [expires_at]. *)
Definition create_promo_code (db : Db) (body : PromoCodeBody) : PromoAdminResult * Db :=
  match promoCodeSchema_parse body with
  | None => (PromoBadData, db)
  | Some data =>
      match List.find (fun p => String.eqb (pc_code p) (toUpperCase (d_code data)))
                      (promo_codes db) with
      | Some existingCode => (PromoDuplicate, db)
      | None =>
          let row := promo_row (next_promo_id (promo_codes db)) 0 None data in
          (PromoSaved (Some row), set_promo_codes (fun l => (l ++ [row])%list) db)
      end
  end.

(** [PUT /api/promo-codes/:id]. *)
Definition update_promo_code (db : Db) (id : string) (body : PromoCodeBody)
  : PromoAdminResult * Db :=
  match promoCodeSchema_parse body with
  | None => (PromoBadData, db)
  | Some data =>
      match List.find (id_is id) (promo_codes db) with
      | None => (PromoMissing, db)
      | Some existingPromoCode =>
          match List.find (fun p => String.eqb (pc_code p) (toUpperCase (d_code data))
                                    && negb (id_is id p))
                          (promo_codes db) with
          | Some duplicateCode => (PromoDuplicate, db)
          | None =>
              let db' :=
                set_promo_codes
                  (List.map (fun p =>
                     if id_is id p
                     then promo_row (pc_id p) (pc_current_uses p) (pc_expires_at p) data
                     else p)) db in
              (PromoSaved (List.find (id_is id) (promo_codes db')), db')
          end
      end
  end.

(** [DELETE /api/promo-codes/:id]. *)
Definition delete_promo_code (db : Db) (id : string) : PromoAdminResult * Db :=
  match List.find (id_is id) (promo_codes db) with
  | None => (PromoMissing, db)
  | Some existingPromoCode =>
      (PromoDeleted, set_promo_codes (List.filter (fun p => negb (id_is id p))) db)
  end.

(** *** A run of the server *)

(** The requests of the endpoints above, as they reach the handlers: the
    middleware has let them pass. *)
Inductive Request : Type :=
| PostOrder (user : User) (orderData : CreateOrderRequest)
| PutOrderStatus (orderId : Z) (orderStatus : string)
| PutOrder (orderId : Z) (orderStatus : option string)
| DeleteOrder (orderId : Z)
| PostApplyPromo (userId : string) (orderId : Z) (promoCode : string)
| PostPaymentProof (file : option string) (id : string)
| PostComplete (user : User) (orderId : Z)
| PostPromoCode (body : PromoCodeBody)
| PutPromoCode (id : string) (body : PromoCodeBody)
| DeletePromoCode (id : string).

(** One request served at the time [now]: the database it leaves. *)
Definition serve (db : Db) (now : string) (r : Request) : Db :=
  match r with
  | PostOrder user orderData => snd (create_order db now user orderData)
  | PutOrderStatus orderId orderStatus => snd (update_order_status db orderId orderStatus)
  | PutOrder orderId orderStatus => snd (update_order db orderId orderStatus)
  | DeleteOrder orderId => snd (delete_order db orderId)
  | PostApplyPromo userId orderId promoCode =>
      snd (apply_promo db now userId orderId promoCode)
  | PostPaymentProof file id => snd (upload_payment_proof db file id)
  | PostComplete user orderId => snd (complete_order db user orderId)
  | PostPromoCode body => snd (create_promo_code db body)
  | PutPromoCode id body => snd (update_promo_code db id body)
  | DeletePromoCode id => snd (delete_promo_code db id)
  end.

(** The requests of a log, each with its time, served in order. *)
Definition serve_all (db : Db) (log : list (string * Request)) : Db :=
  fold_left (fun db entry => serve db (fst entry) (snd entry)) log db.

End PromoAdmin.

(** What the schema and the two handlers make of every row they write. *)
Definition promo_row_ok (p : PromoRow) : Prop :=
  toUpperCase (pc_code p) = pc_code p
  /\ pc_code p <> EmptyString
  /\ 0 <= pc_discount_value p
  /\ (forall m, pc_min_order_amount p = Some m -> 0 < m)
  /\ (forall m, pc_max_uses p = Some m -> 1 <= m)
  /\ (pc_is_active p = 0 \/ pc_is_active p = 1).

(** No two rows with one id or with one code, and every row as above. *)
Definition promo_table_ok (l : list PromoRow) : Prop :=
  NoDup (List.map pc_id l) /\ NoDup (List.map pc_code l) /\ Forall promo_row_ok l.

(** ** Passwords: [auth-sqlite.ts]

    [toLowerCase] changes the ASCII letters; the two tests of the password
    rules, [/[A-Z]/] and [/[0-9]/], look for ASCII letters and digits, which
    are bytes of their own in UTF-8; the length of a password is counted in
    UTF-16 units. *)

Definition lower_ascii (c : ascii) : ascii :=
  let n := nat_of_ascii c in
  if ((65 <=? n)%nat && (n <=? 90)%nat) then ascii_of_nat (n + 32) else c.

Fixpoint toLowerCase (s : string) : string :=
  match s with
  | String c r => String (lower_ascii c) (toLowerCase r)
  | EmptyString => EmptyString
  end.

(** [s.split(sep)] for a separator of one character. *)
Fixpoint split (sep : ascii) (s : string) : list string :=
  match s with
  | EmptyString => [EmptyString]
  | String c r =>
      if Ascii.eqb c sep then EmptyString :: split sep r
      else
        match split sep r with
        | first :: others => String c first :: others
        | [] => [String c EmptyString]
        end
  end.

Definition colon : ascii := ascii_of_nat 58.

Definition colon_text : string := String colon EmptyString.

(** [buffer.toString('hex')]. *)
Definition hex_digit (n : N) : ascii :=
  match String.get (N.to_nat n) "0123456789abcdef" with
  | Some c => c
  | None => "0"%char
  end.

Fixpoint to_hex (l : list Byte.byte) : string :=
  match l with
  | [] => EmptyString
  | b :: r =>
      String (hex_digit (Byte.to_N b / 16))
        (String (hex_digit (Byte.to_N b mod 16)) (to_hex r))
  end.

(** [Buffer.from(s, 'hex')]: pairs of hexadecimal digits, up to the first
    pair that is none. *)
Fixpoint from_hex (s : string) : list Byte.byte :=
  match s with
  | String a (String b r) =>
      match digit_value 16 a, digit_value 16 b with
      | Some x, Some y =>
          match Byte.of_N (Z.to_N (16 * x + y)) with
          | Some v => v :: from_hex r
          | None => []
          end
      | _, _ => []
      end
  | _ => []
  end.

Fixpoint bytes_eqb (a b : list Byte.byte) : bool :=
  match a, b with
  | [], [] => true
  | x :: a', y :: b' => Byte.eqb x y && bytes_eqb a' b'
  | _, _ => false
  end.

(** [crypto.timingSafeEqual]; [None] is its [RangeError] for buffers of
    different lengths. *)
Definition timingSafeEqual (a b : list Byte.byte) : option bool :=
  if (List.length a =? List.length b)%nat then Some (bytes_eqb a b) else None.

(** [/[A-Z]/.test(s)] and [/[0-9]/.test(s)]. *)
Fixpoint has_capital (s : string) : bool :=
  match s with
  | String c r =>
      let n := nat_of_ascii c in
      ((65 <=? n)%nat && (n <=? 90)%nat) || has_capital r
  | EmptyString => false
  end.

Fixpoint has_digit (s : string) : bool :=
  match s with
  | String c r =>
      let n := nat_of_ascii c in
      ((48 <=? n)%nat && (n <=? 57)%nat) || has_digit r
  | EmptyString => false
  end.

(** [users]: the columns the handlers below read and write. *)
Record UserRecord : Type := {
  ur_id : string;
  ur_email : string;
  ur_password : string;
  ur_username : string;
  ur_is_admin : Z
}.

Definition with_password (password : string) (u : UserRecord) : UserRecord :=
  {| ur_id := ur_id u; ur_email := ur_email u; ur_password := password;
     ur_username := ur_username u; ur_is_admin := ur_is_admin u |}.

(** The argument of [registerUser]. *)
Record UserData : Type := {
  ud_email : string;
  ud_password : string;
  ud_username : option string
}.

Inductive RegisterResult : Type :=
| RegisterNoEmail                     (* throws: the email is missing *)
| RegisterEmailTaken                  (* throws: the email is in the table *)
| RegisterFailed                      (* throws: the key derivation or the INSERT *)
| Registered (user : UserRecord).

Inductive PasswordResult : Type :=
| PasswordMissing                     (* 400 *)
| PasswordNoUser                      (* 404 *)
| PasswordWrong                       (* 400 *)
| PasswordTooShort                    (* 400 *)
| PasswordNoCapital                   (* 400 *)
| PasswordNoDigit                     (* 400 *)
| PasswordFailed                      (* 500 *)
| PasswordChanged.                    (* 200 *)

Section Passwords.

(** [crypto.pbkdf2Sync(password, salt, iterations, keylen, digest)]: the
    derived key, or [None] when it throws. *)
Variable pbkdf2Sync : string -> string -> Z -> Z -> string -> option (list Byte.byte).

(** [hashPassword]; [random] is what [crypto.randomBytes(32)] returned. *)
Definition hashPassword (random : list Byte.byte) (password : string) : option string :=
  let salt := to_hex random in
  let iterations := 10000 in
  let keylen := 64 in
  let digest := "sha512" in
  match pbkdf2Sync password salt iterations keylen digest with
  | Some key =>
      Some (salt +:+ colon_text +:+ pretty iterations +:+ colon_text +:+ pretty keylen
            +:+ colon_text +:+ digest +:+ colon_text +:+ to_hex key)
  | None => None
  end.

(** [comparePasswords]: every exception gives [false]. *)
Definition comparePasswords (storedPassword suppliedPassword : string) : bool :=
  match split colon storedPassword with
  | [salt; iterations; keylen; digest; storedHash] =>
      match parseInt iterations, parseInt keylen with
      | Some i, Some k =>
          match pbkdf2Sync suppliedPassword salt i k digest with
          | Some key =>
              match timingSafeEqual (from_hex storedHash) (from_hex (to_hex key)) with
              | Some equal => equal
              | None => false
              end
          | None => false
          end
      | _, _ => false
      end
  | _ => false
  end.

(** [registerUser]; [uuid] is what [crypto.randomUUID()] returned.  The
    INSERT fails on an id that is in the table. *)
Definition registerUser (users : list UserRecord) (uuid : string) (random : list Byte.byte)
  (userData : UserData) : RegisterResult * list UserRecord :=
  if String.eqb (ud_email userData) EmptyString then (RegisterNoEmail, users)
  else
    match List.find (fun u => String.eqb (ur_email u) (toLowerCase (ud_email userData)))
                    users with
    | Some emailExists => (RegisterEmailTaken, users)
    | None =>
        match hashPassword random (ud_password userData) with
        | None => (RegisterFailed, users)
        | Some hashedPassword =>
            match List.find (fun u => String.eqb (ur_id u) uuid) users with
            | Some _ => (RegisterFailed, users)
            | None =>
                let newUser :=
                  {| ur_id := uuid;
                     ur_email := toLowerCase (ud_email userData);
                     ur_password := hashedPassword;
                     ur_username :=
                       if str_truthy (ud_username userData)
                       then default EmptyString (ud_username userData)
                       else hd EmptyString (split "@" (ud_email userData));
                     ur_is_admin := 0 |} in
                (Registered newUser, (users ++ [newUser])%list)
            end
        end
    end.

(** The callback of the [LocalStrategy]: the user that is logged in. *)
Definition verify (users : list UserRecord) (email password : string) : option UserRecord :=
  match List.find (fun u => String.eqb (ur_email u) (toLowerCase email)) users with
  | None => None
  | Some user => if comparePasswords (ur_password user) password then Some user else None
  end.

(** [PUT /api/users/:id/password] of [routes-sqlite.ts], for a body with two
    texts. *)
Definition change_password (users : list UserRecord) (userId : string)
  (random : list Byte.byte) (oldPassword newPassword : string)
  : PasswordResult * list UserRecord :=
  if String.eqb oldPassword EmptyString || String.eqb newPassword EmptyString
  then (PasswordMissing, users)
  else
    match List.find (fun u => String.eqb (ur_id u) userId) users with
    | None => (PasswordNoUser, users)
    | Some user =>
        if negb (comparePasswords (ur_password user) oldPassword)
        then (PasswordWrong, users)
        else if (length_utf16 newPassword <? 8)%nat then (PasswordTooShort, users)
        else if negb (has_capital newPassword) then (PasswordNoCapital, users)
        else if negb (has_digit newPassword) then (PasswordNoDigit, users)
        else
          match hashPassword random newPassword with
          | None => (PasswordFailed, users)
          | Some hashedPassword =>
              (PasswordChanged,
               List.map (fun u => if String.eqb (ur_id u) userId
                                  then with_password hashedPassword u else u) users)
          end
    end.

End Passwords.

(** ** Passwords: the storage of the second authentication module *)

Module Storage.

Section Passwords.

Variable pbkdf2Sync : string -> string -> Z -> Z -> string -> option (list Byte.byte).

(** [storage.hashPassword]; [random] is what [crypto.randomBytes(16)]
    returned. *)
Definition hashPassword (random : list Byte.byte) (password : string) : option string :=
  let salt := to_hex random in
  match pbkdf2Sync password salt 1000 64 "sha512" with
  | Some key => Some (salt +:+ colon_text +:+ to_hex key)
  | None => None
  end.

(** [storage.comparePasswords]: [hash] is [undefined], and equal to no text,
    when the stored text has no colon; [None] is the exception of the key
    derivation. *)
Definition comparePasswords (plain hashed : string) : option bool :=
  match split colon hashed with
  | salt :: rest =>
      match pbkdf2Sync plain salt 1000 64 "sha512" with
      | Some key =>
          match rest with
          | hash :: _ => Some (String.eqb hash (to_hex key))
          | [] => Some false
          end
      | None => None
      end
  | [] => None
  end.

End Passwords.

End Storage.

(** No two users with one id or one email, and every email in lower
    case. *)
Definition users_ok (users : list UserRecord) : Prop :=
  NoDup (List.map ur_id users) /\ NoDup (List.map ur_email users)
  /\ Forall (fun u => toLowerCase (ur_email u) = ur_email u) users.

(** ** Sessions and the administrator's rights *)

(** The user object of a request.  [su_is_admin] is the property
    [is_admin] that the two middlewares of [routes-sqlite.ts] write beside
    [isAdmin]; the object made from a row has none ([None]). *)
Record SessionUser : Type := {
  su_id : string;
  su_email : string;
  su_username : string;
  su_isAdmin : bool;
  su_is_admin : option Z
}.

Definition userRecordToSessionUser (dbUser : UserRecord) : SessionUser :=
  {| su_id := ur_id dbUser;
     su_email := ur_email dbUser;
     su_username :=
       if String.eqb (ur_username dbUser) EmptyString then ur_email dbUser
       else ur_username dbUser;
     su_isAdmin := ur_is_admin dbUser =? 1;
     su_is_admin := None |}.

Definition user_by_id (users : list UserRecord) (id : string) : option UserRecord :=
  List.find (fun u => String.eqb (ur_id u) id) users.

(** [passport.deserializeUser]: the user of a request whose session holds
    [id]; none when the row is gone. *)
Definition deserializeUser (users : list UserRecord) (id : string) : option SessionUser :=
  option_map userRecordToSessionUser (user_by_id users id).

(** [updateUserSession]: the fields copied from the row; [is_admin] is not
    among them. *)
Definition updateUserSession (users : list UserRecord) (user : SessionUser) : SessionUser :=
  match user_by_id users (su_id user) with
  | Some dbUser =>
      let updatedUser := userRecordToSessionUser dbUser in
      {| su_id := su_id updatedUser; su_email := su_email updatedUser;
         su_username := su_username updatedUser;
         su_isAdmin := su_isAdmin updatedUser;
         su_is_admin := su_is_admin user |}
  | None => user
  end.

Definition grant (user : SessionUser) : SessionUser :=
  {| su_id := su_id user; su_email := su_email user; su_username := su_username user;
     su_isAdmin := true; su_is_admin := Some 1 |}.

(** [preserveAdminStatus], which every request passes first. *)
Definition preserveAdminStatus (adminCache : gset string) (req_user : option SessionUser)
  : gset string * option SessionUser :=
  match req_user with
  | Some user =>
      let userId := su_id user in
      let user1 := if decide (userId ∈ adminCache) then grant user else user in
      let adminCache1 :=
        if su_isAdmin user1 || bool_decide (su_is_admin user1 = Some 1)
        then {[ userId ]} ∪ adminCache
        else adminCache in
      (adminCache1, Some user1)
  | None => (adminCache, None)
  end.

(** [ensureAuthenticated]: the user the handler sees, or the 401. *)
Definition ensureAuthenticated (users : list UserRecord) (req_user : option SessionUser)
  : option SessionUser :=
  match req_user with
  | Some user =>
      let user1 := updateUserSession users user in
      if String.eqb (su_id user1) EmptyString then None
      else
        match user_by_id users (su_id user1) with
        | Some existingUser => Some user1
        | None => None
        end
  | None => None
  end.

(** [ensureAdmin]: the user the handler sees, or the 403; and the cache. *)
Definition ensureAdmin (adminCache : gset string) (users : list UserRecord)
  (req_user : option SessionUser) : option SessionUser * gset string :=
  match req_user with
  | Some user0 =>
      let user := updateUserSession users user0 in
      if decide (su_id user ∈ adminCache) then (Some (grant user), adminCache)
      else
        match user_by_id users (su_id user) with
        | Some dbUser =>
            if (ur_is_admin dbUser =? 1) || negb (ur_is_admin dbUser =? 0)
            then (Some (grant user), {[ su_id user ]} ∪ adminCache)
            else (None, adminCache)
        | None => (None, adminCache)
        end
  | None => (None, adminCache)
  end.

(** A request to a route guarded by [ensureAdmin] alone, from a session
    that holds [id]: the three steps before the handler. *)
Definition admin_request (adminCache : gset string) (users : list UserRecord) (id : string)
  : option SessionUser * gset string :=
  let '(adminCache1, user1) := preserveAdminStatus adminCache (deserializeUser users id) in
  ensureAdmin adminCache1 users user1.

(** A request to a route guarded by [ensureAuthenticated] alone. *)
Definition user_request (adminCache : gset string) (users : list UserRecord) (id : string)
  : option SessionUser * gset string :=
  let '(adminCache1, user1) := preserveAdminStatus adminCache (deserializeUser users id) in
  (ensureAuthenticated users user1, adminCache1).

(** ** [PUT /api/users/:id] *)

(** The fields of the body the columns of the model depend on: two texts,
    if given, and [isAdmin]. *)
Record UserBody : Type := {
  ub_email : option string;
  ub_username : option string;
  ub_isAdmin : JsVal
}.

Inductive UserUpdateResult : Type :=
| UserForbidden                       (* 403 *)
| UserMissing                         (* 404 *)
| UserEmailTaken                      (* 400 *)
| UserUpdated (user : option SessionUser).   (* 200, with the row read back *)

Definition is_undefined (v : JsVal) : bool :=
  match v with
  | JUndefined => true
  | _ => false
  end.

Definition update_user (users : list UserRecord) (user : SessionUser) (userId : string)
  (body : UserBody) : UserUpdateResult * list UserRecord :=
  let isOwnProfile := String.eqb (su_id user) userId in
  if negb isOwnProfile && negb (su_isAdmin user) then (UserForbidden, users)
  else
    match user_by_id users userId with
    | None => (UserMissing, users)
    | Some existingUser =>
        let new_email :=
          str_truthy (ub_email body)
          && negb (String.eqb (default EmptyString (ub_email body)) (ur_email existingUser)) in
        let lower := toLowerCase (default EmptyString (ub_email body)) in
        if new_email
           && match List.find (fun u => String.eqb (ur_email u) lower
                                        && negb (String.eqb (ur_id u) userId)) users with
              | Some emailExists => true
              | None => false
              end
        then (UserEmailTaken, users)
        else
          let username :=
            if str_truthy (ub_username body) then default EmptyString (ub_username body)
            else if str_truthy (ub_email body) then default EmptyString (ub_email body)
            else ur_email existingUser in
          let users' :=
            List.map (fun u =>
              if String.eqb (ur_id u) userId then
                {| ur_id := ur_id u;
                   ur_email := if new_email then lower else ur_email u;
                   ur_password := ur_password u;
                   ur_username := username;
                   ur_is_admin :=
                     if su_isAdmin user && negb (is_undefined (ub_isAdmin body))
                     then (if truthy (ub_isAdmin body) then 1 else 0)
                     else ur_is_admin u |}
              else u) users in
          (UserUpdated (option_map userRecordToSessionUser (user_by_id users' userId)),
           users')
    end.

(** The cache after a log of requests, each to a route guarded by
    [ensureAdmin] ([true]) or by [ensureAuthenticated] ([false]), with the
    table of users at its time and the id its session holds. *)
Definition cache_after (adminCache : gset string)
  (log : list (bool * list UserRecord * string)) : gset string :=
  fold_left (fun cache entry =>
               let '(admin_route, users, id) := entry in
               if admin_route : bool then snd (admin_request cache users id)
               else snd (user_request cache users id))
            log adminCache.

(** ** The shop front: the cart of [ProductCard] and the price range of
    [CategoryFilter] *)

(** The fields of a product [addToCart] reads. *)
Record CardProduct : Type := {
  cp_id : Z;
  cp_name : string;
  cp_images : list string;
  cp_price : string
}.

(** One element of the array kept under the key [cart] of the local
    storage, with a number as quantity. *)
Record CartLine : Type := {
  cl_id : Z;
  cl_name : string;
  cl_image : option string;
  cl_price : string;
  cl_quantity : Z
}.

(** [cart.findIndex(item => item.id === id)]; [None] is [-1]. *)
Fixpoint findIndex (id : Z) (cart : list CartLine) : option nat :=
  match cart with
  | [] => None
  | item :: rest =>
      if cl_id item =? id then Some 0%nat
      else option_map S (findIndex id rest)
  end.

Definition one_more (item : CartLine) : CartLine :=
  {| cl_id := cl_id item; cl_name := cl_name item; cl_image := cl_image item;
     cl_price := cl_price item; cl_quantity := cl_quantity item + 1 |}.

(** [addToCart]: the cart written back to the local storage. *)
Definition addToCart (product : CardProduct) (cart : list CartLine) : list CartLine :=
  match findIndex (cp_id product) cart with
  | Some existingItemIndex => alter one_more existingItemIndex cart
  | None =>
      (cart ++ [ {| cl_id := cp_id product; cl_name := cp_name product;
                    cl_image := head (cp_images product);
                    cl_price := cp_price product; cl_quantity := 1 |} ])%list
  end.

(** The quantity a cart holds of one product. *)
Fixpoint quantity_in (cart : list CartLine) (id : Z) : Z :=
  match cart with
  | [] => 0
  | item :: rest => (if cl_id item =? id then cl_quantity item else 0) + quantity_in rest id
  end.

(** The state of [CategoryFilter] that the price handlers write. *)
Record PriceState : Type := {
  priceRange : Z * Z;
  minPriceInput : string;
  maxPriceInput : string
}.

Definition initial_price_state : PriceState :=
  {| priceRange := (500, 5000); minPriceInput := "500"; maxPriceInput := "5000" |}.

(** [handlePriceChange], with the two numbers of the slider. *)
Definition handlePriceChange (st : PriceState) (value0 value1 : Z) : PriceState :=
  {| priceRange := (value0, value1);
     minPriceInput := to_String (JNum value0);
     maxPriceInput := to_String (JNum value1) |}.

(** [parseInt(s) || d]. *)
Definition parseInt_or (s : string) (d : Z) : Z :=
  match parseInt s with
  | Some n => if n =? 0 then d else n
  | None => d
  end.

Definition handlePriceInputChange (st : PriceState) (min max : string) : PriceState :=
  let minValue := parseInt_or min 0 in
  let maxValue := parseInt_or max 10000 in
  {| priceRange :=
       if (0 <=? minValue) && (minValue <? maxValue) then (minValue, maxValue)
       else priceRange st;
     minPriceInput := min;
     maxPriceInput := max |}.

(** A range the filter can be applied with. *)
Definition range_ok (r : Z * Z) : Prop := 0 <= fst r /\ fst r < snd r.

(** ** More sample data for the worked examples *)

Module Examples.

Import Sample.

(** Two ferns, paid later by card. *)
Definition later : CreateOrderRequest := request [line 1 2] 300 "card" None None.

(** Two ferns and a palm, paid from the balance. *)
Definition paid : CreateOrderRequest := request [line 1 2; line 2 1] 300 "balance" None None.

(** Two ferns with the code SAVE10 typed in small letters. *)
Definition discounted : CreateOrderRequest :=
  request [line 1 2] 300 "card" None (Some "save10").

(** A stand-in for the key derivation: the bytes of the password and the
    salt. *)
Definition toy_pbkdf2 (password salt : string) (iterations keylen : Z) (digest : string)
  : option (list Byte.byte) :=
  Some (list_byte_of_string (password +:+ salt)).

Definition salt1 : list Byte.byte := [Byte.x00; Byte.xff; Byte.x3a].

Definition salt2 : list Byte.byte := [Byte.x10; Byte.x2b].

Definition ann_data : UserData :=
  {| ud_email := "Ann@Example.com"; ud_password := "Secret123"; ud_username := None |}.

(** The table after the registration of ann. *)
Definition one_user : list UserRecord :=
  snd (registerUser toy_pbkdf2 [] "u-1" salt1 ann_data).

Definition ann : UserRecord :=
  match one_user with
  | u :: _ => u
  | [] => {| ur_id := EmptyString; ur_email := EmptyString; ur_password := EmptyString;
             ur_username := EmptyString; ur_is_admin := 0 |}
  end.

Definition root : UserRecord :=
  {| ur_id := "u-0"; ur_email := "root@example.com"; ur_password := "x";
     ur_username := "root"; ur_is_admin := 1 |}.

(** [root] with the flag taken away. *)
Definition demoted : UserRecord :=
  {| ur_id := "u-0"; ur_email := "root@example.com"; ur_password := "x";
     ur_username := "root"; ur_is_admin := 0 |}.

(** The user object of ann when the cache of administrators holds her
    id. *)
Definition cached_ann : SessionUser :=
  updateUserSession [root; ann] (grant (userRecordToSessionUser ann)).

Definition twenty_four (s : string) : bool := (String.length s =? 24)%nat.

Definition welcome (code : string) : PromoCodeBody :=
  {| b_code := JStr code; b_description := JUndefined;
     b_discountType := JStr "percentage"; b_discountValue := JNum 15;
     b_minOrderAmount := JNum 0;
     b_startDate := JStr "2024-01-01T00:00:00.000Z";
     b_endDate := JStr "2030-01-01T00:00:00.000Z";
     b_maxUses := JUndefined; b_isActive := JUndefined |}.

Definition fern_card : CardProduct :=
  {| cp_id := 1; cp_name := "Fern"; cp_images := ["/uploads/fern.png"]; cp_price := "500" |}.

End Examples.

(** ** [GET] and [PUT /api/payment-details] *)

Fixpoint starts_with (prefix s : string) : bool :=
  match prefix, s with
  | EmptyString, _ => true
  | String a p, String b r => Ascii.eqb a b && starts_with p r
  | String _ _, EmptyString => false
  end.

(** [s.includes(needle)]. *)
Fixpoint includes_text (needle s : string) : bool :=
  starts_with needle s
  || match s with
     | String _ r => includes_text needle r
     | EmptyString => false
     end.

Fixpoint drop_chars (n : nat) (s : string) : string :=
  match n, s with
  | S m, String _ r => drop_chars m r
  | _, _ => s
  end.

(** [s.replace(needle, '')]: the first occurrence is taken out. *)
Fixpoint remove_first (needle s : string) : string :=
  if starts_with needle s then drop_chars (String.length needle) s
  else
    match s with
    | String c r => String c (remove_first needle r)
    | EmptyString => EmptyString
    end.

Definition line_feed : string := String Csv.newline EmptyString.

Definition card_label : string := "Номер карты:".

Definition holder_label : string := "Получатель:".

Definition bank_label : string := "Банк:".

(** The row of [payment_details] (the first one; the handlers read and
    write no other). *)
Record PaymentDetails : Type := {
  pd_card_number : string;
  pd_card_holder : string;
  pd_bank_name : string;
  pd_instructions : string;
  pd_qr_code_url : string
}.

(** The text [bankDetails] of the responses. *)
Definition bank_details_text (d : PaymentDetails) : string :=
  card_label +:+ " " +:+ pd_card_number d +:+ line_feed
  +:+ holder_label +:+ " " +:+ pd_card_holder d +:+ line_feed
  +:+ bank_label +:+ " " +:+ pd_bank_name d +:+ line_feed
  +:+ line_feed
  +:+ pd_instructions d.

(** The fields of the body of the PUT, each a text if given. *)
Record PaymentBody : Type := {
  pb_bankDetails : option string;
  pb_cardNumber : option string;
  pb_cardHolder : option string;
  pb_bankName : option string;
  pb_instructions : option string
}.

(** [lines.findIndex(l => l.trim() === '')]; [None] is [-1]. *)
Fixpoint empty_line_index (lines : list string) : option nat :=
  match lines with
  | [] => None
  | l :: rest =>
      if String.eqb (trim l) EmptyString then Some 0%nat
      else option_map S (empty_line_index rest)
  end.

(** The value of one field after the text [bankDetails] was read: the
    line with the label, if there is one, else the field of the body. *)
Definition labelled (label : string) (lines : list string) (given : option string)
  : option string :=
  match List.find (includes_text label) lines with
  | Some line => Some (trim (remove_first label line))
  | None => given
  end.

(** [v || d] for a text that may be absent. *)
Definition text_or (v : option string) (d : string) : string :=
  if str_truthy v then default EmptyString v else d.

(** [PUT /api/payment-details]: the row the table holds afterwards. *)
Definition put_payment_details (table : option PaymentDetails) (body : PaymentBody)
  : PaymentDetails :=
  let lines :=
    if str_truthy (pb_bankDetails body)
    then Some (split Csv.newline (default EmptyString (pb_bankDetails body)))
    else None in
  let cardNum :=
    match lines with
    | Some l => labelled card_label l (pb_cardNumber body)
    | None => pb_cardNumber body
    end in
  let holder :=
    match lines with
    | Some l => labelled holder_label l (pb_cardHolder body)
    | None => pb_cardHolder body
    end in
  let bank :=
    match lines with
    | Some l => labelled bank_label l (pb_bankName body)
    | None => pb_bankName body
    end in
  let instrText :=
    match lines with
    | Some l =>
        match empty_line_index l with
        | Some emptyLineIndex =>
            if (emptyLineIndex <? List.length l - 1)%nat
            then Some (Csv.join line_feed (skipn (emptyLineIndex + 1) l))
            else pb_instructions body
        | None => pb_instructions body
        end
    | None => pb_instructions body
    end in
  match table with
  | None =>
      {| pd_card_number := text_or cardNum EmptyString;
         pd_card_holder := text_or holder EmptyString;
         pd_bank_name := text_or bank EmptyString;
         pd_instructions := text_or instrText EmptyString;
         pd_qr_code_url := "/uploads/default-qr.png" |}
  | Some paymentDetails =>
      {| pd_card_number := text_or cardNum (pd_card_number paymentDetails);
         pd_card_holder := text_or holder (pd_card_holder paymentDetails);
         pd_bank_name := text_or bank (pd_bank_name paymentDetails);
         pd_instructions := text_or instrText (pd_instructions paymentDetails);
         pd_qr_code_url := pd_qr_code_url paymentDetails |}
  end.

(** A field that goes on one line of the text and comes back from it: no
    line feed in it, and [trim] takes nothing off its ends. *)
Definition one_line (s : string) : Prop :=
  Csv.includes Csv.newline s = false /\ trim s = s.

(** A row whose text can be read back: three one-line fields, no label of a
    later line in an earlier one. *)
Definition readable (d : PaymentDetails) : Prop :=
  one_line (pd_card_number d) /\ one_line (pd_card_holder d) /\ one_line (pd_bank_name d)
  /\ includes_text holder_label (pd_card_number d) = false
  /\ includes_text bank_label (pd_card_number d) = false
  /\ includes_text bank_label (pd_card_holder d) = false.

Module PaymentExample.

Definition details : PaymentDetails :=
  {| pd_card_number := "2200 1234 5678 9010";
     pd_card_holder := "IVANOV I.";
     pd_bank_name := "Tinkoff";
     pd_instructions := "Pay, then upload" +:+ line_feed +:+ line_feed +:+ "the receipt.";
     pd_qr_code_url := "/uploads/qr.png" |}.

(** The body the admin page sends: the text, and a stale card number
    beside it. *)
Definition body : PaymentBody :=
  {| pb_bankDetails := Some (bank_details_text details);
     pb_cardNumber := Some "0000";
     pb_cardHolder := None; pb_bankName := None; pb_instructions := None |}.

End PaymentExample.

(** ** Basic facts *)

Section Basics.

Lemma nearest_even_nonneg n d : 0 <= n -> 0 < d -> 0 <= nearest_even n d.
Proof.
  intros Hn Hd. unfold nearest_even. cbv zeta.
  pose proof (Z.div_pos n d Hn Hd) as Hq.
  destruct (2 * (n mod d) <? d); [exact Hq|].
  destruct (d <? 2 * (n mod d)); [lia|].
  destruct (Z.even (n / d)); lia.
Qed.

(** The rounding to an integer: the result is within a half of the
    quotient, and even when it is a half away. *)
Lemma nearest_even_nearest n d :
  0 < d ->
  2 * Z.abs (nearest_even n d * d - n) <= d
  /\ (2 * Z.abs (nearest_even n d * d - n) = d -> Z.even (nearest_even n d) = true).
Proof.
  intros Hd. unfold nearest_even. cbv zeta.
  pose proof (Z.div_mod n d ltac:(lia)) as Hn.
  pose proof (Z.mod_pos_bound n d Hd) as Hr.
  destruct (Z.ltb_spec (2 * (n mod d)) d) as [H1|H1].
  { split; [nia|]. intros E. exfalso. nia. }
  destruct (Z.ltb_spec d (2 * (n mod d))) as [H2|H2].
  { split; [nia|]. intros E. exfalso. nia. }
  destruct (Z.even (n / d)) eqn:Ev.
  - split; [nia|]. intros _. exact Ev.
  - split; [nia|]. intros _. rewrite Z.even_add, Ev. reflexivity.
Qed.

(** The leading bit of a quotient. *)
Lemma ratio_log2_spec n d :
  0 < n -> 0 < d ->
  (0 <= ratio_log2 n d ->
   d * 2 ^ ratio_log2 n d <= n < d * 2 ^ (ratio_log2 n d + 1))
  /\ (ratio_log2 n d < 0 ->
      d <= n * 2 ^ (- ratio_log2 n d) < 2 * d).
Proof.
  intros Hn Hd.
  pose proof (Z.log2_spec n Hn) as [Hn1 Hn2].
  pose proof (Z.log2_spec d Hd) as [Hd1 Hd2].
  pose proof (Z.log2_nonneg n) as Ha. pose proof (Z.log2_nonneg d) as Hb.
  rewrite Z.pow_succ_r in Hn2, Hd2 by assumption.
  unfold ratio_log2. cbv zeta.
  set (a := Z.log2 n) in *. set (b := Z.log2 d) in *.
  assert (Hpa : 0 < 2 ^ a) by (apply Z.pow_pos_nonneg; lia).
  assert (Hpb : 0 < 2 ^ b) by (apply Z.pow_pos_nonneg; lia).
  destruct (Z.leb_spec 0 (a - b)) as [Hk|Hk].
  - assert (Hab : 2 ^ a = 2 ^ b * 2 ^ (a - b)).
    { rewrite <- Z.pow_add_r by lia. f_equal. lia. }
    assert (Hpk : 0 < 2 ^ (a - b)) by (apply Z.pow_pos_nonneg; lia).
    destruct (Z.leb_spec (d * 2 ^ (a - b)) n) as [H|H].
    + split; [|lia]. intros _. split; [exact H|].
      rewrite Z.pow_add_r by lia. change (2 ^ 1) with 2. nia.
    + destruct (Z.eq_dec (a - b) 0) as [E|E].
      * split; [lia|]. intros _. rewrite E in *. change (2 ^ 0) with 1 in *.
        replace (- (0 - 1)) with 1 by lia. change (2 ^ 1) with 2. nia.
      * split; [|lia]. intros _.
        replace (a - b - 1 + 1) with (a - b) by lia. split; [|lia].
        assert (2 ^ (a - b) = 2 * 2 ^ (a - b - 1)) as Hs.
        { rewrite <- Z.pow_succ_r by lia. f_equal. lia. }
        assert (0 < 2 ^ (a - b - 1)) by (apply Z.pow_pos_nonneg; lia).
        nia.
  - assert (Hab : 2 ^ b = 2 ^ a * 2 ^ (- (a - b))).
    { rewrite <- Z.pow_add_r by lia. f_equal. lia. }
    assert (Hpk : 0 < 2 ^ (- (a - b))) by (apply Z.pow_pos_nonneg; lia).
    destruct (Z.leb_spec d (n * 2 ^ (- (a - b)))) as [H|H].
    + split; [lia|]. intros _. split; [exact H|]. nia.
    + split; [lia|]. intros _.
      replace (- (a - b - 1)) with (Z.succ (- (a - b))) by lia.
      rewrite Z.pow_succ_r by lia. split; nia.
Qed.

Lemma nearest_even_between n d lo hi :
  0 < d -> d * lo <= n < d * hi -> lo <= nearest_even n d <= hi.
Proof.
  intros Hd [H1 H2]. unfold nearest_even. cbv zeta.
  assert (Hq : lo <= n / d < hi).
  { split.
    - apply Z.div_le_lower_bound; lia.
    - apply Z.div_lt_upper_bound; lia. }
  destruct (2 * (n mod d) <? d); [lia|].
  destruct (d <? 2 * (n mod d)); [lia|].
  destruct (Z.even (n / d)); lia.
Qed.

(** At the exponent of the leading bit the mantissa has 53 bits (or is
    [2 ^ 53], the next power of two). *)
Lemma mantissa_bounds n d :
  0 < n -> 0 < d ->
  (0 <= ratio_log2 n d - 52 ->
   2 ^ 52 <= nearest_even n (d * 2 ^ (ratio_log2 n d - 52)) <= 2 ^ 53)
  /\ (ratio_log2 n d - 52 < 0 ->
      2 ^ 52 <= nearest_even (n * 2 ^ (- (ratio_log2 n d - 52))) d <= 2 ^ 53).
Proof.
  intros Hn Hd. destruct (ratio_log2_spec n d Hn Hd) as [Hpos Hneg].
  set (k := ratio_log2 n d) in *. split; intros He.
  - destruct (Hpos ltac:(lia)) as [H1 H2].
    assert (Hp : 0 < 2 ^ (k - 52)) by (apply Z.pow_pos_nonneg; lia).
    assert (Hk : 2 ^ k = 2 ^ (k - 52) * 2 ^ 52).
    { rewrite <- Z.pow_add_r by lia. f_equal. lia. }
    rewrite Z.pow_add_r in H2 by lia. change (2 ^ 1) with 2 in H2.
    apply nearest_even_between; [nia|].
    change (2 ^ 53) with (2 ^ 52 * 2). nia.
  - destruct (Z.le_gt_cases 0 k) as [Hk|Hk].
    + destruct (Hpos Hk) as [H1 H2].
      assert (Hp : 0 < 2 ^ (- (k - 52))) by (apply Z.pow_pos_nonneg; lia).
      assert (Hpk : 0 < 2 ^ k) by (apply Z.pow_pos_nonneg; lia).
      assert (Hs : 2 ^ k * 2 ^ (- (k - 52)) = 2 ^ 52).
      { rewrite <- Z.pow_add_r by lia. f_equal. lia. }
      rewrite Z.pow_add_r in H2 by lia. change (2 ^ 1) with 2 in H2.
      apply nearest_even_between; [exact Hd|].
      change (2 ^ 53) with (2 ^ 52 * 2). rewrite <- Hs. nia.
    + destruct (Hneg Hk) as [H1 H2].
      assert (Hs : 2 ^ (- (k - 52)) = 2 ^ (- k) * 2 ^ 52).
      { rewrite <- Z.pow_add_r by lia. f_equal. lia. }
      apply nearest_even_between; [exact Hd|].
      change (2 ^ 53) with (2 ^ 52 * 2). rewrite Hs. nia.
Qed.

(** The fraction that stands for a double has a positive denominator, and
    the sign of what was rounded. *)
Lemma double_of_ratio_nonneg n d :
  0 <= n -> 0 < d ->
  0 <= fst (double_of_ratio n d) /\ 0 < snd (double_of_ratio n d).
Proof.
  intros Hn Hd. unfold double_of_ratio.
  destruct (n =? 0); [cbn [fst snd]; lia|]. cbv zeta.
  destruct (0 <=? Z.max (ratio_log2 n d - 52) (-1074)) eqn:E; cbn [fst snd].
  - apply Z.leb_le in E. split; [|lia].
    apply Z.mul_nonneg_nonneg; [|apply Z.pow_nonneg; lia].
    apply nearest_even_nonneg; [exact Hn|].
    apply Z.mul_pos_pos; [exact Hd|]. apply Z.pow_pos_nonneg; lia.
  - apply Z.leb_gt in E. split; [|apply Z.pow_pos_nonneg; lia].
    apply nearest_even_nonneg; [|exact Hd].
    apply Z.mul_nonneg_nonneg; [exact Hn|]. apply Z.pow_nonneg; lia.
Qed.

Lemma to_double_nonneg n d :
  0 <= n -> 0 < d -> 0 <= fst (to_double n d) /\ 0 < snd (to_double n d).
Proof.
  intros Hn Hd. unfold to_double.
  pose proof (double_of_ratio_nonneg (Z.abs n) d (Z.abs_nonneg n) Hd) as H.
  destruct (double_of_ratio (Z.abs n) d) as [a b]. cbn [fst snd] in *.
  split; [|tauto]. apply Z.mul_nonneg_nonneg; [|tauto].
  apply Z.sgn_nonneg. exact Hn.
Qed.

Lemma round_percent_nonneg t v : 0 <= t -> 0 <= v -> 0 <= round_percent t v.
Proof.
  intros Ht Hv. unfold round_percent.
  pose proof (to_double_nonneg v 100 Hv ltac:(lia)) as H.
  destruct (to_double v 100) as [a b]. cbn [fst snd] in H. destruct H as [Ha Hb].
  pose proof (to_double_nonneg (t * a) b ltac:(nia) Hb) as H.
  destruct (to_double (t * a) b) as [c d]. cbn [fst snd] in H.
  unfold Math_round. apply Z.div_pos; lia.
Qed.

(** The two roundings are those of doubles: 35 percent of 350 is 122, where
    the exact quotient 122.5 would go up to 123; so for 58 percent of 25 and
    29 percent of 50, which give 14 and not 15.  A half that a double holds,
    as 52.5, goes up, and below zero towards zero. *)
Lemma round_percent_in_doubles :
  round_percent 350 35 = 122
  /\ (2 * (350 * 35) + 100) / 200 = 123
  /\ round_percent 25 58 = 14
  /\ round_percent 50 29 = 14
  /\ round_percent 150 35 = 53
  /\ round_percent (-150) 35 = -52
  /\ round_percent 1000 10 = 100
  /\ round_percent 1000 50 = 500
  /\ round_percent 900 50 = 450.
Proof. repeat split; vm_compute; reflexivity. Qed.

Lemma already_reduced_false db orderId : already_reduced db orderId = false.
Proof. unfold already_reduced. destruct (orders db !! orderId); reflexivity. Qed.

Lemma validate_items_total t l : forall acc total,
  validate_items t l acc = inr total -> total = acc + items_total t l.
Proof.
  induction l as [|item rest IH]; intros acc total H; simpl in *.
  - injection H as <-. lia.
  - destruct (t !! ci_id item) as [p|]; [|discriminate].
    destruct (p_quantity p <? ci_quantity item); [discriminate|].
    apply IH in H. lia.
Qed.

(** A cart that passes the validation names existing products only, each
    with enough stock for its own line. *)
Lemma validate_items_stock t l : forall acc total,
  validate_items t l acc = inr total ->
  Forall (fun item => exists p, t !! ci_id item = Some p
                                /\ ci_quantity item <= p_quantity p) l.
Proof.
  induction l as [|item rest IH]; intros acc total H; simpl in *.
  - constructor.
  - destruct (t !! ci_id item) as [p|] eqn:Hp; [|discriminate].
    destruct (p_quantity p <? ci_quantity item) eqn:Hq; [discriminate|].
    constructor; [|eauto].
    exists p. split; [exact Hp|]. apply Z.ltb_ge in Hq. exact Hq.
Qed.

Lemma items_total_nonneg t l :
  (forall id p, t !! id = Some p -> 0 <= p_price p) ->
  Forall (fun item => 0 <= ci_quantity item) l ->
  0 <= items_total t l.
Proof.
  intros Hp Hl. induction Hl as [|item rest Hq _ IH]; simpl; [lia|].
  destruct (t !! ci_id item) as [p|] eqn:E; [|lia].
  specialize (Hp _ _ E). nia.
Qed.

(** What [promoCodeDiscount] can be after the promo step. *)
Lemma order_promo_discount_inr db now code itemsTotal d :
  order_promo_discount db now code itemsTotal = inr d ->
  (str_truthy code = false /\ d = None)
  \/ (exists c promo,
        code = Some c /\ str_truthy code = true
        /\ List.find (promo_matches_now (toUpperCase c) now) (promo_codes db) = Some promo
        /\ d = Some (spec_discount (pc_discount_type promo) (pc_discount_value promo)
                       itemsTotal)).
Proof.
  unfold order_promo_discount. intros H.
  destruct code as [c|]; [|left; injection H as <-; auto].
  destruct (str_truthy (Some c)) eqn:Ht; [|left; injection H as <-; auto].
  destruct (List.find _ _) as [promo|] eqn:Hf; [|discriminate].
  destruct (_ && _); [discriminate|].
  injection H as <-. right. exists c, promo.
  repeat split; auto. unfold spec_discount. destruct (pc_discount_type promo); reflexivity.
Qed.

Lemma find_some_in {A} (f : A -> bool) l x : List.find f l = Some x -> In x l /\ f x = true.
Proof. apply List.find_some. Qed.

End Basics.

(** ** Order creation *)

Section CreateOrder.

Variables (db : Db) (now : string) (user : User) (orderData : CreateOrderRequest).

(** Every rejection returns before the transaction begins. *)
Lemma create_order_rejected e db' :
  create_order db now user orderData = (Rejected e, db') -> db' = db.
Proof.
  unfold create_order.
  destruct (_ && _); [congruence|].
  destruct (items orderData) as [[|first others]|]; try congruence.
  destruct (deliveryAmount orderData); [|congruence].
  destruct (validate_items _ _ _); [congruence|].
  destruct (order_promo_discount _ _ _ _); [congruence|].
  destruct (save_order _ _ _ _ _ _). congruence.
Qed.

(** A created order went through every check and through [save_order]. *)
Lemma create_order_created oid db' :
  create_order db now user orderData = (Created oid, db') ->
  exists cart delivery itemsTotal d,
    items orderData = Some cart /\ cart <> []
    /\ deliveryAmount orderData = Some delivery
    /\ validate_items (products db) cart 0 = inr itemsTotal
    /\ order_promo_discount db now (promoCode orderData) itemsTotal = inr d
    /\ save_order db now orderData cart
         (order_to_save db orderData cart delivery itemsTotal d) d = (oid, db').
Proof.
  unfold create_order.
  destruct (_ && _); [congruence|].
  destruct (items orderData) as [[|first others]|]; try congruence.
  destruct (deliveryAmount orderData) as [delivery|]; [|congruence].
  destruct (validate_items _ _ _) as [|itemsTotal] eqn:Hv; [congruence|].
  destruct (order_promo_discount _ _ _ _) as [|d] eqn:Hd; [congruence|].
  destruct (save_order _ _ _ _ _ _) as [oid' db''] eqn:Hs.
  intros H. injection H as <- <-.
  exists (first :: others), delivery, itemsTotal, d.
  repeat split; auto; discriminate.
Qed.

(** The row of the new order as it stands when the transaction commits. *)
Lemma save_order_row cart row d :
  orders (snd (save_order db now orderData cart row d))
    !! fst (save_order db now orderData cart row d)
  = Some (if paid_at_creation orderData then with_reduced 1 row else row).
Proof.
  unfold save_order, paid_at_creation. cbv zeta. cbn [fst snd].
  destruct (String.eqb (paymentMethod orderData) "balance"
            || str_truthy (paymentProof orderData));
    (destruct (promoCode orderData) as [c|]; [destruct (str_truthy (Some c))|]);
    cbn [orders set_orders set_products set_promo_codes set_promo_code_uses];
    rewrite ?lookup_alter_eq, lookup_insert_eq; reflexivity.
Qed.

(** The product table after the transaction. *)
Lemma save_order_products cart row d :
  products (snd (save_order db now orderData cart row d))
  = if paid_at_creation orderData
    then reduce_quantities cart (products db)
    else products db.
Proof.
  unfold save_order, paid_at_creation. cbv zeta. cbn [fst snd].
  destruct (String.eqb (paymentMethod orderData) "balance"
            || str_truthy (paymentProof orderData));
    (destruct (promoCode orderData) as [c|]; [destruct (str_truthy (Some c))|]);
    reflexivity.
Qed.

End CreateOrder.

Section CreateOrderTotals.

Lemma spec_discount_bounds ty v t :
  0 <= v -> 0 <= t -> 0 <= spec_discount ty v t <= t.
Proof.
  intros Hv Ht. unfold spec_discount. destruct ty.
  - pose proof (round_percent_nonneg t v Ht Hv). lia.
  - lia.
Qed.

(** The row a successful request leaves in [orders]. *)
Lemma created_order_row db now user orderData oid db' :
  create_order db now user orderData = (Created oid, db') ->
  exists cart delivery d,
    items orderData = Some cart /\ cart <> []
    /\ deliveryAmount orderData = Some delivery
    /\ validate_items (products db) cart 0 = inr (items_total (products db) cart)
    /\ order_promo_discount db now (promoCode orderData)
         (items_total (products db) cart) = inr d
    /\ oid = lastInsertRowid (orders db)
    /\ orders db' !! oid
       = Some (let row := order_to_save db orderData cart delivery
                            (items_total (products db) cart) d in
               if paid_at_creation orderData then with_reduced 1 row else row)
    /\ products db'
       = (if paid_at_creation orderData
          then reduce_quantities cart (products db)
          else products db).
Proof.
  intros H. apply create_order_created in H.
  destruct H as (cart & delivery & itemsTotal & d & Hi & Hne & Hd & Hv & Hp & Hs).
  pose proof (validate_items_total _ _ _ _ Hv) as Ht. rewrite Z.add_0_l in Ht. subst itemsTotal.
  exists cart, delivery, d.
  pose proof (save_order_row db now orderData cart
                (order_to_save db orderData cart delivery
                   (items_total (products db) cart) d) d) as Hrow.
  pose proof (save_order_products db now orderData cart
                (order_to_save db orderData cart delivery
                   (items_total (products db) cart) d) d) as Hprod.
  rewrite Hs in Hrow, Hprod. cbn [fst snd] in Hrow, Hprod.
  assert (oid = lastInsertRowid (orders db)) as Hoid.
  { unfold save_order in Hs. injection Hs as <- _. reflexivity. }
  repeat split; auto.
Qed.

End CreateOrderTotals.

(** C1, as the code has it: for every order that [POST /api/orders]
    creates, the saved [total_amount] is [itemsTotal - discount +
    deliveryAmount], where [itemsTotal] is the sum of price times requested
    quantity over the cart lines and [discount] is the saved
    [promo_code_discount].  Without a promo code no discount is saved.  With
    a promo code the discount is the rule of the first usable row of that
    code, upper-cased: [Math.round(itemsTotal * (discount_value / 100))] or
    the fixed value, and never more than [itemsTotal].  The discount is
    never more than [itemsTotal] when [itemsTotal] is not negative, and it
    is not negative when neither [itemsTotal] nor a stored discount value
    is; the handler itself checks neither. *)
Theorem created_order_total_amount db now user orderData oid db' :
  create_order db now user orderData = (Created oid, db') ->
  exists cart delivery row,
    items orderData = Some cart
    /\ deliveryAmount orderData = Some delivery
    /\ orders db' !! oid = Some row
    /\ o_total_amount row
       = items_total (products db) cart
         - num_or_zero (o_promo_code_discount row) + delivery
    /\ (str_truthy (promoCode orderData) = false -> o_promo_code_discount row = None)
    /\ (forall c, promoCode orderData = Some c -> c <> EmptyString ->
        exists promo,
          List.find (promo_matches_now (toUpperCase c) now) (promo_codes db) = Some promo
          /\ o_promo_code_discount row
             = Some (Z.min
                       match pc_discount_type promo with
                       | Percentage =>
                           round_percent (items_total (products db) cart)
                             (pc_discount_value promo)
                       | Fixed => pc_discount_value promo
                       end
                       (items_total (products db) cart)))
    /\ (0 <= items_total (products db) cart ->
        num_or_zero (o_promo_code_discount row) <= items_total (products db) cart
        /\ (nonneg_discount_values db -> 0 <= num_or_zero (o_promo_code_discount row))).
Proof.
  intros H.
  apply created_order_row in H.
  destruct H as (cart & delivery & d & Hi & _ & Hd & _ & Hp & _ & Hrow & _).
  exists cart, delivery. eexists. split; [exact Hi|]. split; [exact Hd|].
  split; [exact Hrow|].
  assert (Hsaved : forall row,
            row = order_to_save db orderData cart delivery
                    (items_total (products db) cart) d ->
            o_promo_code_discount
              (if paid_at_creation orderData then with_reduced 1 row else row) = d
            /\ o_total_amount
                 (if paid_at_creation orderData then with_reduced 1 row else row)
               = items_total (products db) cart - num_or_zero d + delivery).
  { intros row ->. destruct (paid_at_creation orderData); split; reflexivity. }
  destruct (Hsaved _ eq_refl) as [Hdisc Htotal]. cbv zeta.
  rewrite Hdisc. split; [exact Htotal|].
  apply order_promo_discount_inr in Hp.
  destruct Hp as [[Hf ->]|(c & promo & Hc & Ht & Hfind & ->)].
  - split; [reflexivity|]. split.
    + intros c Hc Hne. rewrite Hc in Hf. simpl in Hf.
      apply negb_false_iff, String.eqb_eq in Hf. contradiction.
    + intros Hnn. cbn [num_or_zero]. split; [exact Hnn|]. intros _. lia.
  - split; [congruence|]. split.
    + intros c' Hc' _. assert (c' = c) as -> by congruence.
      exists promo. split; [exact Hfind|].
      unfold spec_discount. destruct (pc_discount_type promo); reflexivity.
    + intros Hnn. cbn [num_or_zero]. split.
      * unfold spec_discount. destruct (pc_discount_type promo); lia.
      * intros Hvalues. apply find_some_in in Hfind. destruct Hfind as [Hin _].
        unfold nonneg_discount_values in Hvalues.
        rewrite List.Forall_forall in Hvalues. specialize (Hvalues _ Hin).
        apply spec_discount_bounds; assumption.
Qed.

(** ** Rejected requests *)

Section Rejections.

Variables (db : Db) (now : string) (user : User) (orderData : CreateOrderRequest).

(** The query of the handler finds exactly the usable rows of that code. *)
Lemma promo_matches_now_spec code p :
  promo_matches_now code now p = true <-> pc_code p = code /\ promo_usable now p.
Proof.
  unfold promo_matches_now, promo_usable, promo_active, promo_in_window, promo_under_cap.
  rewrite !andb_true_iff, String.eqb_eq, Z.eqb_eq.
  destruct (pc_max_uses p) as [m|]; [rewrite Z.ltb_lt|]; tauto.
Qed.

Lemma create_order_authorised oid db' :
  create_order db now user orderData = (Created oid, db') ->
  u_id user = userId orderData \/ u_isAdmin user = true.
Proof.
  unfold create_order.
  destruct (String.eqb (u_id user) (userId orderData)) eqn:E.
  - intros _. left. apply String.eqb_eq. exact E.
  - destruct (u_isAdmin user); [intros _; right; reflexivity|].
    simpl. congruence.
Qed.

Lemma validate_items_inl t l : forall acc e,
  validate_items t l acc = inl e ->
  (exists item, In item l /\ t !! ci_id item = None /\ e = ProductNotFound (ci_id item))
  \/ (exists item p, In item l /\ t !! ci_id item = Some p
                     /\ p_quantity p < ci_quantity item
                     /\ e = InsufficientStock (p_name p) (p_quantity p)).
Proof.
  induction l as [|item rest IH]; intros acc e H; simpl in H; [discriminate|].
  destruct (t !! ci_id item) as [p|] eqn:Hp.
  - destruct (p_quantity p <? ci_quantity item) eqn:Hq.
    + injection H as <-. right. exists item, p.
      apply Z.ltb_lt in Hq. simpl. auto.
    + apply IH in H. destruct H as [(i & Hin & H)|(i & q & Hin & H)].
      * left. exists i. simpl. auto.
      * right. exists i, q. simpl. auto.
  - injection H as <-. left. exists item. simpl. auto.
Qed.

Lemma order_promo_discount_inl code itemsTotal e :
  order_promo_discount db now code itemsTotal = inl e ->
  exists c, code = Some c /\ c <> EmptyString
    /\ ((e = InvalidPromo
         /\ List.find (promo_matches_now (toUpperCase c) now) (promo_codes db) = None)
        \/ (exists promo m,
              List.find (promo_matches_now (toUpperCase c) now) (promo_codes db) = Some promo
              /\ pc_min_order_amount promo = Some m /\ m <> 0 /\ itemsTotal < m
              /\ e = MinOrderAmount m)).
Proof.
  unfold order_promo_discount. destruct code as [c|]; [|discriminate].
  destruct (str_truthy (Some c)) eqn:Ht; [|discriminate].
  intros H. exists c. split; [reflexivity|]. split.
  { simpl in Ht. intros ->. discriminate. }
  destruct (List.find _ _) as [promo|];
    [|injection H as <-; left; split; reflexivity].
  right. destruct (pc_min_order_amount promo) as [m|] eqn:Hm; simpl in H; [|discriminate].
  destruct (m =? 0) eqn:Hz; simpl in H; [discriminate|].
  destruct (itemsTotal <? m) eqn:Hlt; [|discriminate].
  injection H as <-. apply Z.ltb_lt in Hlt. apply Z.eqb_neq in Hz.
  exists promo, m. auto.
Qed.

(** The messages of two rejections of different kinds differ, whatever
    product, stock or amount they mention. *)
Lemma error_message_kind e1 e2 :
  error_message e1 = error_message e2 -> failure_kind e1 = failure_kind e2.
Proof.
  destruct e1, e2; try reflexivity; intros H; exfalso; cbn in H; discriminate H.
Qed.

(** The check at which a rejected request stopped. *)
Lemma create_order_rejected_inv e db' :
  create_order db now user orderData = (Rejected e, db') ->
  (e = Forbidden /\ u_id user <> userId orderData /\ u_isAdmin user = false)
  \/ (e = EmptyCart /\ (items orderData = None \/ items orderData = Some []))
  \/ (e = NoDeliveryAmount /\ deliveryAmount orderData = None)
  \/ (exists cart, items orderData = Some cart
                   /\ validate_items (products db) cart 0 = inl e)
  \/ (exists cart, items orderData = Some cart
                   /\ validate_items (products db) cart 0
                      = inr (items_total (products db) cart)
                   /\ order_promo_discount db now (promoCode orderData)
                        (items_total (products db) cart) = inl e).
Proof.
  unfold create_order.
  destruct (negb (String.eqb (u_id user) (userId orderData)) && negb (u_isAdmin user))
    eqn:Eu.
  { intros H. injection H as <- _. left.
    apply andb_true_iff in Eu. destruct Eu as [E1 E2].
    apply negb_true_iff in E1, E2. apply String.eqb_neq in E1. auto. }
  destruct (items orderData) as [[|first others]|] eqn:Ei;
    try (intros H; injection H as <- _; right; left; auto; fail).
  destruct (deliveryAmount orderData) as [delivery|] eqn:Ed;
    [|intros H; injection H as <- _; right; right; left; auto].
  destruct (validate_items _ _ _) as [e0|itemsTotal] eqn:Hv.
  { intros H; injection H as <- _. right; right; right; left. eauto. }
  pose proof (validate_items_total _ _ _ _ Hv) as Ht. rewrite Z.add_0_l in Ht.
  subst itemsTotal.
  destruct (order_promo_discount _ _ _ _) as [e0|d] eqn:Hp;
    [|destruct (save_order _ _ _ _ _ _); discriminate].
  intros H; injection H as <- _. right; right; right; right. eauto.
Qed.

(** A rejection names a defect the request really has. *)
Lemma rejection_cause e db' :
  create_order db now user orderData = (Rejected e, db') ->
  request_failure db now user orderData (failure_kind e).
Proof.
  intros H. apply create_order_rejected_inv in H.
  destruct H as [(-> & Hu & Ha)|[(-> & Hi)|[(-> & Hd)|[(cart & Hi & Hv)|(cart & Hi & _ & Hp)]]]].
  - apply fail_other_user; assumption.
  - apply fail_cart_empty; assumption.
  - apply fail_delivery_missing; assumption.
  - apply validate_items_inl in Hv.
    destruct Hv as [(i & Hin & Hn & ->)|(i & q & Hin & Hs & Hlt & ->)].
    + eapply fail_product_missing; eauto.
    + eapply fail_stock_exceeded; eauto.
  - apply order_promo_discount_inl in Hp.
    destruct Hp as (c & Hc & Hne & [[-> Hf]|(promo & m & Hf & Hm & Hz & Hlt & ->)]).
    + apply (fail_promo_not_valid _ _ _ _ c); auto.
      intros p Hin Hcode Hu.
      pose proof (List.find_none _ _ Hf p Hin) as Hno.
      assert (promo_matches_now (toUpperCase c) now p = true)
        by (apply promo_matches_now_spec; auto).
      congruence.
    + apply find_some_in in Hf. destruct Hf as [Hin Hmatch].
      apply promo_matches_now_spec in Hmatch. destruct Hmatch as [Hcode Husable].
      eapply fail_below_minimum; eauto.
Qed.

End Rejections.

(** C3: a request to [POST /api/orders] that has an empty cart, a missing
    product, a line asking for more than the stock, a promo code that is
    invalid, expired or exhausted, or no delivery amount is rejected and
    leaves the database as it was: no order row, no stock change, no promo
    counter change, no usage record.  The rejection names a defect the request
    has, and rejections of different kinds carry different messages. *)
Theorem failed_order_changes_nothing db now user orderData k :
  request_failure db now user orderData k ->
  k <> BelowMinimum ->
  exists e,
    create_order db now user orderData = (Rejected e, db)
    /\ request_failure db now user orderData (failure_kind e)
    /\ (forall e', failure_kind e' <> failure_kind e ->
                   error_message e' <> error_message e).
Proof.
  intros Hfail Hk.
  destruct (create_order db now user orderData) as [[e|oid] db'] eqn:H.
  - pose proof (create_order_rejected _ _ _ _ _ _ H) as ->.
    exists e. split; [reflexivity|]. split.
    + eapply rejection_cause; eassumption.
    + intros e' Hne Heq. apply Hne. apply error_message_kind. exact Heq.
  - exfalso.
    pose proof (create_order_authorised _ _ _ _ _ _ H) as Hauth.
    apply created_order_row in H.
    destruct H as (cart & delivery & d & Hi & Hne & Hd & Hv & Hp & _).
    pose proof (validate_items_stock _ _ _ _ Hv) as Hstock.
    rewrite List.Forall_forall in Hstock.
    destruct Hfail as [Hu Ha| [Hn|He] | Hdel | cart' item Hi' Hin Hnone
                      | cart' item p Hi' Hin Hsome Hlt | | c Hc Hne' Hun].
    + destruct Hauth; congruence.
    + congruence.
    + congruence.
    + congruence.
    + assert (cart' = cart) as -> by congruence.
      destruct (Hstock _ Hin) as (q & Hq & _). congruence.
    + assert (cart' = cart) as -> by congruence.
      destruct (Hstock _ Hin) as (q & Hq & Hle).
      assert (q = p) as -> by congruence. lia.
    + congruence.
    + apply order_promo_discount_inr in Hp.
      destruct Hp as [[Hf _]|(c' & promo & Hc' & _ & Hfind & _)].
      * rewrite Hc in Hf. simpl in Hf. apply negb_false_iff in Hf.
        apply String.eqb_eq in Hf. contradiction.
      * assert (c' = c) as -> by congruence.
        apply find_some_in in Hfind. destruct Hfind as [Hin Hm].
        apply promo_matches_now_spec in Hm. destruct Hm as [Hcode Hu].
        exact (Hun promo Hin Hcode Hu).
Qed.

(** ** The worked scenario of the specification *)


(** ** The apply-promo endpoint *)

Section ApplyPromo.

Variables (db : Db) (now userId : string) (orderId : Z) (code : string).

Lemma minimum_check_passes order promo :
  meets_minimum order promo ->
  num_truthy (pc_min_order_amount promo)
  && (o_total_amount order <? num_or_zero (pc_min_order_amount promo)) = false.
Proof.
  unfold meets_minimum. intros H.
  destruct (pc_min_order_amount promo) as [m|]; [|reflexivity].
  destruct (H m eq_refl) as [->|Hle]; [reflexivity|].
  simpl. apply andb_false_iff. right. apply Z.ltb_ge. exact Hle.
Qed.

Lemma cap_check_passes promo :
  below_cap promo ->
  num_truthy (pc_max_uses promo)
  && (num_or_zero (pc_max_uses promo) <=? pc_current_uses promo) = false.
Proof.
  unfold below_cap. intros H.
  destruct (pc_max_uses promo) as [m|]; [|reflexivity].
  destruct (H m eq_refl) as [->|Hlt]; [reflexivity|].
  simpl. apply andb_false_iff. right. apply Z.leb_gt. exact Hlt.
Qed.

Lemma usage_lookup_none promo :
  ~ used_by (promo_code_uses db) promo userId ->
  List.find (fun u => (pu_promo_code_id u =? pc_id promo)
                      && String.eqb (pu_user_id u) userId)
    (promo_code_uses db) = None.
Proof.
  intros Hnot. destruct (List.find _ _) as [u|] eqn:E; [|reflexivity].
  exfalso. apply Hnot. apply find_some_in in E. destruct E as [Hin Hu].
  apply andb_true_iff in Hu. destruct Hu as [H1 H2].
  apply Z.eqb_eq in H1. apply String.eqb_eq in H2. exists u. auto.
Qed.

Lemma usage_lookup_some promo :
  used_by (promo_code_uses db) promo userId ->
  exists u, List.find (fun u => (pu_promo_code_id u =? pc_id promo)
                                && String.eqb (pu_user_id u) userId)
              (promo_code_uses db) = Some u.
Proof.
  intros (u & Hin & H1 & H2).
  destruct (List.find _ _) as [u'|] eqn:E; [eauto|].
  exfalso. pose proof (List.find_none _ _ E u Hin) as Hno. simpl in Hno.
  rewrite H1, H2, Z.eqb_refl, String.eqb_refl in Hno. discriminate.
Qed.

(** The request is accepted as soon as the order exists, the query returns a
    row, the minimum and the cap are respected and the user has no usage
    record for that row.  Nothing else is looked at: not the promo code the
    order may already carry, nor the window [start_date .. end_date]. *)
Lemma apply_promo_accepts order promo :
  userId <> EmptyString ->
  orders db !! orderId = Some order ->
  List.find (promo_matches_apply code now) (promo_codes db) = Some promo ->
  meets_minimum order promo ->
  below_cap promo ->
  ~ used_by (promo_code_uses db) promo userId ->
  apply_promo db now userId orderId code
  = (PromoApplied orderId, promo_applied_db db now userId orderId order promo).
Proof.
  intros Hu Ho Hf Hmin Hcap Hnew. unfold apply_promo.
  rewrite (proj2 (String.eqb_neq _ _) Hu), Ho, Hf.
  rewrite (minimum_check_passes _ _ Hmin), (cap_check_passes _ Hcap).
  rewrite (usage_lookup_none _ Hnew).
  unfold promo_applied_db, spec_discount, set_promo_code_uses, set_promo_codes, set_orders.
  cbn. destruct (pc_discount_type promo); reflexivity.
Qed.

(** Conversely an accepted request passed all these checks. *)
Lemma apply_promo_applied oid db' :
  apply_promo db now userId orderId code = (PromoApplied oid, db') ->
  exists order promo,
    oid = orderId
    /\ orders db !! orderId = Some order
    /\ List.find (promo_matches_apply code now) (promo_codes db) = Some promo
    /\ db' = promo_applied_db db now userId orderId order promo.
Proof.
  unfold apply_promo.
  destruct (String.eqb userId EmptyString); [discriminate|].
  destruct (orders db !! orderId) as [order|]; [|discriminate].
  destruct (List.find (promo_matches_apply code now) _) as [promo|]; [|discriminate].
  destruct (_ && _); [discriminate|].
  destruct (_ && _); [discriminate|].
  destruct (List.find _ _); [discriminate|].
  intros H. injection H as <- <-. exists order, promo.
  repeat split.
  unfold promo_applied_db, spec_discount, set_promo_code_uses, set_promo_codes, set_orders.
  cbn. destruct (pc_discount_type promo); reflexivity.
Qed.

(** A rejection leaves the database alone. *)
Lemma apply_promo_rejected e db' :
  apply_promo db now userId orderId code = (PromoRejected e, db') -> db' = db.
Proof.
  unfold apply_promo.
  destruct (String.eqb userId EmptyString); [congruence|].
  destruct (orders db !! orderId) as [order|]; [|congruence].
  destruct (List.find (promo_matches_apply code now) _) as [promo|]; [|congruence].
  destruct (_ && _); [congruence|].
  destruct (_ && _); [congruence|].
  destruct (List.find _ _); [congruence|discriminate].
Qed.

End ApplyPromo.

(** The row of the order after an accepted request. *)
Lemma promo_applied_row db now userId orderId order promo :
  orders db !! orderId = Some order ->
  orders (promo_applied_db db now userId orderId order promo) !! orderId
  = Some (with_promo (pc_code promo)
            (spec_discount (pc_discount_type promo) (pc_discount_value promo)
               (o_total_amount order - o_delivery_amount order)) order).
Proof.
  intros Ho. unfold promo_applied_db. cbn [orders].
  rewrite lookup_alter_eq, Ho. reflexivity.
Qed.

(** C10: the apply-promo endpoint does not look at the promo code an order
    already carries.  On an order that holds a code with discount [d1 > 0]
    (so that [total_amount = subtotal - d1 + delivery_amount]), a further
    eligible code is accepted; it overwrites [promo_code] and
    [promo_code_discount] with its own code and discount [d2], which is the
    rule of its row on [total_amount - delivery_amount] of the order as it
    stands, the discounted [subtotal - d1], and [d2] is taken off the
    discounted total.  Both discounts are then in [total_amount], and the
    equation of order creation fails for the saved row. *)
Theorem second_promo_stacks db now userId orderId code order promo first d1 subtotal :
  userId <> EmptyString ->
  orders db !! orderId = Some order ->
  o_promo_code order = Some first ->
  o_promo_code_discount order = Some d1 ->
  0 < d1 ->
  o_total_amount order = subtotal - d1 + o_delivery_amount order ->
  List.find (promo_matches_apply code now) (promo_codes db) = Some promo ->
  meets_minimum order promo ->
  below_cap promo ->
  ~ used_by (promo_code_uses db) promo userId ->
  exists db' row d2,
    apply_promo db now userId orderId code = (PromoApplied orderId, db')
    /\ orders db' !! orderId = Some row
    /\ d2 = Z.min
              match pc_discount_type promo with
              | Percentage => round_percent (subtotal - d1) (pc_discount_value promo)
              | Fixed => pc_discount_value promo
              end
              (subtotal - d1)
    /\ o_promo_code row = Some (pc_code promo)
    /\ o_promo_code_discount row = Some d2
    /\ o_total_amount row = o_total_amount order - d2
    /\ o_total_amount row = subtotal - d1 - d2 + o_delivery_amount row
    /\ o_total_amount row
       <> subtotal - num_or_zero (o_promo_code_discount row) + o_delivery_amount row.
Proof.
  intros Hu Ho Hfirst Hd1 Hpos Htotal Hf Hmin Hcap Hnew.
  eexists _, _, (spec_discount (pc_discount_type promo) (pc_discount_value promo)
                   (o_total_amount order - o_delivery_amount order)).
  split.
  { apply apply_promo_accepts; eassumption. }
  split; [apply promo_applied_row; exact Ho|].
  split.
  { replace (subtotal - d1) with (o_total_amount order - o_delivery_amount order) by lia.
    unfold spec_discount. destruct (pc_discount_type promo); reflexivity. }
  cbn. repeat split; lia.
Qed.

(** Order creation never reads [promo_code_uses]: its response is the same
    whatever the table holds. *)
Lemma create_order_ignores_uses db now user orderData uses :
  fst (create_order (set_promo_code_uses (fun _ => uses) db) now user orderData)
  = fst (create_order db now user orderData).
Proof.
  assert (Hd : forall c t,
    order_promo_discount (set_promo_code_uses (fun _ => uses) db) now c t
    = order_promo_discount db now c t) by reflexivity.
  unfold create_order.
  change (products (set_promo_code_uses (fun _ => uses) db)) with (products db).
  destruct (_ && _); [reflexivity|].
  destruct (items orderData) as [[|first others]|]; try reflexivity.
  destruct (deliveryAmount orderData); [|reflexivity].
  destruct (validate_items _ _ _) as [|t]; [reflexivity|].
  rewrite Hd.
  destruct (order_promo_discount db now (promoCode orderData) t); reflexivity.
Qed.

(** A cart whose lines name existing products, each with enough stock for
    its own line, passes the validation. *)
Lemma validate_items_accepts t l : forall acc,
  Forall (fun item => exists p, t !! ci_id item = Some p
                                /\ ci_quantity item <= p_quantity p) l ->
  validate_items t l acc = inr (acc + items_total t l).
Proof.
  induction l as [|item rest IH]; intros acc Hl; simpl.
  - f_equal. lia.
  - apply Forall_cons in Hl. destruct Hl as [(p & Hp & Hq) Hl].
    rewrite Hp. rewrite (proj2 (Z.ltb_ge _ _) Hq).
    rewrite IH by exact Hl. f_equal. lia.
Qed.

(** A request with such a cart, a delivery amount and a code of which the
    query returns a row whose minimum the cart meets is accepted, and the
    order is saved with the code as typed and the discount of that row.
    No other table is consulted. *)
Lemma create_order_accepts db now user orderData cart delivery c promo :
  u_id user = userId orderData \/ u_isAdmin user = true ->
  items orderData = Some cart -> cart <> [] ->
  deliveryAmount orderData = Some delivery ->
  Forall (fun item => exists p, products db !! ci_id item = Some p
                                /\ ci_quantity item <= p_quantity p) cart ->
  promoCode orderData = Some c -> c <> EmptyString ->
  List.find (promo_matches_now (toUpperCase c) now) (promo_codes db) = Some promo ->
  (forall m, pc_min_order_amount promo = Some m ->
             m = 0 \/ m <= items_total (products db) cart) ->
  exists oid db' row,
    create_order db now user orderData = (Created oid, db')
    /\ orders db' !! oid = Some row
    /\ o_promo_code row = Some c
    /\ o_promo_code_discount row
       = Some (spec_discount (pc_discount_type promo) (pc_discount_value promo)
                 (items_total (products db) cart))
    /\ o_total_amount row
       = items_total (products db) cart
         - spec_discount (pc_discount_type promo) (pc_discount_value promo)
             (items_total (products db) cart)
         + delivery.
Proof.
  intros Hu Hi Hne Hd Hcart Hc Hcne Hfind Hmin.
  assert (Ht : str_truthy (Some c) = true).
  { simpl. apply negb_true_iff, String.eqb_neq. exact Hcne. }
  assert (Hp : order_promo_discount db now (promoCode orderData)
                 (items_total (products db) cart)
               = inr (Some (spec_discount (pc_discount_type promo)
                              (pc_discount_value promo)
                              (items_total (products db) cart)))).
  { unfold order_promo_discount. rewrite Hc, Ht, Hfind.
    assert (num_truthy (pc_min_order_amount promo)
            && (items_total (products db) cart
                <? num_or_zero (pc_min_order_amount promo)) = false) as ->.
    { destruct (pc_min_order_amount promo) as [m|]; [|reflexivity].
      destruct (Hmin m eq_refl) as [->|Hle]; [reflexivity|].
      simpl. apply andb_false_iff. right. apply Z.ltb_ge. exact Hle. }
    unfold spec_discount. destruct (pc_discount_type promo); reflexivity. }
  destruct (create_order db now user orderData) as [[e|oid] db'] eqn:H.
  - exfalso. apply create_order_rejected_inv in H.
    destruct H as [(_ & Hu1 & Hu2)|[(_ & Hi')|[(_ & Hd')|[(cart' & Hi' & Hv)
                  |(cart' & Hi' & _ & Hp')]]]].
    + destruct Hu; congruence.
    + destruct Hi' as [Hi'|Hi']; congruence.
    + congruence.
    + assert (cart' = cart) as -> by congruence.
      rewrite (validate_items_accepts _ _ 0 Hcart) in Hv. discriminate.
    + assert (cart' = cart) as -> by congruence.
      rewrite Hp in Hp'. discriminate.
  - apply created_order_row in H.
    destruct H as (cart' & delivery' & d & Hi' & _ & Hd' & _ & Hp' & _ & Hrow & _).
    assert (cart' = cart) as -> by congruence.
    assert (delivery' = delivery) as -> by congruence.
    rewrite Hp in Hp'. injection Hp' as <-.
    exists oid, db'. eexists. split; [reflexivity|]. split; [exact Hrow|].
    cbv zeta. destruct (paid_at_creation orderData); cbn;
      rewrite Hc, Ht; repeat split; reflexivity.
Qed.

(** C8, as the code has it: a user has a usage record for a promo row and
    sends its code to the apply-promo endpoint for an existing order.  When
    the query of the endpoint returns that row (the text is the stored
    spelling, the row is active and not expired), the request is rejected
    with status 400 and changes nothing; the message is "already used" when
    the order meets the minimum amount and the code is under its cap, the
    two checks that come first.  A text for which the query returns no row
    gets "invalid promo code" instead.  Order creation makes no such check:
    its response does not depend on the usage records, and a request of the
    same user whose cart is in stock, with a code for which its own query
    returns that same row and whose minimum the cart meets, is created with
    the code and its discount. *)
Theorem promo_reuse_by_the_same_user db now uid orderId code order promo :
  uid <> EmptyString ->
  orders db !! orderId = Some order ->
  List.find (promo_matches_apply code now) (promo_codes db) = Some promo ->
  used_by (promo_code_uses db) promo uid ->
  (exists e,
     apply_promo db now uid orderId code = (PromoRejected e, db)
     /\ promo_error_status e = 400
     /\ (meets_minimum order promo -> below_cap promo ->
         e = PromoAlreadyUsed
         /\ promo_error_message e = "Вы уже использовали этот промокод"))
  /\ (forall typed,
        List.find (promo_matches_apply typed now) (promo_codes db) = None ->
        apply_promo db now uid orderId typed = (PromoRejected PromoInvalid, db)
        /\ promo_error_status PromoInvalid = 400
        /\ promo_error_message PromoInvalid = "Недействительный промокод")
  /\ (forall user orderData uses,
        fst (create_order (set_promo_code_uses (fun _ => uses) db) now user orderData)
        = fst (create_order db now user orderData))
  /\ (forall user orderData cart delivery c,
        u_id user = uid -> userId orderData = uid ->
        items orderData = Some cart -> cart <> [] ->
        deliveryAmount orderData = Some delivery ->
        Forall (fun item => exists p, products db !! ci_id item = Some p
                                      /\ ci_quantity item <= p_quantity p) cart ->
        promoCode orderData = Some c -> c <> EmptyString ->
        List.find (promo_matches_now (toUpperCase c) now) (promo_codes db) = Some promo ->
        (forall m, pc_min_order_amount promo = Some m ->
                   m = 0 \/ m <= items_total (products db) cart) ->
        exists oid db' row,
          create_order db now user orderData = (Created oid, db')
          /\ orders db' !! oid = Some row
          /\ o_user_id row = uid
          /\ o_promo_code row = Some c
          /\ o_promo_code_discount row
             = Some (Z.min
                       match pc_discount_type promo with
                       | Percentage =>
                           round_percent (items_total (products db) cart)
                             (pc_discount_value promo)
                       | Fixed => pc_discount_value promo
                       end
                       (items_total (products db) cart))).
Proof.
  intros Hu Ho Hf Hused. split; [|split; [|split]].
  - destruct (apply_promo db now uid orderId code) as [[e|oid] db'] eqn:H.
    + pose proof (apply_promo_rejected _ _ _ _ _ _ _ H) as ->.
      exists e. split; [reflexivity|].
      unfold apply_promo in H.
      rewrite (proj2 (String.eqb_neq _ _) Hu), Ho, Hf in H.
      destruct (usage_lookup_some _ _ _ Hused) as (u & Hfind).
      rewrite Hfind in H.
      destruct (num_truthy (pc_min_order_amount promo) && _) eqn:Emin.
      { injection H as <-. split; [reflexivity|].
        intros Hmin. rewrite (minimum_check_passes _ _ Hmin) in Emin. discriminate. }
      destruct (num_truthy (pc_max_uses promo) && _) eqn:Ecap.
      { injection H as <-. split; [reflexivity|].
        intros _ Hcap. rewrite (cap_check_passes _ Hcap) in Ecap. discriminate. }
      injection H as <-. split; [reflexivity|]. intros _ _. split; reflexivity.
    + exfalso. unfold apply_promo in H.
      rewrite (proj2 (String.eqb_neq _ _) Hu), Ho, Hf in H.
      destruct (usage_lookup_some _ _ _ Hused) as (u & Hfind).
      rewrite Hfind in H.
      destruct (_ && _); [discriminate|]. destruct (_ && _); discriminate.
  - intros typed Hnone. split; [|split; reflexivity]. unfold apply_promo.
    rewrite (proj2 (String.eqb_neq _ _) Hu), Ho, Hnone. reflexivity.
  - intros user orderData uses. apply create_order_ignores_uses.
  - intros user orderData cart delivery c Huser Hreq Hi Hne Hd Hcart Hc Hcne Hfind Hmin.
    destruct (create_order_accepts db now user orderData cart delivery c promo)
      as (oid & db' & row & Hcreate & Hrow & Hcode & Hdisc & _); try assumption.
    { left. congruence. }
    exists oid, db', row. split; [exact Hcreate|]. split; [exact Hrow|].
    split.
    { apply created_order_row in Hcreate.
      destruct Hcreate as (cart' & delivery' & d & _ & _ & _ & _ & _ & _ & Hrow' & _).
      rewrite Hrow in Hrow'. injection Hrow' as ->.
      cbv zeta. destruct (paid_at_creation orderData); exact Hreq. }
    split; [exact Hcode|]. rewrite Hdisc. f_equal.
    unfold spec_discount. destruct (pc_discount_type promo); reflexivity.
Qed.

(** ** [parseInt] on the numerals [String] writes *)
Section ParseIntOfString.

Lemma digit_value_pretty (d : N) :
  (d < 10)%N -> digit_value 10 (pretty_N_char d) = Some (Z.of_N d).
Proof.
  intros H.
  assert (d = 0 \/ d = 1 \/ d = 2 \/ d = 3 \/ d = 4 \/ d = 5 \/ d = 6 \/ d = 7
          \/ d = 8 \/ d = 9)%N as Hd by lia.
  repeat (destruct Hd as [->|Hd]; [reflexivity|]). subst d. reflexivity.
Qed.

(** Reading the digits [pretty_N_go] writes in front of [s] shifts the
    accumulator and adds the number written. *)
Lemma parse_digits_pretty_go (x : N) :
  (0 < x)%N ->
  exists m, forall s acc,
    parse_digits 10 (pretty_N_go x s) acc
    = parse_digits 10 s (Some (m * num_or_zero acc + Z.of_N x)).
Proof.
  induction (N.lt_wf_0 x) as [x _ IH]. intros Hx.
  assert (Hdm : Z.of_N x = 10 * Z.of_N (x `div` 10)%N + Z.of_N (x `mod` 10)%N).
  { rewrite <- (N2Z.inj_mul 10), <- N2Z.inj_add. f_equal. apply N.div_mod. lia. }
  assert (Hlt : (x `mod` 10 < 10)%N) by (apply N.mod_lt; lia).
  destruct (N.eq_dec (x `div` 10)%N 0%N) as [Hz|Hnz].
  - exists 10. intros s acc.
    rewrite pretty_N_go_step by exact Hx. rewrite Hz, pretty_N_go_0.
    cbn [parse_digits]. rewrite (digit_value_pretty _ Hlt).
    rewrite Hdm, Hz. do 2 f_equal.
  - destruct (IH (x `div` 10)%N) as [m Hm].
    + apply N.div_lt; lia.
    + lia.
    + exists (10 * m). intros s acc.
      rewrite pretty_N_go_step by exact Hx. rewrite Hm.
      cbn [parse_digits]. rewrite (digit_value_pretty _ Hlt).
      cbn [num_or_zero]. rewrite Hdm. do 2 f_equal. lia.
Qed.

Lemma parse_digits_pretty_positive (p : positive) :
  parse_digits 10 (pretty (N.pos p)) None = Some (Z.pos p).
Proof.
  unfold pretty, pretty_N. destruct (decide (N.pos p = 0)%N) as [E|_]; [discriminate|].
  destruct (parse_digits_pretty_go (N.pos p)) as [m Hm]; [lia|].
  rewrite Hm. cbn [parse_digits num_or_zero]. f_equal. simpl. lia.
Qed.


(** A string that begins with a decimal digit has no white space and no
    sign in front. *)
Lemma digit_first a r d :
  digit_value 10 a = Some d ->
  trimStart (String a r) = String a r
  /\ split_sign (String a r) = (false, String a r).
Proof.
  intros Hd. destruct a as [b0 b1 b2 b3 b4 b5 b6 b7].
  destruct b0, b1, b2, b3, b4, b5, b6, b7;
    vm_compute in Hd; try discriminate Hd; split; reflexivity.
Qed.

Lemma split_radix_cases a r :
  split_radix (String a r) = (10, String a r)
  \/ (a = "0"%char /\ exists r', r = String "x" r' \/ r = String "X" r').
Proof.
  destruct a as [b0 b1 b2 b3 b4 b5 b6 b7].
  destruct b0, b1, b2, b3, b4, b5, b6, b7; try (left; reflexivity).
  destruct r as [|c r']; [left; reflexivity|].
  destruct c as [b0 b1 b2 b3 b4 b5 b6 b7].
  destruct b0, b1, b2, b3, b4, b5, b6, b7; try (left; reflexivity);
    right; split; try reflexivity; exists r'; auto.
Qed.

Lemma split_radix_decimal s n :
  parse_digits 10 s None = Some n -> n <> 0 -> split_radix s = (10, s).
Proof.
  intros H Hn. destruct s as [|a r]; [reflexivity|].
  destruct (split_radix_cases a r) as [E|(-> & r' & [->| ->])]; [exact E| |];
    cbn in H; injection H as <-; contradiction.
Qed.

(** [parseInt] reads a decimal numeral other than zero as its value. *)
Lemma parseInt_decimal s n :
  parse_digits 10 s None = Some n -> n <> 0 ->
  parseInt s = Some n /\ parseInt (String "-" s) = Some (- n).
Proof.
  intros H Hn. pose proof (split_radix_decimal s n H Hn) as Hr.
  destruct s as [|a r]; [discriminate|].
  destruct (digit_value 10 a) as [d|] eqn:Hd.
  2:{ cbn [parse_digits] in H. rewrite Hd in H. discriminate. }
  destruct (digit_first a r d Hd) as [Hw Hs].
  split.
  - unfold parseInt. rewrite Hw, Hs, Hr, H. reflexivity.
  - unfold parseInt.
    change (trimStart (String "-" (String a r))) with (String "-" (String a r)).
    change (split_sign (String "-" (String a r))) with (true, String a r).
    cbv iota. rewrite Hr, H. reflexivity.
Qed.

(** [parseInt(String(n || 0))] is [n] for every integer [n]. *)
Lemma parse_quantity_number n : parse_quantity (JNum n) = Some n.
Proof.
  unfold parse_quantity, or_else. destruct n as [|p|p]; cbn [truthy Z.eqb negb to_String].
  - reflexivity.
  - change (pretty (Z.pos p)) with (pretty (N.pos p)).
    apply (parseInt_decimal _ _ (parse_digits_pretty_positive p)). discriminate.
  - change (pretty (Z.neg p)) with (String "-" (pretty (N.pos p))).
    apply (parseInt_decimal _ (Z.pos p) (parse_digits_pretty_positive p)). discriminate.
Qed.

(** With a number as quantity the loop body takes the quantity off the
    stock and stops at zero. *)
Lemma reduce_item_number item (t : gmap Z ProductRow) q p :
  li_id item <> 0 -> li_quantity item = JNum q -> 0 < q ->
  t !! li_id item = Some p ->
  reduce_item item t
  = alter (with_quantity (Z.max 0 (p_quantity p - q))) (li_id item) t.
Proof.
  intros Hid Hq Hpos Hp. unfold reduce_item.
  rewrite (proj2 (Z.eqb_neq _ _) Hid), Hq, parse_quantity_number.
  rewrite (proj2 (Z.leb_gt _ _) Hpos), Hp, parse_quantity_number. reflexivity.
Qed.

(** The flag does not stop the reduction: for an order of one line whose
    flag is already set, the transition to "paid" takes the quantity off the
    stock again. *)
Lemma set_flag_does_not_stop_reduction db orderId order item q p :
  orders db !! orderId = Some order ->
  o_product_quantities_reduced order = 1 ->
  o_order_status order = "pending" ->
  o_items order = [item] ->
  li_id item <> 0 -> li_quantity item = JNum q -> 0 < q ->
  products db !! li_id item = Some p ->
  products (snd (update_order_status db orderId "paid")) !! li_id item
  = Some (with_quantity (Z.max 0 (p_quantity p - q)) p).
Proof.
  intros Ho Hflag Hst Hi Hid Hq Hpos Hp.
  unfold update_order_status. cbn [String.eqb Ascii.eqb]. cbn. rewrite Ho, Hst, Hi. cbn.
  rewrite already_reduced_false. cbn.
  rewrite (reduce_item_number item _ q p Hid Hq Hpos Hp).
  rewrite lookup_alter_eq, Hp. reflexivity.
Qed.

End ParseIntOfString.

(** ** Stock never goes below zero in [updateProductQuantities] *)

Section StockFloor.

Lemma alter_quantity_nonneg (t : gmap Z ProductRow) id q :
  nonneg_stock t -> 0 <= q -> nonneg_stock (alter (with_quantity q) id t).
Proof.
  intros Ht Hq id' p H.
  destruct (decide (id = id')) as [->|Hne].
  - rewrite lookup_alter_eq in H.
    destruct (t !! id') as [p0|]; simpl in H; [|discriminate].
    injection H as <-. exact Hq.
  - rewrite lookup_alter_ne in H by exact Hne. eapply Ht; eassumption.
Qed.

(** A quantity that is not a number, or is not positive, leaves the table
    alone; the batch goes on. *)
Lemma reduce_item_skips item (t : gmap Z ProductRow) :
  parse_quantity (li_quantity item) = None
  \/ (exists q, parse_quantity (li_quantity item) = Some q /\ q <= 0) ->
  reduce_item item t = t.
Proof.
  unfold reduce_item. intros [->|(q & -> & Hq)].
  - destruct (li_id item =? 0); reflexivity.
  - destruct (li_id item =? 0); [reflexivity|].
    rewrite (proj2 (Z.leb_le _ _) Hq). reflexivity.
Qed.

Lemma reduce_item_nonneg item (t : gmap Z ProductRow) :
  nonneg_stock t -> nonneg_stock (reduce_item item t).
Proof.
  intros Ht. unfold reduce_item.
  destruct (li_id item =? 0); [exact Ht|].
  destruct (parse_quantity (li_quantity item)) as [quantity|]; [|exact Ht].
  destruct (quantity <=? 0); [exact Ht|].
  destruct (t !! li_id item) as [product|]; [|exact Ht].
  apply alter_quantity_nonneg; [exact Ht|]. apply Z.le_max_l.
Qed.

Lemma reduce_items_nonneg l : forall t : gmap Z ProductRow,
  nonneg_stock t -> nonneg_stock (reduce_items l t).
Proof.
  unfold reduce_items.
  induction l as [|item rest IH]; intros t Ht; simpl; [exact Ht|].
  apply IH. apply reduce_item_nonneg. exact Ht.
Qed.

(** X9: the floor of [updateProductQuantities]: whatever the items are, no stock
    is negative afterwards if none was before. *)
Lemma updateProductQuantities_nonneg db orderId l :
  nonneg_stock (products db) ->
  nonneg_stock (products (snd (updateProductQuantities db orderId l))).
Proof.
  intros H. unfold updateProductQuantities.
  destruct l as [|item rest]; [exact H|].
  destruct (already_reduced db orderId); [exact H|].
  cbn [snd products set_orders set_products].
  apply reduce_items_nonneg. exact H.
Qed.

(** Quantities that are skipped: zero, a negative number, no number. *)
Lemma skipped_quantities :
  parse_quantity (JNum 0) = Some 0
  /\ parse_quantity (JNum (-3)) = Some (-3)
  /\ parse_quantity JNull = Some 0
  /\ parse_quantity JUndefined = Some 0
  /\ parse_quantity (JStr EmptyString) = Some 0
  /\ parse_quantity (JStr "many") = None
  /\ parse_quantity (JBool true) = None
  /\ parse_quantity (JStr "-2") = Some (-2).
Proof. repeat split; vm_compute; reflexivity. Qed.

(** Order creation keeps the stock from going negative when no product
    occurs on two cart lines. *)
Lemma reduce_quantities_nonneg l : forall t : gmap Z ProductRow,
  NoDup (List.map ci_id l) ->
  Forall (fun item => exists p, t !! ci_id item = Some p
                                /\ ci_quantity item <= p_quantity p) l ->
  nonneg_stock t ->
  nonneg_stock (reduce_quantities l t).
Proof.
  induction l as [|item rest IH]; intros t Hnd Hall Ht; simpl; [exact Ht|].
  apply NoDup_cons in Hnd. destruct Hnd as [Hnotin Hnd].
  apply Forall_cons in Hall. destruct Hall as [(p & Hp & Hle) Hall].
  apply IH; [exact Hnd| |].
  - rewrite List.Forall_forall in Hall. apply List.Forall_forall.
    intros i Hi. destruct (Hall i Hi) as (q & Hq & Hq').
    exists q. split; [|exact Hq'].
    rewrite lookup_alter_ne; [exact Hq|].
    intros E. apply Hnotin. rewrite E. apply list_elem_of_In, in_map, Hi.
  - intros id' p' H.
    destruct (decide (ci_id item = id')) as [<-|Hne].
    + rewrite lookup_alter_eq, Hp in H. simpl in H. injection H as <-. simpl. lia.
    + rewrite lookup_alter_ne in H by exact Hne. eapply Ht; eassumption.
Qed.

(** X8: whatever becomes of a request whose cart names no product twice, no
    stock is negative afterwards if none was before. *)
Lemma create_order_nonneg db now user orderData cart :
  items orderData = Some cart ->
  NoDup (List.map ci_id cart) ->
  nonneg_stock (products db) ->
  nonneg_stock (products (snd (create_order db now user orderData))).
Proof.
  intros Hi Hnd Ht.
  destruct (create_order db now user orderData) as [[e|oid] db'] eqn:H.
  - apply create_order_rejected in H. subst db'. exact Ht.
  - apply created_order_row in H.
    destruct H as (cart' & delivery & d & Hi' & _ & _ & Hv & _ & _ & _ & Hprod).
    assert (cart' = cart) as -> by congruence.
    cbn [snd]. rewrite Hprod. destruct (paid_at_creation orderData); [|exact Ht].
    apply reduce_quantities_nonneg; [exact Hnd| |exact Ht].
    eapply validate_items_stock. exact Hv.
Qed.

End StockFloor.

(** ** What deletion gives back *)

Section Deletion.

Lemma restore_quantities_lookup l : forall (t : gmap Z ProductRow) id,
  numeric_lines l ->
  restore_quantities l t !! id
  = (fun p => with_quantity (p_quantity p + ordered_quantity l id) p) <$> t !! id.
Proof.
  induction l as [|item rest IH]; intros t id Hl; simpl.
  - destruct (t !! id) as [p|]; simpl; [|reflexivity].
    destruct p; unfold with_quantity; simpl. do 2 f_equal. lia.
  - apply Forall_cons in Hl. destruct Hl as [(Hid & q & Hq) Hl].
    rewrite Hq. simpl. rewrite (proj2 (Z.eqb_neq _ _) Hid). simpl.
    destruct (q =? 0) eqn:Ez; simpl.
    + apply Z.eqb_eq in Ez. subst q. rewrite IH by exact Hl.
      destruct (li_id item =? id); reflexivity.
    + rewrite IH by exact Hl.
      destruct (Z.eqb_spec (li_id item) id) as [->|Hne].
      * rewrite lookup_alter_eq. destruct (t !! id) as [p|]; simpl; [|reflexivity].
        unfold with_quantity; simpl. do 2 f_equal. lia.
      * rewrite lookup_alter_ne by exact Hne. reflexivity.
Qed.


End Deletion.

(** ** Codes both paths turn down *)

Section ApplyPromoRejections.

Variables (db : Db) (now userId : string) (orderId : Z) (code : string) (order : OrderRow).
Hypothesis (Huser : userId <> EmptyString).
Hypothesis (Horder : orders db !! orderId = Some order).

(** A code whose rows are all inactive is "invalid" for the endpoint. *)
Lemma apply_promo_rejects_inactive :
  (forall p, In p (promo_codes db) -> pc_code p = code -> pc_is_active p <> 1) ->
  apply_promo db now userId orderId code = (PromoRejected PromoInvalid, db).
Proof.
  intros Hall. unfold apply_promo.
  rewrite (proj2 (String.eqb_neq _ _) Huser), Horder.
  destruct (List.find _ _) as [promo|] eqn:Hf; [|reflexivity].
  exfalso. apply find_some_in in Hf. destruct Hf as [Hin Hm].
  unfold promo_matches_apply in Hm. rewrite !andb_true_iff in Hm.
  destruct Hm as [[Hc _] Ha]. apply String.eqb_eq in Hc. apply Z.eqb_eq in Ha.
  exact (Hall promo Hin Hc Ha).
Qed.

(** A code at its cap is rejected with status 400. *)
Lemma apply_promo_rejects_capped promo m :
  List.find (promo_matches_apply code now) (promo_codes db) = Some promo ->
  pc_max_uses promo = Some m -> m <> 0 -> m <= pc_current_uses promo ->
  exists e, apply_promo db now userId orderId code = (PromoRejected e, db)
            /\ promo_error_status e = 400.
Proof.
  intros Hf Hm Hz Hle. unfold apply_promo.
  rewrite (proj2 (String.eqb_neq _ _) Huser), Horder, Hf.
  destruct (_ && _); [eexists; split; reflexivity|].
  rewrite Hm. simpl. rewrite (proj2 (Z.eqb_neq _ _) Hz). simpl.
  rewrite (proj2 (Z.leb_le _ _) Hle). eexists; split; reflexivity.
Qed.

(** The window [start_date .. end_date] plays no part in the query of the
    endpoint. *)
Lemma promo_matches_apply_ignores_window p start_date end_date :
  promo_matches_apply code now
    {| pc_id := pc_id p; pc_code := pc_code p; pc_discount_type := pc_discount_type p;
       pc_discount_value := pc_discount_value p;
       pc_min_order_amount := pc_min_order_amount p;
       pc_start_date := start_date; pc_end_date := end_date;
       pc_expires_at := pc_expires_at p; pc_max_uses := pc_max_uses p;
       pc_current_uses := pc_current_uses p; pc_is_active := pc_is_active p |}
  = promo_matches_apply code now p.
Proof. reflexivity. Qed.

End ApplyPromoRejections.

(** ** The code on concrete requests *)

Section Evaluations.

Import Sample.


(** C2 does not hold of the code: an order paid with a receipt is saved
    with status "pending", with [product_quantities_reduced = 1] and with the
    stock of its product reduced from 10 to 8.  Marking it "paid" through
    [PUT /api/orders/:id/status], through [PUT /api/orders/:id], or calling
    [updateProductQuantities] directly reduces the stock once more, to 6, and
    replaying the transition reduces it to 4. *)
Theorem reduced_order_is_reduced_again :
  let db1 := after_order shop
               (request [line 1 2] 300 "card" (Some "/uploads/receipt.png") None) in
  let db2 := snd (update_order_status db1 1 "paid") in
  let db3 := snd (update_order_status (snd (update_order_status db2 1 "pending")) 1 "paid") in
  let l := [ {| li_id := 1; li_name := "Fern"; li_price := 500; li_quantity := JNum 2 |} ] in
  stock shop 1 = Some 10
  /\ o_product_quantities_reduced <$> orders db1 !! 1 = Some 1
  /\ o_order_status <$> orders db1 !! 1 = Some "pending"
  /\ o_items <$> orders db1 !! 1 = Some l
  /\ stock db1 1 = Some 8
  /\ stock db2 1 = Some 6
  /\ stock (snd (update_order db1 1 (Some "paid"))) 1 = Some 6
  /\ fst (updateProductQuantities db1 1 l) = true
  /\ stock (snd (updateProductQuantities db1 1 l)) 1 = Some 6
  /\ stock db3 1 = Some 4.
Proof.
  cbv zeta. repeat split; vm_compute; reflexivity.
Qed.

(** C5 does not hold of the code: the promo code OLD50 ended in February
    2024 and the time is June 2024.  Order creation rejects it with status
    400; the apply-promo endpoint, whose query reads [expires_at] and not
    [start_date] and [end_date], accepts it and takes 500 off the order. *)
Theorem expired_promo_is_applied :
  let db1 := after_order shop (request [line 1 2] 300 "card" None None) in
  let r := apply_promo db1 now "alice" 1 "OLD50" in
  String.leb now (pc_end_date old50) = false
  /\ fst (create_order shop now alice
            (request [line 1 2] 300 "card" None (Some "OLD50"))) = Rejected InvalidPromo
  /\ error_status InvalidPromo = 400
  /\ o_total_amount <$> orders db1 !! 1 = Some 1300
  /\ fst r = PromoApplied 1
  /\ o_promo_code <$> orders (snd r) !! 1 = Some (Some "OLD50")
  /\ o_promo_code_discount <$> orders (snd r) !! 1 = Some (Some 500)
  /\ o_total_amount <$> orders (snd r) !! 1 = Some 800
  /\ uses_of (snd r) "OLD50" = [1].
Proof.
  cbv zeta. repeat split; vm_compute; reflexivity.
Qed.

(** C6 does not hold of the code: an order created with the promo code
    typed as "save10" is looked up and counted under "SAVE10" but saved with
    the text as typed.  Deleting it returns the stock and removes the usage
    record, but the UPDATE [WHERE code = 'save10'] matches no row and the
    counter of SAVE10 stays at 1. *)
Theorem deleted_order_keeps_promo_counter :
  let db1 := after_order shop (request [line 1 2] 300 "balance" None (Some "save10")) in
  let r := delete_order db1 1 in
  uses_of shop "SAVE10" = [0]
  /\ uses_of db1 "SAVE10" = [1]
  /\ List.map pu_order_id (promo_code_uses db1) = [1]
  /\ o_promo_code <$> orders db1 !! 1 = Some (Some "save10")
  /\ o_product_quantities_reduced <$> orders db1 !! 1 = Some 1
  /\ stock db1 1 = Some 8
  /\ fst r = Deleted
  /\ orders (snd r) !! 1 = None
  /\ stock (snd r) 1 = Some 10
  /\ promo_code_uses (snd r) = []
  /\ uses_of (snd r) "SAVE10" = [1].
Proof.
  cbv zeta. repeat split; vm_compute; reflexivity.
Qed.

(** C9 does not hold of the code: a cart with two lines of six units of
    product 1, of which ten are in stock, passes the check of each line; paid
    from the balance it leaves the stock at -2. *)
Theorem repeated_line_overdraws_stock :
  let req := request [line 1 6; line 1 6] 300 "balance" None None in
  stock shop 1 = Some 10
  /\ fst (create_order shop now alice req) = Created 1
  /\ stock (after_order shop req) 1 = Some (-2).
Proof.
  cbv zeta. repeat split; vm_compute; reflexivity.
Qed.

(** C4 does not hold of the code: an order of one palm (1000) with
    delivery 200 is created with SAVE10, so its discount is 100 and its total
    1100, as the claim has it.  The endpoint then applies the 50 percent code
    HALF to [1100 - 200], the total without the delivery, and not to the
    goods, which are 1000: the discount saved is 450 and the total 650.
    Fifty percent of the item subtotal is 500, and that is the discount of
    the same cart when the order is created with HALF. *)
Theorem percentage_of_a_discounted_order :
  let db1 := after_order shop (request [line 2 1] 200 "card" None (Some "SAVE10")) in
  let r := apply_promo db1 now "alice" 1 "HALF" in
  o_total_amount <$> orders db1 !! 1 = Some 1100
  /\ fst r = PromoApplied 1
  /\ line_items_total <$> (o_items <$> orders (snd r) !! 1) = Some 1000
  /\ o_promo_code_discount <$> orders (snd r) !! 1 = Some (Some 450)
  /\ round_percent 1000 50 = 500
  /\ Some 450 <> Some (round_percent 1000 50)
  /\ o_promo_code_discount <$> orders db1 !! 1 = Some (Some 100)
  /\ o_delivery_amount <$> orders (snd r) !! 1 = Some 200
  /\ o_total_amount <$> orders (snd r) !! 1 = Some 650
  /\ o_promo_code_discount
       <$> orders (after_order shop (request [line 2 1] 200 "card" None (Some "HALF"))) !! 1
     = Some (Some 500).
Proof.
  cbv zeta. repeat split; try (vm_compute; reflexivity). vm_compute. discriminate.
Qed.

(** The rounding of the handlers is that of doubles: with a code of 35
    percent a cart of 350 gets 122, where the exact 122.5 would go up to
    123. *)
Lemma percentage_is_rounded_in_doubles :
  let db := set_promo_codes
              (fun _ => [promo 5 "P35" Percentage 35 "2030-01-01T00:00:00.000Z" None])
              shop in
  order_promo_discount db now (Some "P35") 350 = inr (Some 122)
  /\ (2 * (350 * 35) + 100) / 200 = 123.
Proof. cbv zeta. split; vm_compute; reflexivity. Qed.

(** C1 fails as it is stated: the stock check of the handler is
    [product.quantity < item.quantity], so a line of -3 ferns passes it.
    With the fixed code ONCE the order is created with [itemsTotal = -1500]
    and the discount [Math.min(100, -1500) = -1500], which is not in the
    interval from 0 to [itemsTotal]. *)
Lemma negative_quantity_is_accepted :
  let req := request [line 1 (-3)] 300 "card" None (Some "ONCE") in
  let db1 := after_order shop req in
  fst (create_order shop now alice req) = Created 1
  /\ items_total (products shop) [line 1 (-3)] = -1500
  /\ o_promo_code_discount <$> orders db1 !! 1 = Some (Some (-1500))
  /\ o_total_amount <$> orders db1 !! 1 = Some 300
  /\ ~ (0 <= -1500 <= items_total (products shop) [line 1 (-3)]).
Proof.
  cbv zeta. repeat split; try (vm_compute; reflexivity).
  vm_compute. intros [H _]. apply H. reflexivity.
Qed.

(** C8 fails as it is stated: alice used the single-use code ONCE on her first
    order.  Applying it to her second order is rejected with the message of
    the use limit, not with "already used". *)
Lemma single_use_code_reports_the_limit :
  let db1 := after_order shop (request [line 1 1] 300 "card" None (Some "ONCE")) in
  let db2 := after_order db1 (request [line 1 1] 300 "card" None None) in
  let r := apply_promo db2 now "alice" 2 "ONCE" in
  List.map (fun u => (pu_promo_code_id u, pu_user_id u, pu_order_id u))
    (promo_code_uses db2) = [(4, "alice", 1)]
  /\ o_user_id <$> orders db2 !! 2 = Some "alice"
  /\ fst r = PromoRejected PromoLimitReached
  /\ fst r <> PromoRejected PromoAlreadyUsed
  /\ promo_error_message PromoLimitReached <> promo_error_message PromoAlreadyUsed.
Proof.
  cbv zeta. repeat split; try (vm_compute; reflexivity); vm_compute; discriminate.
Qed.

(** The five failures of the specification in the sample shop, each with the
    kind of its rejection; the database is the one before the request. *)
Lemma rejections_in_the_shop :
  create_order shop now alice (request [] 300 "card" None None)
  = (Rejected EmptyCart, shop)
  /\ create_order shop now alice (request [line 7 1] 300 "card" None None)
     = (Rejected (ProductNotFound 7), shop)
  /\ create_order shop now alice (request [line 1 11] 300 "card" None None)
     = (Rejected (InsufficientStock "Fern" 10), shop)
  /\ create_order shop now alice (request [line 1 2] 300 "card" None (Some "NOSUCH"))
     = (Rejected InvalidPromo, shop)
  /\ create_order shop now alice
       {| userId := "alice"; items := Some [line 1 2]; deliveryAmount := None;
          paymentMethod := "card"; paymentProof := None; promoCode := None |}
     = (Rejected NoDeliveryAmount, shop)
  /\ error_message (ProductNotFound 7) = "Товар с ID 7 не найден".
Proof. repeat split; vm_compute; reflexivity. Qed.

End Evaluations.

(** ** Instances of the theorems in the sample shop *)

Section Instances.

Import Sample.

Lemma shop_prices : nonneg_prices shop.
Proof.
  intros id p H. unfold shop in H. cbn [products] in H.
  apply lookup_insert_Some in H as [[_ <-]|[_ H]]; [simpl; lia|].
  apply lookup_insert_Some in H as [[_ <-]|[_ H]]; [simpl; lia|].
  rewrite lookup_empty in H. discriminate.
Defined.

Lemma shop_discount_values : nonneg_discount_values shop.
Proof. unfold nonneg_discount_values. simpl. repeat constructor; simpl; lia. Defined.

(** Two ferns with SAVE10 and delivery 300: 1000 - 100 + 300. *)
Lemma created_order_total_amount_witness :
  exists row,
    orders (after_order shop (request [line 1 2] 300 "card" None (Some "save10"))) !! 1
    = Some row
    /\ o_promo_code_discount row = Some 100
    /\ o_total_amount row = 1200.
Proof.
  destruct (created_order_total_amount shop now alice
              (request [line 1 2] 300 "card" None (Some "save10")) 1
              (after_order shop (request [line 1 2] 300 "card" None (Some "save10"))))
    as (cart & delivery & row & Hi & Hd & Hrow & Htotal & _ & Hcode & _).
  - vm_compute. reflexivity.
  - injection Hi as <-. injection Hd as <-.
    destruct (Hcode "save10" eq_refl) as (promo & Hfind & Hdisc); [discriminate|].
    vm_compute in Hfind. injection Hfind as <-.
    exists row. split; [exact Hrow|].
    assert (Hd : o_promo_code_discount row = Some 100).
    { rewrite Hdisc. vm_compute. reflexivity. }
    split; [exact Hd|]. rewrite Htotal, Hd. vm_compute. reflexivity.
Defined.

(** The expired code OLD50 at order creation. *)
Lemma failed_order_changes_nothing_witness :
  exists e,
    create_order shop now alice (request [line 1 2] 300 "card" None (Some "old50"))
    = (Rejected e, shop)
    /\ request_failure shop now alice
         (request [line 1 2] 300 "card" None (Some "old50")) (failure_kind e)
    /\ (forall e', failure_kind e' <> failure_kind e ->
                   error_message e' <> error_message e).
Proof.
  apply (failed_order_changes_nothing shop now alice
           (request [line 1 2] 300 "card" None (Some "old50")) PromoNotValid).
  - apply (fail_promo_not_valid _ _ _ _ "old50"); [reflexivity|discriminate|].
    intros p Hin Hcode (_ & (_ & Hend) & _).
    simpl in Hin. destruct Hin as [<-|[<-|[<-|[<-|[]]]]];
      vm_compute in Hcode; try discriminate Hcode.
    vm_compute in Hend. discriminate Hend.
  - discriminate.
Defined.


(** HALF on the palm order that already carries SAVE10: 450 more comes
    off, and 650 is left of 1000 + 200. *)
Lemma second_promo_stacks_witness :
  exists db' row,
    apply_promo (after_order shop (request [line 2 1] 200 "card" None (Some "SAVE10")))
      now "alice" 1 "HALF" = (PromoApplied 1, db')
    /\ orders db' !! 1 = Some row
    /\ o_promo_code row = Some "HALF"
    /\ o_promo_code_discount row = Some 450
    /\ o_total_amount row = 650
    /\ o_total_amount row
       <> 1000 - num_or_zero (o_promo_code_discount row) + o_delivery_amount row.
Proof.
  destruct (second_promo_stacks
              (after_order shop (request [line 2 1] 200 "card" None (Some "SAVE10")))
              now "alice" 1 "HALF" (palm_order (Some "SAVE10") (Some 100) 1100) half
              "SAVE10" 100 1000)
    as (db' & row & d2 & Happly & Hrow & Hd2 & Hcode & Hdisc & Htotal & _ & Hne).
  - discriminate.
  - vm_compute. reflexivity.
  - reflexivity.
  - reflexivity.
  - lia.
  - reflexivity.
  - vm_compute. reflexivity.
  - intros m H. discriminate H.
  - intros m H. discriminate H.
  - intros (u & Hin & Hid & _). vm_compute in Hin.
    destruct Hin as [<-|[]]. vm_compute in Hid. discriminate Hid.
  - assert (d2 = 450) as -> by (rewrite Hd2; vm_compute; reflexivity).
    exists db', row. split; [exact Happly|]. split; [exact Hrow|].
    split; [exact Hcode|]. split; [exact Hdisc|].
    split; [rewrite Htotal; reflexivity|exact Hne].
Defined.

(** Alice used SAVE10 when she created her first order; on her second order
    the endpoint answers "already used", and order creation accepts the code
    again, with its ten percent of one palm. *)
Lemma promo_reuse_by_the_same_user_witness :
  apply_promo
    (after_order (after_order shop (request [line 1 1] 300 "card" None (Some "SAVE10")))
       (request [line 2 1] 200 "card" None None))
    now "alice" 2 "SAVE10"
  = (PromoRejected PromoAlreadyUsed,
     after_order (after_order shop (request [line 1 1] 300 "card" None (Some "SAVE10")))
       (request [line 2 1] 200 "card" None None))
  /\ exists oid db' row,
       create_order
         (after_order (after_order shop (request [line 1 1] 300 "card" None (Some "SAVE10")))
            (request [line 2 1] 200 "card" None None))
         now alice (request [line 2 1] 200 "card" None (Some "SAVE10"))
       = (Created oid, db')
       /\ orders db' !! oid = Some row
       /\ o_user_id row = "alice"
       /\ o_promo_code row = Some "SAVE10"
       /\ o_promo_code_discount row = Some 100.
Proof.
  destruct (promo_reuse_by_the_same_user
              (after_order
                 (after_order shop (request [line 1 1] 300 "card" None (Some "SAVE10")))
                 (request [line 2 1] 200 "card" None None))
              now "alice" 2 "SAVE10"
              (palm_order None None 1200)
              (with_current_uses 1 save10))
    as [(e & Hr & _ & Hmsg) (_ & _ & Hcreate)].
  - discriminate.
  - vm_compute. reflexivity.
  - vm_compute. reflexivity.
  - eexists. split; [left; reflexivity|]. split; reflexivity.
  - destruct Hmsg as [-> _].
    + intros m H. discriminate H.
    + intros m H. discriminate H.
    + split; [exact Hr|].
      destruct (Hcreate alice (request [line 2 1] 200 "card" None (Some "SAVE10"))
                  [line 2 1] 200 "SAVE10")
        as (oid & db' & row & Hc & Hrow & Huser & Hcode & Hdisc).
      * reflexivity.
      * reflexivity.
      * reflexivity.
      * discriminate.
      * reflexivity.
      * constructor; [|constructor]. exists palm.
        split; [vm_compute; reflexivity|]. vm_compute. discriminate.
      * reflexivity.
      * discriminate.
      * vm_compute. reflexivity.
      * intros m H. discriminate H.
      * exists oid, db', row. split; [exact Hc|]. split; [exact Hrow|].
        split; [exact Huser|]. split; [exact Hcode|].
        rewrite Hdisc. vm_compute. reflexivity.
Defined.

End Instances.

(** ** CSV cells and rows *)

Section CsvRows.

Import Csv.

Lemma append_cons c r s : String c r +:+ s = String c (r +:+ s).
Proof. reflexivity. Qed.

Lemma append_empty_r s : s +:+ EmptyString = s.
Proof. induction s as [|c r IH]; [reflexivity|]. rewrite append_cons, IH. reflexivity. Qed.

Lemma append_append s t u : (s +:+ t) +:+ u = s +:+ (t +:+ u).
Proof. induction s as [|c r IH]; [reflexivity|]. rewrite !append_cons, IH. reflexivity. Qed.

Lemma append_length s t :
  String.length (s +:+ t) = (String.length s + String.length t)%nat.
Proof.
  induction s as [|c r IH]; [reflexivity|]. rewrite append_cons. simpl. rewrite IH.
  reflexivity.
Qed.

Lemma read_row_plain f : forall cell s,
  includes semicolon f = false ->
  read_row InPlain cell (f +:+ s)
  = read_row InPlain (rev (list_ascii_of_string f) ++ cell) s.
Proof.
  induction f as [|c r IH]; intros cell s H; [reflexivity|].
  cbn [includes] in H. apply orb_false_iff in H. destruct H as [Hc Hr].
  rewrite append_cons. cbn [read_row list_ascii_of_string rev].
  rewrite Hc. rewrite IH by exact Hr. rewrite <- app_assoc. reflexivity.
Qed.

Lemma read_row_quoted f : forall cell s,
  read_row InQuoted cell (double_quotes f +:+ String quote s)
  = read_row AfterQuote (rev (list_ascii_of_string f) ++ cell) s.
Proof.
  induction f as [|c r IH]; intros cell s;
    cbn [double_quotes list_ascii_of_string rev].
  - change (EmptyString +:+ String quote s) with (String quote s).
    cbn [read_row app]. rewrite ?Ascii.eqb_refl. reflexivity.
  - destruct (Ascii.eqb c quote) eqn:E; rewrite !append_cons; cbn [read_row].
    + rewrite ?Ascii.eqb_refl.
      apply Ascii.eqb_eq in E. subst c.
      rewrite IH. rewrite <- app_assoc. reflexivity.
    + rewrite E. rewrite IH. rewrite <- app_assoc. reflexivity.
Qed.

Lemma rev_chars f : string_of_list_ascii (rev (rev (list_ascii_of_string f) ++ [])) = f.
Proof.
  rewrite app_nil_r, rev_involutive. apply string_of_list_ascii_of_string.
Qed.

(** The reader takes an escaped field off the front of a line and gives the
    field back, at the end of the line and before a semicolon. *)
Lemma read_row_field f :
  read_row AtStart [] (escapeCSVField f) = [f]
  /\ forall s,
       read_row AtStart [] (escapeCSVField f +:+ String semicolon s)
       = f :: read_row AtStart [] s.
Proof.
  assert (Hsq : Ascii.eqb semicolon quote = false) by reflexivity.
  unfold escapeCSVField.
  destruct f as [|c r]; [split; reflexivity|].
  change (String.eqb (String c r) EmptyString) with false. cbv iota.
  destruct (needs_quotes (String c r)) eqn:Hn.
  - split; [|intros s].
    + cbn [read_row]. rewrite ?Ascii.eqb_refl.
      rewrite read_row_quoted. cbn [read_row]. rewrite rev_chars. reflexivity.
    + rewrite append_cons. cbn [read_row]. rewrite ?Ascii.eqb_refl.
      rewrite append_append.
      change (String quote EmptyString +:+ String semicolon s)
        with (String quote (String semicolon s)).
      rewrite read_row_quoted. cbn [read_row].
      rewrite ?Hsq, ?Ascii.eqb_refl, rev_chars. reflexivity.
  - unfold needs_quotes in Hn. rewrite !orb_false_iff in Hn.
    destruct Hn as [[Hs Hq] _]. cbn [includes] in Hs, Hq.
    apply orb_false_iff in Hs, Hq. destruct Hs as [Hs Hs'], Hq as [Hq _].
    assert (Hcell : forall l, string_of_list_ascii (rev (rev (list_ascii_of_string r) ++ l))
                              = string_of_list_ascii (rev l) +:+ r).
    { intros l. rewrite rev_app_distr, rev_involutive.
      induction (rev l) as [|a l' IHl].
      - apply string_of_list_ascii_of_string.
      - cbn [app string_of_list_ascii]. rewrite append_cons, IHl. reflexivity. }
    split; [|intros s].
    + cbn [read_row]. rewrite Hq, Hs.
      rewrite <- (append_empty_r r) at 1.
      rewrite read_row_plain by exact Hs'. cbn [read_row].
      rewrite Hcell. reflexivity.
    + rewrite append_cons. cbn [read_row]. rewrite Hq, Hs.
      rewrite read_row_plain by exact Hs'. cbn [read_row].
      rewrite ?Ascii.eqb_refl, Hcell. reflexivity.
Qed.

(** Reading a written row gives its cells back. *)
Lemma read_row_csv_row row :
  row <> [] -> read_row AtStart [] (csv_row row) = row.
Proof.
  unfold csv_row. induction row as [|f rest IH]; intros Hne; [contradiction|].
  destruct rest as [|g rest'].
  - cbn [List.map join]. apply read_row_field.
  - change (join (String semicolon EmptyString) (List.map escapeCSVField (f :: g :: rest')))
      with (escapeCSVField f +:+ String semicolon EmptyString
            +:+ join (String semicolon EmptyString) (List.map escapeCSVField (g :: rest'))).
    change (String semicolon EmptyString +:+ ?x) with (String semicolon x).
    rewrite (proj2 (read_row_field f)). rewrite IH by discriminate. reflexivity.
Qed.

(** X1: two rows with at least one cell each that are written as the same line
    have the same cells: no separator, quote or line feed inside a cell can
    shift the cells of the line. *)
Theorem csv_row_injective row1 row2 :
  row1 <> [] -> row2 <> [] -> csv_row row1 = csv_row row2 -> row1 = row2.
Proof.
  intros H1 H2 E.
  rewrite <- (read_row_csv_row row1 H1), <- (read_row_csv_row row2 H2), E.
  reflexivity.
Qed.

Lemma double_quotes_length s : (String.length s <= String.length (double_quotes s))%nat.
Proof.
  induction s as [|c r IH]; simpl; [lia|].
  destruct (Ascii.eqb c quote); simpl; lia.
Qed.

Lemma needs_quotes_escaped f :
  f <> EmptyString -> needs_quotes f = true ->
  needs_quotes (escapeCSVField f) = true
  /\ (String.length f < String.length (escapeCSVField f))%nat.
Proof.
  intros Hne Hn. unfold escapeCSVField.
  rewrite (proj2 (String.eqb_neq _ _) Hne), Hn. split.
  - unfold needs_quotes. cbn [includes]. rewrite Ascii.eqb_refl.
    rewrite orb_true_r. reflexivity.
  - cbn [String.length]. rewrite append_length. cbn [String.length].
    pose proof (double_quotes_length f). lia.
Qed.

(** X2: escaping twice is the same as escaping once exactly for the fields that
    need no quotes; a field with a semicolon, a quote or a line feed comes
    out of the second pass longer, its quotes quoted again. *)
Theorem escape_twice f :
  escapeCSVField (escapeCSVField f) = escapeCSVField f <-> needs_quotes f = false.
Proof.
  split.
  - intros E. destruct (needs_quotes f) eqn:Hn; [exfalso|reflexivity].
    assert (Hne : f <> EmptyString) by (intros ->; discriminate Hn).
    destruct (needs_quotes_escaped f Hne Hn) as [Hn' Hlen].
    assert (Hne' : escapeCSVField f <> EmptyString).
    { intros E0. rewrite E0 in Hlen. simpl in Hlen. lia. }
    destruct (needs_quotes_escaped _ Hne' Hn') as [_ Hlen'].
    rewrite E in Hlen'. lia.
  - intros Hn. assert (E : escapeCSVField f = f).
    { unfold escapeCSVField. destruct (String.eqb_spec f EmptyString) as [->|_];
        [reflexivity|]. rewrite Hn. reflexivity. }
    rewrite E. exact E.
Qed.

End CsvRows.

(** ** What the client is shown of an order *)

Section ClientView.

Lemma parseInt_pretty n : n <> 0 -> parseInt (pretty n) = Some n.
Proof.
  intros Hn. pose proof (parse_quantity_number n) as H.
  unfold parse_quantity, or_else in H. cbn [truthy] in H.
  rewrite (proj2 (Z.eqb_neq _ _) Hn) in H. exact H.
Qed.

(** The sum the formatter builds over the lines saved at order creation,
    for quantities other than zero. *)
Lemma add_lines_snapshot t cart : forall sum,
  Forall (fun item => ci_quantity item <> 0) cart ->
  fold_left add_line (List.map (snapshot_item t) cart) (Some sum)
  = Some (sum + items_total t cart).
Proof.
  induction cart as [|item rest IH]; intros sum Hq.
  - cbn [List.map fold_left items_total]. f_equal. lia.
  - apply Forall_cons in Hq. destruct Hq as [Hq Hrest].
    assert (Hhead : add_line (Some sum) (snapshot_item t item)
                    = Some (sum + li_price (snapshot_item t item) * ci_quantity item)).
    { unfold add_line, or_else. cbn [snapshot_item li_quantity truthy].
      rewrite (proj2 (Z.eqb_neq _ _) Hq). cbn [negb to_String].
      rewrite (parseInt_pretty _ Hq). reflexivity. }
    cbn [List.map fold_left items_total]. rewrite Hhead, IH by exact Hrest.
    f_equal. cbn [snapshot_item li_price]. destruct (t !! ci_id item); lia.
Qed.

(** The formatter never shows a discount above the item subtotal it
    shows. *)
Theorem shown_discount_within_subtotal order t d :
  co_itemsTotal (formatOrderForClient order) = Some t ->
  co_promoCodeDiscount (formatOrderForClient order) = Some d ->
  d <= t /\ d <> 0.
Proof.
  unfold formatOrderForClient. cbn [co_itemsTotal co_promoCodeDiscount].
  intros -> H.
  destruct (num_truthy (o_promo_code_discount order)); [|discriminate].
  cbn [num_truthy] in H.
  destruct (Z.min (num_or_zero (o_promo_code_discount order)) t =? 0) eqn:E;
    cbn [negb] in H; [discriminate|].
  injection H as <-. apply Z.eqb_neq in E. split; [lia|exact E].
Qed.

(** X3: for an order just created from a cart whose quantities are whole
    numbers, none of them zero, the object sent to the client adds up: the
    item subtotal it shows is the sum of price times quantity over the cart,
    and the total is that subtotal minus the discount shown (none shown
    counts as 0) plus the delivery amount.  (The formatter reads a quantity
    with [parseInt], which is the quantity itself only for a whole
    number.) *)
Theorem new_order_is_shown_consistently db now user orderData oid db' cart :
  create_order db now user orderData = (Created oid, db') ->
  items orderData = Some cart ->
  Forall (fun item => ci_quantity item <> 0) cart ->
  exists row,
    orders db' !! oid = Some row
    /\ co_itemsTotal (formatOrderForClient row) = Some (items_total (products db) cart)
    /\ co_totalAmount (formatOrderForClient row)
       = items_total (products db) cart
         - num_or_zero (co_promoCodeDiscount (formatOrderForClient row))
         + co_deliveryAmount (formatOrderForClient row).
Proof.
  intros H Hi Hq. apply created_order_row in H.
  destruct H as (cart' & delivery & d & Hi' & _ & _ & _ & Hp & _ & Hrow & _).
  assert (cart' = cart) as -> by congruence.
  eexists. split; [exact Hrow|].
  assert (Htotal : forall row,
    o_items row = List.map (snapshot_item (products db)) cart ->
    co_itemsTotal (formatOrderForClient row) = Some (items_total (products db) cart)).
  { intros row E. unfold formatOrderForClient. cbn [co_itemsTotal]. rewrite E.
    rewrite (add_lines_snapshot _ _ 0 Hq). f_equal. }
  assert (Hle : num_or_zero d <= items_total (products db) cart \/ d = None).
  { apply order_promo_discount_inr in Hp.
    destruct Hp as [[_ ->]|(c & promo & _ & _ & _ & ->)]; [right; reflexivity|left].
    cbn [num_or_zero]. unfold spec_discount.
    destruct (pc_discount_type promo); lia. }
  assert (Hshown : forall row,
    o_items row = List.map (snapshot_item (products db)) cart ->
    o_promo_code_discount row = d ->
    num_or_zero (co_promoCodeDiscount (formatOrderForClient row)) = num_or_zero d).
  { intros row E Ed. unfold formatOrderForClient. cbn [co_promoCodeDiscount].
    rewrite E, Ed, (add_lines_snapshot _ _ 0 Hq). rewrite Z.add_0_l.
    destruct d as [v|]; [|reflexivity]. cbn [num_truthy num_or_zero].
    destruct (v =? 0) eqn:Ev; cbn [negb].
    - apply Z.eqb_eq in Ev. subst v. reflexivity.
    - destruct Hle as [Hle|Hle]; [|discriminate]. cbn [num_or_zero] in Hle.
      rewrite Z.min_l by exact Hle. cbn [num_truthy num_or_zero].
      rewrite Ev. reflexivity. }
  destruct (paid_at_creation orderData); cbv zeta.
  - split; [apply Htotal; reflexivity|].
    rewrite Hshown by reflexivity. reflexivity.
  - split; [apply Htotal; reflexivity|].
    rewrite Hshown by reflexivity. reflexivity.
Qed.

End ClientView.

(** ** The discount preview *)

(** X4: the preview of [POST /api/promo-codes/validate] tells what order
    creation will do with the same code and item subtotal: the same discount
    when the preview succeeds, a rejection as invalid when the preview finds
    no code, and the minimum-amount rejection when the preview reports the
    minimum. *)
Theorem preview_agrees_with_checkout db now code cartTotal :
  code <> EmptyString ->
  0 <= cartTotal ->
  match validate_promo_code db now code cartTotal with
  | ValidatePreview _ discount =>
      order_promo_discount db now (Some code) cartTotal = inr (Some discount)
      /\ discount <= cartTotal
  | ValidateNotFound =>
      order_promo_discount db now (Some code) cartTotal = inl InvalidPromo
  | ValidateBelowMinimum m =>
      order_promo_discount db now (Some code) cartTotal = inl (MinOrderAmount m)
      /\ cartTotal < m
  | ValidateBadData => False
  end.
Proof.
  intros Hc Ht. unfold validate_promo_code, order_promo_discount.
  cbn [str_truthy]. rewrite (proj2 (String.eqb_neq _ _) Hc).
  rewrite (proj2 (Z.ltb_ge _ _) Ht). cbn [orb negb].
  destruct (List.find _ _) as [promo|]; [|reflexivity].
  destruct (num_truthy (pc_min_order_amount promo)
            && (cartTotal <? num_or_zero (pc_min_order_amount promo))) eqn:E.
  - split; [reflexivity|]. apply andb_true_iff in E. destruct E as [_ E].
    apply Z.ltb_lt in E. exact E.
  - split; [reflexivity|]. lia.
Qed.

(** ** New orders get a fresh id *)

Section FreshOrderId.

Lemma lastInsertRowid_above (t : gmap Z OrderRow) :
  1 <= lastInsertRowid t /\ forall k, is_Some (t !! k) -> k < lastInsertRowid t.
Proof.
  unfold lastInsertRowid.
  cut (0 <= map_fold (fun k _ acc => Z.max k acc) 0 t
       /\ forall k, is_Some (t !! k) -> k <= map_fold (fun k _ acc => Z.max k acc) 0 t).
  { intros [H0 Hk]. split; [lia|]. intros k Hs. specialize (Hk k Hs). lia. }
  apply (map_fold_weak_ind
           (fun r (m : gmap Z OrderRow) => 0 <= r /\ forall k, is_Some (m !! k) -> k <= r)).
  - split; [lia|]. intros k [x Hx]. rewrite lookup_empty in Hx. discriminate.
  - intros i x m r Hi [H0 Hk]. split; [lia|].
    intros k Hs. destruct (decide (k = i)) as [->|Hne]; [lia|].
    rewrite lookup_insert_ne in Hs by congruence. specialize (Hk k Hs). lia.
Qed.

Lemma lastInsertRowid_fresh (t : gmap Z OrderRow) : t !! lastInsertRowid t = None.
Proof.
  destruct (t !! lastInsertRowid t) as [x|] eqn:E; [|reflexivity].
  pose proof (proj2 (lastInsertRowid_above t) _ (ex_intro _ x E)). lia.
Qed.

(** X5: creating an order leaves every order that was there as it was: the new
    row gets an id no order has, and the other statements of the transaction
    touch the new row only. *)
Theorem create_order_keeps_other_orders db now user orderData oid db' :
  create_order db now user orderData = (Created oid, db') ->
  orders db !! oid = None
  /\ forall k row, orders db !! k = Some row -> orders db' !! k = Some row.
Proof.
  intros H. apply create_order_created in H.
  destruct H as (cart & delivery & itemsTotal & d & _ & _ & _ & _ & _ & Hs).
  unfold save_order in Hs. injection Hs as <- <-.
  split; [apply lastInsertRowid_fresh|].
  intros k row Hk.
  assert (Hne : lastInsertRowid (orders db) <> k).
  { intros E. rewrite <- E, lastInsertRowid_fresh in Hk. discriminate. }
  destruct (String.eqb (paymentMethod orderData) "balance"
            || str_truthy (paymentProof orderData));
    (destruct (promoCode orderData) as [c|]; [destruct (str_truthy (Some c))|]);
    cbn [orders set_orders set_products set_promo_codes set_promo_code_uses];
    rewrite ?lookup_alter_ne by exact Hne;
    rewrite lookup_insert_ne by exact Hne; exact Hk.
Qed.

End FreshOrderId.

(** ** Paying later *)

Section PayLater.




End PayLater.

(** ** Cancelling a paid order *)

Section CreateThenDelete.

Lemma reduce_quantities_lookup t0 l : forall (t : gmap Z ProductRow) id,
  reduce_quantities l t !! id
  = (fun p => with_quantity
                (p_quantity p - ordered_quantity (List.map (snapshot_item t0) l) id) p)
      <$> t !! id.
Proof.
  induction l as [|item rest IH]; intros t id; cbn [reduce_quantities List.map ordered_quantity].
  - destruct (t !! id) as [p|]; simpl; [|reflexivity].
    destruct p; unfold with_quantity; simpl. do 2 f_equal. lia.
  - rewrite IH. cbn [snapshot_item li_id li_quantity].
    destruct (Z.eqb_spec (ci_id item) id) as [->|Hne].
    + rewrite lookup_alter_eq. destruct (t !! id) as [p|]; simpl; [|reflexivity].
      unfold with_quantity; simpl. do 2 f_equal. lia.
    + rewrite lookup_alter_ne by exact Hne.
      destruct (t !! id) as [p|]; simpl; [|reflexivity].
      unfold with_quantity; simpl. do 2 f_equal.
Qed.

Lemma snapshot_lines_numeric t0 cart :
  Forall (fun item => ci_id item <> 0) cart ->
  numeric_lines (List.map (snapshot_item t0) cart).
Proof.
  intros H. unfold numeric_lines. apply List.Forall_forall. intros x Hx.
  apply in_map_iff in Hx. destruct Hx as (item & <- & Hin).
  rewrite List.Forall_forall in H. split; [exact (H item Hin)|].
  eexists. reflexivity.
Qed.

(** X7: an order paid when it is placed and carrying no promo code, deleted
    afterwards: the database is the one before the order.  Every product has
    its stock back, also a product on several cart lines, and the order is
    gone.  The cart lines have an id other than 0. *)
Theorem deleting_a_paid_order_undoes_it db now user orderData oid db1 cart :
  create_order db now user orderData = (Created oid, db1) ->
  items orderData = Some cart ->
  paid_at_creation orderData = true ->
  promoCode orderData = None ->
  Forall (fun item => ci_id item <> 0) cart ->
  delete_order db1 oid = (Deleted, db).
Proof.
  intros Hc Hi Hpaid Hcode Hids.
  apply create_order_created in Hc.
  destruct Hc as (cart' & delivery & itemsTotal & d & Hi' & _ & _ & _ & _ & Hs).
  assert (cart' = cart) as -> by congruence.
  unfold save_order in Hs. unfold paid_at_creation in Hpaid.
  rewrite Hcode, Hpaid in Hs. injection Hs as <- <-.
  pose proof (lastInsertRowid_fresh (orders db)) as Hfresh.
  set (oid := lastInsertRowid (orders db)) in *.
  unfold delete_order. cbn [orders set_orders set_products].
  rewrite lookup_alter_eq, lookup_insert_eq.
  cbn [fmap option_fmap option_map with_reduced order_to_save o_promo_code row_reduced
       o_product_quantities_reduced truthy o_items].
  rewrite Hcode. cbn [str_truthy Z.eqb negb].
  f_equal. destruct db as [pr pc pu os].
  unfold set_orders, set_products. cbn [products promo_codes promo_code_uses orders] in *.
  f_equal.
  - apply map_eq. intros id.
    rewrite restore_quantities_lookup by (apply snapshot_lines_numeric; exact Hids).
    rewrite (reduce_quantities_lookup pr).
    destruct (pr !! id) as [p|]; simpl; [|reflexivity].
    destruct p; unfold with_quantity; simpl. do 2 f_equal. lia.
  - rewrite delete_alter_eq. apply delete_insert_id. exact Hfresh.
Qed.

End CreateThenDelete.

(** ** The table of promo codes under the administrator's endpoints *)

Section PromoTable.

Variable is_datetime : string -> bool.
Variable text_as_integer : string -> option Z.

Lemma upper_ascii_idem c : upper_ascii (upper_ascii c) = upper_ascii c.
Proof. destruct c as [[] [] [] [] [] [] [] []]; reflexivity. Qed.

Lemma toUpperCase_idem s : toUpperCase (toUpperCase s) = toUpperCase s.
Proof.
  induction s as [|c r IH]; [reflexivity|].
  cbn [toUpperCase]. rewrite upper_ascii_idem, IH. reflexivity.
Qed.

Lemma toUpperCase_empty s : toUpperCase s = EmptyString -> s = EmptyString.
Proof. destruct s; [reflexivity|discriminate]. Qed.

Lemma next_promo_id_above l p : In p l -> pc_id p < next_promo_id l.
Proof.
  unfold next_promo_id. induction l as [|a r IH]; [intros []|].
  intros [->|Hin]; cbn [fold_right]; [lia|]. specialize (IH Hin). lia.
Qed.

Lemma parsed_row_ok body data id current_uses expires_at :
  promoCodeSchema_parse is_datetime body = Some data ->
  promo_row_ok (promo_row id current_uses expires_at data).
Proof.
  unfold promoCodeSchema_parse. intros H.
  destruct (z_string_min1 (b_code body)) as [code|] eqn:Ec; [|discriminate].
  destruct (z_string_optional (b_description body)); [|discriminate].
  destruct (z_discount_type (b_discountType body)) as [ty|]; [|discriminate].
  destruct (z_number_min 0 (b_discountValue body)) as [value|] eqn:Ev; [|discriminate].
  destruct (z_number_min_optional 0 (b_minOrderAmount body)) as [minimum|] eqn:Em;
    [|discriminate].
  destruct (z_datetime is_datetime (b_startDate body)); [|discriminate].
  destruct (z_datetime is_datetime (b_endDate body)); [|discriminate].
  destruct (z_number_min_optional 1 (b_maxUses body)) as [maxUses|] eqn:Eu; [|discriminate].
  destruct (z_boolean_default_true (b_isActive body)) as [active|]; [|discriminate].
  injection H as <-.
  unfold promo_row_ok, promo_row; cbn.
  repeat split.
  - apply toUpperCase_idem.
  - intros E. apply toUpperCase_empty in E. subst code.
    unfold z_string_min1 in Ec. destruct (b_code body) as [| | | |text]; try discriminate.
    destruct (String.eqb text EmptyString) eqn:Es; [discriminate|].
    injection Ec as ->. cbn in Es. discriminate.
  - unfold z_number_min in Ev. destruct (b_discountValue body) as [| | |n|]; try discriminate.
    destruct (Z.ltb_spec n 0); [discriminate|]. injection Ev as <-. assumption.
  - intros m Hm. unfold number_or_null in Hm.
    destruct minimum as [m0|]; cbn in Hm; [|discriminate].
    destruct (m0 =? 0) eqn:Ez; cbn in Hm; [discriminate|]. injection Hm as <-.
    apply Z.eqb_neq in Ez.
    unfold z_number_min_optional, z_number_min in Em.
    destruct (b_minOrderAmount body) as [| | |n|]; try discriminate.
    destruct (Z.ltb_spec n 0); [discriminate|]. cbn in Em. injection Em as <-. lia.
  - intros m Hm. unfold number_or_null in Hm.
    destruct maxUses as [m0|]; cbn in Hm; [|discriminate].
    destruct (m0 =? 0) eqn:Ez; cbn in Hm; [discriminate|]. injection Hm as <-.
    unfold z_number_min_optional, z_number_min in Eu.
    destruct (b_maxUses body) as [| | |n|]; try discriminate.
    destruct (Z.ltb_spec n 1); [discriminate|]. cbn in Eu. injection Eu as <-. lia.
  - destruct active; auto.
Qed.

Lemma find_none_forall {A} (f : A -> bool) l :
  List.find f l = None -> forall x, In x l -> f x = false.
Proof. intros H x Hx. exact (List.find_none f l H x Hx). Qed.

Lemma not_in_map {A B} (f : A -> B) (l : list A) (y : B) :
  (forall x, In x l -> f x <> y) -> y ∉ List.map f l.
Proof.
  intros H Hin. apply list_elem_of_In, in_map_iff in Hin.
  destruct Hin as (x & Hx & Hin). exact (H x Hin Hx).
Qed.

Lemma NoDup_app_one {A} (l : list A) (x : A) : NoDup l -> x ∉ l -> NoDup (l ++ [x]).
Proof.
  intros Hl Hx. apply NoDup_app. split; [exact Hl|]. split.
  - intros y Hy Hy'. apply list_elem_of_In in Hy'. destruct Hy' as [<-|[]]. exact (Hx Hy).
  - apply NoDup_singleton.
Qed.

Lemma create_promo_code_ok db body :
  promo_table_ok (promo_codes db) ->
  promo_table_ok (promo_codes (snd (create_promo_code is_datetime db body))).
Proof.
  intros (Hid & Hcode & Hall). unfold create_promo_code.
  destruct (promoCodeSchema_parse is_datetime body) as [data|] eqn:Hp;
    [|repeat split; assumption].
  destruct (List.find _ _) as [existing|] eqn:Hf; [repeat split; assumption|].
  cbn [snd promo_codes set_promo_codes].
  pose proof (find_none_forall _ _ Hf) as Hnone. cbn beta in Hnone.
  split; [|split].
  - rewrite List.map_app. apply NoDup_app_one; [exact Hid|].
    apply not_in_map. intros x Hx E.
    pose proof (next_promo_id_above _ _ Hx). cbn in E. lia.
  - rewrite List.map_app. apply NoDup_app_one; [exact Hcode|].
    apply not_in_map. intros x Hx E. specialize (Hnone x Hx).
    apply String.eqb_neq in Hnone. exact (Hnone E).
  - apply Forall_app. split; [exact Hall|].
    apply Forall_cons. split; [|apply Forall_nil; exact I].
    eapply parsed_row_ok. exact Hp.
Qed.

Lemma updated_codes_NoDup id data l :
  NoDup (List.map pc_id l) -> NoDup (List.map pc_code l) ->
  (forall p, In p l -> pc_code p = toUpperCase (d_code data) ->
             id_is text_as_integer id p = true) ->
  NoDup (List.map pc_code
           (List.map (fun p => if id_is text_as_integer id p
                               then promo_row (pc_id p) (pc_current_uses p)
                                      (pc_expires_at p) data
                               else p) l)).
Proof.
  set (g := fun p => if id_is text_as_integer id p
                     then promo_row (pc_id p) (pc_current_uses p) (pc_expires_at p) data
                     else p).
  induction l as [|a r IH]; intros Hid Hcode Hdup; [apply NoDup_nil; exact I|].
  cbn [List.map] in *.
  apply NoDup_cons in Hid. destruct Hid as [Hida Hid].
  apply NoDup_cons in Hcode. destruct Hcode as [Hcodea Hcode].
  apply NoDup_cons. split.
  - intros Hin. apply list_elem_of_In, in_map_iff in Hin.
    destruct Hin as (q & Hq & Hin). apply in_map_iff in Hin.
    destruct Hin as (p & <- & Hin).
    assert (Hne : pc_id p <> pc_id a).
    { intros E. apply Hida. rewrite <- E. apply list_elem_of_In, in_map, Hin. }
    assert (Hboth : id_is text_as_integer id p = true ->
                    id_is text_as_integer id a = true -> False).
    { unfold id_is. destruct (text_as_integer id) as [n|]; [|discriminate].
      intros E1 E2. apply Z.eqb_eq in E1, E2. lia. }
    unfold g in Hq.
    destruct (id_is text_as_integer id p) eqn:Ep;
      destruct (id_is text_as_integer id a) eqn:Ea.
    + exact (Hboth eq_refl eq_refl).
    + cbn in Hq. assert (id_is text_as_integer id a = true).
      { apply Hdup; [left; reflexivity|]. symmetry. exact Hq. }
      congruence.
    + cbn in Hq. assert (id_is text_as_integer id p = true).
      { apply Hdup; [right; exact Hin|]. exact Hq. }
      congruence.
    + apply Hcodea. rewrite <- Hq. apply list_elem_of_In, in_map, Hin.
  - apply IH; [exact Hid|exact Hcode|]. intros p Hp. apply Hdup. right. exact Hp.
Qed.

Lemma update_promo_code_ok db id body :
  promo_table_ok (promo_codes db) ->
  promo_table_ok (promo_codes (snd (update_promo_code is_datetime text_as_integer db id body))).
Proof.
  intros (Hid & Hcode & Hall). unfold update_promo_code.
  destruct (promoCodeSchema_parse is_datetime body) as [data|] eqn:Hp;
    [|repeat split; assumption].
  destruct (List.find (id_is text_as_integer id) _) as [existing|];
    [|repeat split; assumption].
  destruct (List.find _ _) as [duplicate|] eqn:Hf; [repeat split; assumption|].
  cbn [snd promo_codes set_promo_codes].
  pose proof (find_none_forall _ _ Hf) as Hnone. cbn beta in Hnone.
  split; [|split].
  - rewrite List.map_map.
    rewrite (List.map_ext _ pc_id); [exact Hid|].
    intros p. destruct (id_is text_as_integer id p); reflexivity.
  - apply updated_codes_NoDup; [exact Hid|exact Hcode|].
    intros p Hin E. specialize (Hnone p Hin).
    rewrite E, String.eqb_refl in Hnone. cbn in Hnone.
    apply negb_false_iff in Hnone. exact Hnone.
  - apply List.Forall_forall. intros q Hq. apply in_map_iff in Hq.
    destruct Hq as (p & <- & Hin).
    destruct (id_is text_as_integer id p).
    + eapply parsed_row_ok. exact Hp.
    + rewrite List.Forall_forall in Hall. exact (Hall p Hin).
Qed.

Lemma NoDup_map_filter {A B} (f : A -> B) (P : A -> bool) l :
  NoDup (List.map f l) -> NoDup (List.map f (List.filter P l)).
Proof.
  induction l as [|a r IH]; intros H; [exact H|].
  cbn [List.map] in H. apply NoDup_cons in H. destruct H as [Ha Hr].
  cbn [List.filter]. destruct (P a); [|exact (IH Hr)].
  cbn [List.map]. apply NoDup_cons. split; [|exact (IH Hr)].
  intros Hin. apply Ha. apply list_elem_of_In, in_map_iff in Hin.
  destruct Hin as (x & Hx & Hin). apply List.filter_In in Hin.
  rewrite <- Hx. apply list_elem_of_In, in_map. tauto.
Qed.

Lemma delete_promo_code_ok db id :
  promo_table_ok (promo_codes db) ->
  promo_table_ok (promo_codes (snd (delete_promo_code text_as_integer db id))).
Proof.
  intros (Hid & Hcode & Hall). unfold delete_promo_code.
  destruct (List.find _ _) as [existing|]; [|repeat split; assumption].
  cbn [snd promo_codes set_promo_codes].
  repeat split; try (apply NoDup_map_filter; assumption).
  apply List.Forall_forall. intros p Hp. apply List.filter_In in Hp.
  rewrite List.Forall_forall in Hall. apply Hall. tauto.
Qed.

(** Counting a use changes neither the id nor the code nor anything the
    schema checked. *)
Lemma counted_table_ok (g : PromoRow -> PromoRow) l :
  (forall p, g p = p \/ exists n, g p = with_current_uses n p) ->
  promo_table_ok l -> promo_table_ok (List.map g l).
Proof.
  intros Hg (Hid & Hcode & Hall).
  assert (Hsame : forall p, pc_id (g p) = pc_id p /\ pc_code (g p) = pc_code p
                            /\ (promo_row_ok p -> promo_row_ok (g p))).
  { intros p. destruct (Hg p) as [->|[n ->]];
      (split; [reflexivity|split; [reflexivity|intros Hok; exact Hok]]). }
  split; [|split].
  - rewrite List.map_map. rewrite (List.map_ext _ pc_id); [exact Hid|].
    intros p. apply Hsame.
  - rewrite List.map_map. rewrite (List.map_ext _ pc_code); [exact Hcode|].
    intros p. apply Hsame.
  - apply List.Forall_forall. intros q Hq. apply in_map_iff in Hq.
    destruct Hq as (p & <- & Hin). apply Hsame.
    rewrite List.Forall_forall in Hall. exact (Hall p Hin).
Qed.

Lemma bump_uses_ok code delta l :
  promo_table_ok l -> promo_table_ok (bump_uses_by_code code delta l).
Proof.
  apply counted_table_ok. intros p.
  destruct (String.eqb (pc_code p) code); [right; eexists; reflexivity|left; reflexivity].
Qed.

Lemma create_order_promo_codes db now user orderData :
  promo_codes (snd (create_order db now user orderData)) = promo_codes db
  \/ exists code,
       promo_codes (snd (create_order db now user orderData))
       = bump_uses_by_code code 1 (promo_codes db).
Proof.
  destruct (create_order db now user orderData) as [[e|oid] db'] eqn:H.
  - apply create_order_rejected in H. subst db'. left. reflexivity.
  - apply create_order_created in H.
    destruct H as (cart & delivery & itemsTotal & d & _ & _ & _ & _ & _ & Hs).
    unfold save_order in Hs. injection Hs as _ <-. cbn [snd].
    destruct (String.eqb (paymentMethod orderData) "balance"
              || str_truthy (paymentProof orderData));
      (destruct (promoCode orderData) as [c|]; [destruct (str_truthy (Some c))|]);
      cbn [promo_codes set_orders set_products set_promo_codes set_promo_code_uses];
      eauto.
Qed.

Lemma update_order_status_promo_codes db orderId orderStatus :
  promo_codes (snd (update_order_status db orderId orderStatus)) = promo_codes db.
Proof.
  unfold update_order_status.
  destruct (String.eqb orderStatus EmptyString); [reflexivity|].
  destruct (orders db !! orderId) as [o|]; [|reflexivity].
  destruct (_ && _); [|reflexivity].
  destruct (o_items o) as [|i r]; [reflexivity|].
  unfold updateProductQuantities. rewrite already_reduced_false. reflexivity.
Qed.

Lemma update_order_promo_codes db orderId orderStatus :
  promo_codes (snd (update_order db orderId orderStatus)) = promo_codes db.
Proof.
  unfold update_order.
  destruct (orders db !! orderId) as [o|]; [|reflexivity].
  destruct orderStatus as [s|]; [|reflexivity].
  destruct (str_truthy (Some s)); [|reflexivity].
  destruct (_ && _); [|reflexivity].
  destruct (o_items o) as [|i r]; [reflexivity|].
  unfold updateProductQuantities. rewrite already_reduced_false. reflexivity.
Qed.

Lemma serve_ok db now r :
  promo_table_ok (promo_codes db) ->
  promo_table_ok (promo_codes (serve is_datetime text_as_integer db now r)).
Proof.
  intros H.
  destruct r as [user orderData|orderId orderStatus|orderId orderStatus|orderId
                |uid orderId code|file id|user orderId|body|id body|id];
    cbn [serve].
  - destruct (create_order_promo_codes db now user orderData) as [->|[code ->]];
      [exact H|apply bump_uses_ok; exact H].
  - rewrite update_order_status_promo_codes. exact H.
  - rewrite update_order_promo_codes. exact H.
  - unfold delete_order. destruct (orders db !! orderId) as [o|]; [|exact H].
    cbn [snd].
    destruct (truthy (row_reduced o));
      (destruct (o_promo_code o) as [c|]; [destruct (str_truthy (Some c))|]);
      cbn [promo_codes set_orders set_products set_promo_codes set_promo_code_uses];
      try exact H; apply bump_uses_ok; exact H.
  - destruct (apply_promo db now uid orderId code) as [[e|oid] db'] eqn:E.
    + apply apply_promo_rejected in E. subst db'. exact H.
    + unfold apply_promo in E.
      destruct (String.eqb uid EmptyString); [discriminate|].
      destruct (orders db !! orderId); [|discriminate].
      destruct (List.find _ (promo_codes db)) as [promo|]; [|discriminate].
      destruct (_ && _); [discriminate|].
      destruct (_ && _); [discriminate|].
      destruct (List.find _ (promo_code_uses db)); [discriminate|].
      injection E as _ <-.
      cbn [snd promo_codes set_orders set_promo_codes set_promo_code_uses].
      apply counted_table_ok; [|exact H].
      intros p. destruct (pc_id p =? pc_id promo);
        [right; eexists; reflexivity|left; reflexivity].
  - unfold upload_payment_proof. destruct file; [|exact H].
    destruct (parseInt id); [|exact H]. destruct (orders db !! _); exact H.
  - unfold complete_order. destruct (orders db !! orderId) as [o|]; [|exact H].
    destruct (_ && _); [exact H|]. destruct (str_truthy _); exact H.
  - apply create_promo_code_ok. exact H.
  - apply update_promo_code_ok. exact H.
  - apply delete_promo_code_ok. exact H.
Qed.

(** X11: whatever requests the server gets, the table of promo codes keeps one row
    for each code and each id, every code is in upper case and not empty, no
    discount value is negative, a minimum order amount is positive, a cap on
    the uses is at least 1 and [is_active] is 0 or 1: all of it holds after
    every log of requests if it held before, for instance of an empty
    table. *)
Theorem promo_table_stays_well_formed db log :
  promo_table_ok (promo_codes db) ->
  promo_table_ok (promo_codes (serve_all is_datetime text_as_integer db log)).
Proof.
  unfold serve_all. revert db.
  induction log as [|[now r] rest IH]; intros db H; [exact H|].
  cbn [fold_left fst snd]. apply IH. apply serve_ok. exact H.
Qed.

End PromoTable.

(** ** What unique upper-case codes give the two promo paths *)

Section UniqueCodes.

Variable is_datetime : string -> bool.

Lemma table_ok_in l p : promo_table_ok l -> In p l -> promo_row_ok p.
Proof. intros (_ & _ & Hall) Hin. rewrite List.Forall_forall in Hall. exact (Hall p Hin). Qed.

(** X12: the endpoint [apply-promo] takes a code only as it is stored: a code
    with a small letter in it is never applied, although order creation and
    the preview, which put the text in upper case first, take it. *)
Theorem apply_promo_takes_stored_spelling_only db now userId orderId code oid db' :
  promo_table_ok (promo_codes db) ->
  apply_promo db now userId orderId code = (PromoApplied oid, db') ->
  toUpperCase code = code.
Proof.
  intros Hok H. apply apply_promo_applied in H.
  destruct H as (order & promo & _ & _ & Hf & _).
  apply find_some_in in Hf. destruct Hf as [Hin Hm].
  unfold promo_matches_apply in Hm. rewrite !andb_true_iff in Hm.
  destruct Hm as [[Hc _] _]. apply String.eqb_eq in Hc. subst code.
  exact (proj1 (table_ok_in _ _ Hok Hin)).
Qed.







(** X14: a code cannot be created twice, in whatever letter case the second
    request spells it. *)
Theorem promo_code_cannot_be_created_twice db body row db1 body2 c c2 :
  create_promo_code is_datetime db body = (PromoSaved row, db1) ->
  b_code body = JStr c -> b_code body2 = JStr c2 ->
  toUpperCase c2 = toUpperCase c ->
  promoCodeSchema_parse is_datetime body2 <> None ->
  create_promo_code is_datetime db1 body2 = (PromoDuplicate, db1).
Proof.
  intros H Hc Hc2 Hup Hvalid. unfold create_promo_code in *.
  destruct (promoCodeSchema_parse is_datetime body) as [data|] eqn:Hp; [|discriminate].
  destruct (List.find _ (promo_codes db)); [discriminate|].
  injection H as _ <-.
  destruct (promoCodeSchema_parse is_datetime body2) as [data2|] eqn:Hp2;
    [|contradiction].
  assert (Hcode : forall b d t, promoCodeSchema_parse is_datetime b = Some d ->
                                b_code b = JStr t -> d_code d = t).
  { intros b d t Hb Ht. unfold promoCodeSchema_parse in Hb. rewrite Ht in Hb.
    cbn [z_string_min1] in Hb.
    destruct (String.eqb t EmptyString); [discriminate|].
    repeat match type of Hb with
           | match ?x with _ => _ end = _ => destruct x; [|discriminate]
           end.
    injection Hb as <-. reflexivity. }
  rewrite (Hcode _ _ _ Hp2 Hc2), Hup.
  cbn [promo_codes set_promo_codes].
  destruct (List.find _ _) as [existing|] eqn:Hf; [reflexivity|].
  exfalso. pose proof (List.find_none _ _ Hf) as Hnone. cbn beta in Hnone.
  specialize (Hnone (promo_row (next_promo_id (promo_codes db)) 0 None data)).
  rewrite in_app_iff in Hnone.
  specialize (Hnone (or_intror (or_introl eq_refl))).
  cbn [pc_code promo_row] in Hnone. rewrite (Hcode _ _ _ Hp Hc) in Hnone.
  rewrite String.eqb_refl in Hnone. discriminate.
Qed.

End UniqueCodes.

(** ** Stored passwords *)

Section StoredPasswords.

Variable pbkdf2Sync : string -> string -> Z -> Z -> string -> option (list Byte.byte).

Lemma split_plain sep s : Csv.includes sep s = false -> split sep s = [s].
Proof.
  induction s as [|c r IH]; [reflexivity|]. cbn [Csv.includes split].
  intros H. apply orb_false_iff in H. destruct H as [H1 H2].
  rewrite H1, (IH H2). reflexivity.
Qed.

Lemma split_first sep a r :
  Csv.includes sep a = false ->
  split sep (a +:+ String sep r) = a :: split sep r.
Proof.
  induction a as [|c a' IH]; intros H.
  - change (EmptyString +:+ String sep r) with (String sep r).
    cbn [split]. rewrite Ascii.eqb_refl. reflexivity.
  - change (String c a' +:+ String sep r) with (String c (a' +:+ String sep r)).
    cbn [Csv.includes] in H. cbn [split].
    apply orb_false_iff in H. destruct H as [H1 H2].
    rewrite H1, (IH H2). reflexivity.
Qed.

Lemma split_part sep a r :
  Csv.includes sep a = false ->
  split sep (a +:+ String sep EmptyString +:+ r) = a :: split sep r.
Proof. intros H. exact (split_first sep a r H). Qed.

Lemma hex_byte (b : Byte.byte) :
  let hi := hex_digit (Byte.to_N b / 16) in
  let lo := hex_digit (Byte.to_N b mod 16) in
  Ascii.eqb hi colon = false /\ Ascii.eqb lo colon = false
  /\ match digit_value 16 hi, digit_value 16 lo with
     | Some x, Some y => Byte.of_N (Z.to_N (16 * x + y))
     | _, _ => None
     end = Some b.
Proof. destruct b; repeat split; vm_compute; reflexivity. Qed.

Lemma to_hex_no_colon l : Csv.includes colon (to_hex l) = false.
Proof.
  induction l as [|b r IH]; [reflexivity|].
  destruct (hex_byte b) as (H1 & H2 & _). cbn [to_hex Csv.includes].
  rewrite H1, H2, IH. reflexivity.
Qed.

Lemma from_hex_to_hex l : from_hex (to_hex l) = l.
Proof.
  induction l as [|b r IH]; [reflexivity|].
  destruct (hex_byte b) as (_ & _ & H). cbn [to_hex from_hex].
  cbv zeta in H.
  destruct (digit_value 16 (hex_digit (Byte.to_N b / 16))) as [x|]; [|discriminate].
  destruct (digit_value 16 (hex_digit (Byte.to_N b mod 16))) as [y|]; [|discriminate].
  rewrite H, IH. reflexivity.
Qed.

Lemma bytes_eqb_eq a : forall b, bytes_eqb a b = true <-> a = b.
Proof.
  induction a as [|x a' IH]; intros [|y b']; cbn [bytes_eqb]; split; intros H;
    try reflexivity; try discriminate.
  - apply andb_true_iff in H. destruct H as [H1 H2].
    apply Byte.byte_dec_bl in H1. apply IH in H2. congruence.
  - injection H as -> ->. apply andb_true_iff. split.
    + apply Byte.byte_dec_lb. reflexivity.
    + apply IH. reflexivity.
Qed.

Lemma timingSafeEqual_true a b :
  timingSafeEqual a b = Some true <-> a = b.
Proof.
  unfold timingSafeEqual. split.
  - destruct (List.length a =? List.length b)%nat; [|discriminate].
    intros H. injection H as H. apply bytes_eqb_eq. exact H.
  - intros ->. rewrite Nat.eqb_refl. f_equal. apply bytes_eqb_eq. reflexivity.
Qed.

Lemma hashPassword_parts random password stored :
  hashPassword pbkdf2Sync random password = Some stored ->
  exists key,
    pbkdf2Sync password (to_hex random) 10000 64 "sha512" = Some key
    /\ split colon stored = [to_hex random; "10000"; "64"; "sha512"; to_hex key].
Proof.
  unfold hashPassword. cbv zeta.
  destruct (pbkdf2Sync password (to_hex random) 10000 64 "sha512") as [key|];
    [|discriminate].
  intros H. injection H as <-. exists key. split; [reflexivity|].
  unfold colon_text.
  rewrite split_part by apply to_hex_no_colon.
  rewrite split_part by reflexivity.
  rewrite split_part by reflexivity.
  rewrite split_part by reflexivity.
  rewrite split_plain by apply to_hex_no_colon. reflexivity.
Qed.

Lemma comparePasswords_stored random password stored supplied :
  hashPassword pbkdf2Sync random password = Some stored ->
  comparePasswords pbkdf2Sync stored supplied = true
  <-> pbkdf2Sync supplied (to_hex random) 10000 64 "sha512"
      = pbkdf2Sync password (to_hex random) 10000 64 "sha512".
Proof.
  intros H. apply hashPassword_parts in H. destruct H as (key & Hkey & Hsplit).
  unfold comparePasswords. rewrite Hsplit, Hkey. cbv beta iota.
  change (parseInt "10000") with (Some 10000).
  change (parseInt "64") with (Some 64). cbv beta iota.
  destruct (pbkdf2Sync supplied (to_hex random) 10000 64 "sha512") as [key'|].
  - rewrite !from_hex_to_hex.
    destruct (timingSafeEqual key key') as [[|]|] eqn:E.
    + apply timingSafeEqual_true in E. subst key'. split; intros _; reflexivity.
    + split; [discriminate|]. intros H. injection H as ->.
      pose proof (proj2 (timingSafeEqual_true key key) eq_refl). congruence.
    + split; [discriminate|]. intros H. injection H as ->.
      pose proof (proj2 (timingSafeEqual_true key key) eq_refl). congruence.
  - split; discriminate.
Qed.

Lemma stored_password_round_trip_aux random password stored :
  hashPassword pbkdf2Sync random password = Some stored ->
  forall supplied,
    comparePasswords pbkdf2Sync stored supplied = true
    <-> pbkdf2Sync supplied (to_hex random) 10000 64 "sha512"
        = pbkdf2Sync password (to_hex random) 10000 64 "sha512".
Proof. intros H supplied. apply (comparePasswords_stored _ _ _ _ H). Qed.

(** X15: a password stored by [hashPassword] is accepted by [comparePasswords],
    and another text is accepted in its place exactly when the key derived
    from it, with the stored salt, is the key of the password. *)
Theorem stored_password_round_trip random password stored :
  hashPassword pbkdf2Sync random password = Some stored ->
  comparePasswords pbkdf2Sync stored password = true
  /\ forall supplied,
       comparePasswords pbkdf2Sync stored supplied = true
       <-> pbkdf2Sync supplied (to_hex random) 10000 64 "sha512"
           = pbkdf2Sync password (to_hex random) 10000 64 "sha512".
Proof.
  intros H. split.
  - apply (comparePasswords_stored _ _ _ _ H). reflexivity.
  - intros supplied. apply (comparePasswords_stored _ _ _ _ H).
Qed.

Lemma to_hex_length l : String.length (to_hex l) = (2 * List.length l)%nat.
Proof. induction l as [|b r IH]; [reflexivity|]. cbn [to_hex String.length List.length]. lia. Qed.

(** X17: the two modules do not read each other's stored passwords: a text
    stored by the [hashPassword] of one is accepted by the
    [comparePasswords] of the other for no password at all. *)
Theorem stored_passwords_of_the_other_module random password stored supplied :
  (hashPassword pbkdf2Sync random password = Some stored ->
   Storage.comparePasswords pbkdf2Sync supplied stored <> Some true)
  /\ (Storage.hashPassword pbkdf2Sync random password = Some stored ->
      comparePasswords pbkdf2Sync stored supplied = false).
Proof.
  split.
  - intros H. apply hashPassword_parts in H. destruct H as (key & _ & Hsplit).
    unfold Storage.comparePasswords. rewrite Hsplit. cbv beta iota.
    destruct (pbkdf2Sync supplied (to_hex random) 1000 64 "sha512") as [key'|];
      [|discriminate].
    destruct (String.eqb "10000" (to_hex key')) eqn:E; [|discriminate].
    intros _. apply String.eqb_eq in E.
    pose proof (to_hex_length key') as Hl. rewrite <- E in Hl. cbn in Hl. lia.
  - unfold Storage.hashPassword.
    destruct (pbkdf2Sync password (to_hex random) 1000 64 "sha512") as [key|];
      [|discriminate].
    intros H. injection H as <-. unfold comparePasswords, colon_text.
    rewrite split_part by apply to_hex_no_colon.
    rewrite split_plain by apply to_hex_no_colon. reflexivity.
Qed.

(** X16: the storage module accepts what it stored. *)
Theorem storage_password_round_trip random password stored :
  Storage.hashPassword pbkdf2Sync random password = Some stored ->
  Storage.comparePasswords pbkdf2Sync password stored = Some true.
Proof.
  unfold Storage.hashPassword.
  destruct (pbkdf2Sync password (to_hex random) 1000 64 "sha512") as [key|] eqn:Hk;
    [|discriminate].
  intros H. injection H as <-. unfold Storage.comparePasswords, colon_text.
  rewrite split_part by apply to_hex_no_colon.
  rewrite split_plain by apply to_hex_no_colon.
  rewrite Hk, String.eqb_refl. reflexivity.
Qed.

End StoredPasswords.

(** ** Registration, login and the change of a password *)

Section UsersTable.

Variable pbkdf2Sync : string -> string -> Z -> Z -> string -> option (list Byte.byte).

Lemma lower_ascii_idem c : lower_ascii (lower_ascii c) = lower_ascii c.
Proof. destruct c as [[] [] [] [] [] [] [] []]; reflexivity. Qed.

Lemma toLowerCase_idem s : toLowerCase (toLowerCase s) = toLowerCase s.
Proof.
  induction s as [|c r IH]; [reflexivity|].
  cbn [toLowerCase]. rewrite lower_ascii_idem, IH. reflexivity.
Qed.

Lemma find_app_last {A} (f : A -> bool) l x :
  List.find f l = None -> List.find f (l ++ [x]) = if f x then Some x else None.
Proof.
  induction l as [|a r IH]; intros H; [reflexivity|].
  cbn [List.find app] in *. destruct (f a); [discriminate|]. exact (IH H).
Qed.

Lemma find_unique {A} (key : A -> string) l u :
  NoDup (List.map key l) -> In u l ->
  List.find (fun x => String.eqb (key x) (key u)) l = Some u.
Proof.
  induction l as [|a r IH]; intros Hnd Hin; [destruct Hin|].
  cbn [List.map] in Hnd. apply NoDup_cons in Hnd. destruct Hnd as [Ha Hnd].
  cbn [List.find]. destruct Hin as [->|Hin].
  - rewrite String.eqb_refl. reflexivity.
  - assert (String.eqb (key a) (key u) = false) as ->.
    { apply String.eqb_neq. intros E. apply Ha. rewrite E.
      apply list_elem_of_In, in_map, Hin. }
    apply IH; assumption.
Qed.

Lemma registerUser_registered users uuid random userData user users' :
  registerUser pbkdf2Sync users uuid random userData = (Registered user, users') ->
  exists stored,
    ud_email userData <> EmptyString
    /\ List.find (fun u => String.eqb (ur_email u) (toLowerCase (ud_email userData))) users
       = None
    /\ List.find (fun u => String.eqb (ur_id u) uuid) users = None
    /\ hashPassword pbkdf2Sync random (ud_password userData) = Some stored
    /\ ur_id user = uuid
    /\ ur_email user = toLowerCase (ud_email userData)
    /\ ur_password user = stored
    /\ ur_is_admin user = 0
    /\ users' = (users ++ [user])%list.
Proof.
  unfold registerUser.
  destruct (String.eqb (ud_email userData) EmptyString) eqn:Ee; [discriminate|].
  destruct (List.find _ users) as [taken|] eqn:Hf; [discriminate|].
  destruct (hashPassword pbkdf2Sync random (ud_password userData)) as [stored|];
    [|discriminate].
  destruct (List.find (fun u => String.eqb (ur_id u) uuid) users) as [same|] eqn:Hi;
    [discriminate|].
  intros H. injection H as <- <-. exists stored.
  apply String.eqb_neq in Ee. repeat split; auto.
Qed.

(** X18: a user that [registerUser] has registered is logged in by the strategy
    with the registered password, in whatever letter case the email is
    typed; with another text in its place exactly when the key derived from
    it is the key of the password. *)
Theorem registered_user_logs_in users uuid random userData user users' email :
  registerUser pbkdf2Sync users uuid random userData = (Registered user, users') ->
  toLowerCase email = toLowerCase (ud_email userData) ->
  verify pbkdf2Sync users' email (ud_password userData) = Some user
  /\ forall supplied,
       verify pbkdf2Sync users' email supplied = Some user
       <-> pbkdf2Sync supplied (to_hex random) 10000 64 "sha512"
           = pbkdf2Sync (ud_password userData) (to_hex random) 10000 64 "sha512".
Proof.
  intros H Hcase. apply registerUser_registered in H.
  destruct H as (stored & _ & Hfree & _ & Hhash & _ & Hemail & Hpw & _ & ->).
  assert (Hfind : forall supplied,
             verify pbkdf2Sync (users ++ [user]) email supplied
             = if comparePasswords pbkdf2Sync stored supplied then Some user else None).
  { intros supplied. unfold verify. rewrite Hcase.
    rewrite (find_app_last _ _ _ Hfree). rewrite Hemail, String.eqb_refl, Hpw.
    reflexivity. }
  pose proof (stored_password_round_trip_aux _ _ _ _ Hhash) as Hrt.
  split.
  - rewrite Hfind, (proj2 (Hrt _) eq_refl). reflexivity.
  - intros supplied. rewrite Hfind, <- Hrt.
    destruct (comparePasswords pbkdf2Sync stored supplied); split; congruence.
Qed.

(** X19: an email is registered once: a second registration with the email, in
    whatever letter case, is refused and changes nothing. *)
Theorem email_is_registered_once users uuid random userData user users'
    uuid2 random2 userData2 :
  registerUser pbkdf2Sync users uuid random userData = (Registered user, users') ->
  toLowerCase (ud_email userData2) = toLowerCase (ud_email userData) ->
  registerUser pbkdf2Sync users' uuid2 random2 userData2 = (RegisterEmailTaken, users').
Proof.
  intros H Hcase. apply registerUser_registered in H.
  destruct H as (stored & Hne & Hfree & _ & _ & _ & Hemail & _ & _ & ->).
  unfold registerUser.
  assert (String.eqb (ud_email userData2) EmptyString = false) as ->.
  { apply String.eqb_neq. intros E. rewrite E in Hcase. cbn in Hcase.
    symmetry in Hcase. destruct (ud_email userData); [congruence|discriminate]. }
  rewrite Hcase, (find_app_last _ _ _ Hfree), Hemail, String.eqb_refl. reflexivity.
Qed.

Lemma registerUser_refused users uuid random userData r users' :
  registerUser pbkdf2Sync users uuid random userData = (r, users') ->
  (exists user, r = Registered user) \/ users' = users.
Proof.
  unfold registerUser.
  repeat match goal with
         | |- context [match ?x with _ => _ end] => destruct x
         end;
    intros H; injection H as <- <-; eauto.
Qed.

Lemma registerUser_ok users uuid random userData :
  users_ok users -> users_ok (snd (registerUser pbkdf2Sync users uuid random userData)).
Proof.
  intros Hok.
  destruct (registerUser pbkdf2Sync users uuid random userData) as [r users'] eqn:H.
  destruct (registerUser_refused _ _ _ _ _ _ H) as [[user ->]| ->]; [|exact Hok].
  apply registerUser_registered in H.
  destruct H as (stored & _ & Hfree & Hid & _ & Huid & Hemail & _ & _ & ->).
  destruct Hok as (Hids & Hemails & Hlower). cbn [snd].
  split; [|split].
  - rewrite List.map_app. apply NoDup_app_one; [exact Hids|].
    apply not_in_map. intros x Hx E.
    pose proof (List.find_none _ _ Hid x Hx) as Hn. cbn beta in Hn.
    apply String.eqb_neq in Hn. apply Hn. cbn in E. congruence.
  - rewrite List.map_app. apply NoDup_app_one; [exact Hemails|].
    apply not_in_map. intros x Hx E.
    pose proof (List.find_none _ _ Hfree x Hx) as Hn. cbn beta in Hn.
    apply String.eqb_neq in Hn. apply Hn. cbn in E. congruence.
  - apply Forall_app. split; [exact Hlower|].
    apply Forall_cons. split; [|apply Forall_nil; exact I].
    rewrite Hemail. apply toLowerCase_idem.
Qed.

(** A text has no more UTF-16 units than bytes. *)
Lemma length_utf16_le s : (length_utf16 s <= String.length s)%nat.
Proof.
  assert (H : forall n s, (String.length s <= n)%nat ->
                          (length_utf16 s <= String.length s)%nat).
  { intros n. induction n as [|n IH]; intros s0 Hn.
    - destruct s0; [apply Nat.le_refl|cbn [String.length] in Hn; lia].
    - destruct s0 as [|c r]; [apply Nat.le_refl|].
      cbn [String.length] in Hn. cbn [length_utf16 String.length]. cbv zeta.
      assert (Hr : (length_utf16 r <= String.length r)%nat) by (apply IH; lia).
      destruct ((nat_of_ascii c <? 128) || _)%nat; [lia|].
      destruct (nat_of_ascii c <? 192)%nat; [lia|].
      destruct r as [|c2 [|c3 [|c4 r4]]]; cbn [String.length]; try lia.
      cbn [String.length] in Hn.
      assert (length_utf16 r4 <= String.length r4)%nat by (apply IH; lia). lia. }
  apply (H (String.length s)). apply Nat.le_refl.
Qed.

Lemma change_password_changed users userId random oldPassword newPassword users' :
  change_password pbkdf2Sync users userId random oldPassword newPassword
  = (PasswordChanged, users') ->
  exists user stored,
    List.find (fun u => String.eqb (ur_id u) userId) users = Some user
    /\ comparePasswords pbkdf2Sync (ur_password user) oldPassword = true
    /\ (8 <= String.length newPassword)%nat
    /\ has_capital newPassword = true /\ has_digit newPassword = true
    /\ hashPassword pbkdf2Sync random newPassword = Some stored
    /\ users' = List.map (fun u => if String.eqb (ur_id u) userId
                                   then with_password stored u else u) users.
Proof.
  unfold change_password.
  destruct (_ || _); [discriminate|].
  destruct (List.find _ users) as [user|]; [|discriminate].
  destruct (comparePasswords pbkdf2Sync (ur_password user) oldPassword) eqn:Hold;
    [|discriminate].
  cbn [negb].
  destruct (Nat.ltb_spec (length_utf16 newPassword) 8) as [Hlt|Hge]; [discriminate|].
  pose proof (length_utf16_le newPassword) as Hbytes.
  destruct (has_capital newPassword) eqn:Hcap; [|discriminate].
  destruct (has_digit newPassword) eqn:Hdig; [|discriminate].
  cbn [negb].
  destruct (hashPassword pbkdf2Sync random newPassword) as [stored|] eqn:Hhash;
    [|discriminate].
  intros H. injection H as <-. exists user, stored. repeat split; auto. lia.
Qed.

Lemma change_password_refused users userId random oldPassword newPassword r users' :
  change_password pbkdf2Sync users userId random oldPassword newPassword = (r, users') ->
  r = PasswordChanged \/ users' = users.
Proof.
  unfold change_password.
  repeat match goal with
         | |- context [match ?x with _ => _ end] => destruct x
         end;
    intros H; injection H as <- <-; eauto.
Qed.

Lemma change_password_ok users userId random oldPassword newPassword :
  users_ok users ->
  users_ok (snd (change_password pbkdf2Sync users userId random oldPassword newPassword)).
Proof.
  intros Hok.
  destruct (change_password pbkdf2Sync users userId random oldPassword newPassword)
    as [r users'] eqn:H.
  destruct (change_password_refused _ _ _ _ _ _ _ H) as [-> | ->]; [|exact Hok].
  apply change_password_changed in H.
  destruct H as (user & stored & _ & _ & _ & _ & _ & _ & ->).
  destruct Hok as (Hids & Hemails & Hlower). cbn [snd].
  split; [|split].
  - rewrite List.map_map. rewrite (List.map_ext _ ur_id); [exact Hids|].
    intros u. destruct (String.eqb (ur_id u) userId); reflexivity.
  - rewrite List.map_map. rewrite (List.map_ext _ ur_email); [exact Hemails|].
    intros u. destruct (String.eqb (ur_id u) userId); reflexivity.
  - apply List.Forall_forall. intros q Hq. apply in_map_iff in Hq.
    destruct Hq as (u & <- & Hin). rewrite List.Forall_forall in Hlower.
    destruct (String.eqb (ur_id u) userId); exact (Hlower u Hin).
Qed.

(** X20: after a change of the password the user is logged in with the new
    password, which has eight characters or more, a capital letter and a
    digit; the old password was the right one; and with another text, the old
    password too, the user is logged in exactly when the key derived from it
    is the key of the new password.  The other users are as they were. *)
Theorem changed_password_logs_in users userId random oldPassword newPassword users' :
  users_ok users ->
  change_password pbkdf2Sync users userId random oldPassword newPassword
  = (PasswordChanged, users') ->
  exists user stored,
    In user users /\ ur_id user = userId
    /\ comparePasswords pbkdf2Sync (ur_password user) oldPassword = true
    /\ (8 <= String.length newPassword)%nat
    /\ has_capital newPassword = true /\ has_digit newPassword = true
    /\ verify pbkdf2Sync users' (ur_email user) newPassword
       = Some (with_password stored user)
    /\ (forall supplied,
          verify pbkdf2Sync users' (ur_email user) supplied
          = Some (with_password stored user)
          <-> pbkdf2Sync supplied (to_hex random) 10000 64 "sha512"
              = pbkdf2Sync newPassword (to_hex random) 10000 64 "sha512")
    /\ (forall u, In u users -> ur_id u <> userId -> In u users').
Proof.
  intros Hok H.
  pose proof (change_password_ok users userId random oldPassword newPassword Hok) as Hok'.
  rewrite H in Hok'. cbn [snd] in Hok'.
  apply change_password_changed in H.
  destruct H as (user & stored & Hf & Hold & Hlen & Hcap & Hdig & Hhash & ->).
  apply find_some_in in Hf. destruct Hf as [Hin Hid]. apply String.eqb_eq in Hid.
  exists user, stored.
  set (g := fun u => if String.eqb (ur_id u) userId then with_password stored u else u)
    in *.
  assert (Hg : g user = with_password stored user).
  { unfold g. rewrite Hid, String.eqb_refl. reflexivity. }
  assert (Hlow : toLowerCase (ur_email user) = ur_email user).
  { destruct Hok as (_ & _ & Hl). rewrite List.Forall_forall in Hl. exact (Hl user Hin). }
  assert (Hfind : forall supplied,
             verify pbkdf2Sync (List.map g users) (ur_email user) supplied
             = if comparePasswords pbkdf2Sync stored supplied
               then Some (with_password stored user) else None).
  { intros supplied. unfold verify. rewrite Hlow.
    destruct Hok' as (_ & Hemails' & _).
    assert (Hin' : In (with_password stored user) (List.map g users)).
    { rewrite <- Hg. apply in_map. exact Hin. }
    pose proof (find_unique ur_email _ _ Hemails' Hin') as Hu.
    cbn [ur_email with_password] in Hu. rewrite Hu. reflexivity. }
  pose proof (stored_password_round_trip_aux _ _ _ _ Hhash) as Hrt.
  repeat split; auto.
  - rewrite Hfind, (proj2 (Hrt _) eq_refl). reflexivity.
  - rewrite Hfind. intros E. apply Hrt.
    destruct (comparePasswords pbkdf2Sync stored supplied); [reflexivity|discriminate].
  - rewrite Hfind. intros E. apply Hrt in E. rewrite E. reflexivity.
  - intros u Hu Hne. apply in_map_iff. exists u. split; [|exact Hu].
    unfold g. rewrite (proj2 (String.eqb_neq _ _) Hne). reflexivity.
Qed.

End UsersTable.

(** ** The cache of administrators *)

Section AdminCache.

Lemma user_by_id_id users id row : user_by_id users id = Some row -> ur_id row = id.
Proof.
  unfold user_by_id. intros H. apply find_some_in in H. destruct H as [_ H].
  apply String.eqb_eq in H. exact H.
Qed.

Lemma updateUserSession_id users user : su_id (updateUserSession users user) = su_id user.
Proof.
  unfold updateUserSession.
  destruct (user_by_id users (su_id user)) as [row|] eqn:E; [|reflexivity].
  cbn. exact (user_by_id_id _ _ _ E).
Qed.

Lemma preserveAdminStatus_id cache user cache1 user1 :
  preserveAdminStatus cache (Some user) = (cache1, user1) ->
  exists u, user1 = Some u /\ su_id u = su_id user /\ cache ⊆ cache1
            /\ (su_id user ∈ cache -> su_id user ∈ cache1).
Proof.
  unfold preserveAdminStatus. intros H. injection H as <- <-.
  eexists. split; [reflexivity|].
  split; [destruct (decide _); reflexivity|].
  split; [|intros Hin]; destruct (_ || _); set_solver.
Qed.

Lemma preserve_deserialized cache row :
  exists u cache1,
    preserveAdminStatus cache (Some (userRecordToSessionUser row)) = (cache1, Some u)
    /\ su_id u = ur_id row
    /\ (ur_id row ∈ cache1 <-> ur_id row ∈ cache \/ ur_is_admin row = 1).
Proof.
  unfold preserveAdminStatus. cbn [su_id userRecordToSessionUser].
  destruct (decide (ur_id row ∈ cache)) as [Hin|Hout].
  - cbn [grant su_isAdmin orb]. do 2 eexists. split; [reflexivity|].
    split; [reflexivity|]. split; [auto|].
    intros _. set_solver.
  - cbn [su_isAdmin su_is_admin userRecordToSessionUser].
    rewrite bool_decide_eq_false_2 by discriminate. rewrite orb_false_r.
    destruct (Z.eqb_spec (ur_is_admin row) 1) as [E|E].
    + do 2 eexists. split; [reflexivity|]. split; [reflexivity|].
      split; [auto|]. intros _. clear. set_solver.
    + do 2 eexists. split; [reflexivity|]. split; [reflexivity|].
      split; [auto|intros [H|H]; [exact H|contradiction]].
Qed.

(** Who passes [ensureAdmin]: a user whose row is there and who is in the
    cache or has the flag set. *)
Lemma admin_request_passes cache users id :
  is_Some (fst (admin_request cache users id))
  <-> exists row, user_by_id users id = Some row
                  /\ (id ∈ cache \/ ur_is_admin row <> 0).
Proof.
  unfold admin_request, deserializeUser.
  destruct (user_by_id users id) as [row|] eqn:Hrow; cbn [option_map].
  - pose proof (user_by_id_id _ _ _ Hrow) as Hid.
    destruct (preserve_deserialized cache row) as (u & cache1 & -> & Hu & Hc).
    rewrite Hid in Hu, Hc.
    unfold ensureAdmin. rewrite updateUserSession_id, Hu, Hrow.
    split.
    + intros Hs. exists row. split; [reflexivity|].
      destruct (decide (id ∈ cache1)) as [Hin|Hout].
      * apply Hc in Hin. destruct Hin as [Hin|E]; [left; exact Hin|right; lia].
      * right. destruct (Z.eqb_spec (ur_is_admin row) 0) as [E|E]; [|exact E].
        rewrite E in Hs. cbn in Hs. destruct Hs as [x Hx]. discriminate.
    + intros (row' & Hr & Hor). injection Hr as <-.
      destruct (decide (id ∈ cache1)) as [Hin|Hout]; [eexists; reflexivity|].
      destruct Hor as [Hin|Hflag].
      * exfalso. apply Hout, Hc. left. exact Hin.
      * destruct (Z.eqb_spec (ur_is_admin row) 0) as [E|E]; [contradiction|].
        rewrite orb_true_r. eexists; reflexivity.
  - split.
    + intros [x Hx]. discriminate.
    + intros (row & Hr & _). discriminate.
Qed.

Lemma admin_request_grants cache users id user cache' :
  admin_request cache users id = (Some user, cache') ->
  su_isAdmin user = true /\ su_id user = id /\ id ∈ cache' /\ cache ⊆ cache'.
Proof.
  unfold admin_request, deserializeUser.
  destruct (user_by_id users id) as [row|] eqn:Hrow; cbn [option_map].
  - pose proof (user_by_id_id _ _ _ Hrow) as Hid.
    destruct (preserveAdminStatus cache (Some (userRecordToSessionUser row)))
      as [cache1 user1] eqn:Hp.
    apply preserveAdminStatus_id in Hp.
    destruct Hp as (u & -> & Hu & Hsub & _). cbn in Hu. rewrite Hid in Hu.
    unfold ensureAdmin. rewrite updateUserSession_id, Hu.
    destruct (decide (id ∈ cache1)) as [Hin|Hout].
    + intros H. injection H as <- <-. cbn. rewrite updateUserSession_id. auto.
    + destruct (user_by_id users id) as [dbUser|]; [|discriminate].
      destruct (_ || _); [|discriminate].
      intros H. injection H as <- <-. cbn. rewrite updateUserSession_id.
      repeat split; auto; set_solver.
  - cbn. discriminate.
Qed.

Lemma admin_request_cache cache users id : cache ⊆ snd (admin_request cache users id).
Proof.
  unfold admin_request, deserializeUser.
  destruct (user_by_id users id) as [row|]; cbn [option_map]; [|cbn; reflexivity].
  destruct (preserveAdminStatus cache (Some (userRecordToSessionUser row)))
    as [cache1 user1] eqn:Hp.
  apply preserveAdminStatus_id in Hp. destruct Hp as (u & -> & _ & Hsub & _).
  unfold ensureAdmin. destruct (decide _); [exact Hsub|].
  destruct (user_by_id users _); [|exact Hsub].
  destruct (_ || _); cbn [snd]; set_solver.
Qed.

Lemma user_request_cache cache users id : cache ⊆ snd (user_request cache users id).
Proof.
  unfold user_request, deserializeUser.
  destruct (user_by_id users id) as [row|]; cbn [option_map]; [|cbn; reflexivity].
  destruct (preserveAdminStatus cache (Some (userRecordToSessionUser row)))
    as [cache1 user1] eqn:Hp.
  apply preserveAdminStatus_id in Hp. destruct Hp as (u & -> & _ & Hsub & _).
  exact Hsub.
Qed.

Lemma cache_after_grows log : forall cache, cache ⊆ cache_after cache log.
Proof.
  unfold cache_after.
  induction log as [|[[admin_route users] id] rest IH]; intros cache; [reflexivity|].
  cbn [fold_left]. etransitivity; [|apply IH].
  destruct admin_route; [apply admin_request_cache|apply user_request_cache].
Qed.

(** X23: a user who has passed [ensureAdmin] once passes it ever after, as an
    administrator, whatever requests come in between and whatever the table
    of users has become, the flag of the user too, as long as it has a row
    for the user. *)
Theorem administrator_rights_outlive_the_flag adminCache users id user adminCache' log users2 :
  admin_request adminCache users id = (Some user, adminCache') ->
  is_Some (user_by_id users2 id) ->
  exists user2,
    fst (admin_request (cache_after adminCache' log) users2 id) = Some user2
    /\ su_isAdmin user2 = true.
Proof.
  intros H [row Hrow]. apply admin_request_grants in H.
  destruct H as (_ & _ & Hin & _).
  pose proof (cache_after_grows log adminCache') as Hsub.
  assert (Hpass : is_Some (fst (admin_request (cache_after adminCache' log) users2 id))).
  { apply admin_request_passes. exists row. split; [exact Hrow|]. left. set_solver. }
  destruct Hpass as [user2 Hu]. exists user2. split; [exact Hu|].
  destruct (admin_request (cache_after adminCache' log) users2 id) as [r c] eqn:E.
  cbn [fst] in Hu. subst r. apply admin_request_grants in E. tauto.
Qed.

End AdminCache.

(** ** [PUT /api/users/:id] *)

Section UpdateUser.

Lemma user_request_user cache users id user cache1 :
  user_request cache users id = (Some user, cache1) ->
  exists row, user_by_id users id = Some row
              /\ su_id user = id /\ su_isAdmin user = (ur_is_admin row =? 1).
Proof.
  unfold user_request, deserializeUser.
  destruct (user_by_id users id) as [row|] eqn:Hrow; cbn [option_map].
  - pose proof (user_by_id_id _ _ _ Hrow) as Hid.
    destruct (preserveAdminStatus cache (Some (userRecordToSessionUser row)))
      as [cache1' user1] eqn:Hp.
    apply preserveAdminStatus_id in Hp.
    destruct Hp as (u & -> & Hu & _). cbn in Hu. rewrite Hid in Hu.
    unfold ensureAuthenticated. rewrite updateUserSession_id, Hu.
    destruct (String.eqb id EmptyString); [discriminate|]. rewrite Hrow.
    intros H. injection H as <- _. exists row. split; [reflexivity|].
    rewrite updateUserSession_id. split; [exact Hu|].
    unfold updateUserSession. rewrite Hu, Hrow. reflexivity.
  - cbn. discriminate.
Qed.

Lemma update_user_rows users user userId body :
  exists g,
    snd (update_user users user userId body) = List.map g users
    /\ (forall u, ur_id (g u) = ur_id u /\ ur_password (g u) = ur_password u)
    /\ (forall u, ur_id u <> userId -> g u = u)
    /\ (su_isAdmin user = false -> forall u, ur_is_admin (g u) = ur_is_admin u)
    /\ (su_isAdmin user = false -> su_id user <> userId -> forall u, g u = u).
Proof.
  unfold update_user.
  destruct (negb (String.eqb (su_id user) userId) && negb (su_isAdmin user)) eqn:Ef.
  { exists (fun u => u). cbn [snd]. rewrite List.map_id. repeat split; auto. }
  destruct (user_by_id users userId) as [existingUser|].
  2:{ exists (fun u => u). cbn [snd]. rewrite List.map_id. repeat split; auto. }
  destruct (_ && match List.find _ users with Some _ => true | None => false end).
  { exists (fun u => u). cbn [snd]. rewrite List.map_id. repeat split; auto. }
  cbn [snd]. eexists. split; [reflexivity|]. cbn beta.
  split; [intros u; destruct (String.eqb (ur_id u) userId); split; reflexivity|].
  split.
  { intros u Hne. rewrite (proj2 (String.eqb_neq _ _) Hne). reflexivity. }
  split.
  - intros Hadmin u. rewrite Hadmin. cbn [andb].
    destruct (String.eqb (ur_id u) userId); reflexivity.
  - intros Hadmin Hne. rewrite Hadmin in Ef.
    rewrite (proj2 (String.eqb_neq _ _) Hne) in Ef. discriminate.
Qed.

(** X22: a user whose flag in the table is not 1 changes no flag and no
    password with [PUT /api/users/:id], and no row but the user's own,
    whether the cache of administrators holds the user or not. *)
Theorem only_administrators_change_the_flag adminCache users id row user adminCache1
    userId body :
  user_by_id users id = Some row -> ur_is_admin row <> 1 ->
  user_request adminCache users id = (Some user, adminCache1) ->
  let users' := snd (update_user users user userId body) in
  List.map ur_is_admin users' = List.map ur_is_admin users
  /\ List.map ur_password users' = List.map ur_password users
  /\ List.map ur_id users' = List.map ur_id users
  /\ (forall u, In u users -> ur_id u <> id -> In u users')
  /\ (userId <> id -> users' = users).
Proof.
  intros Hrow Hflag H. apply user_request_user in H.
  destruct H as (row' & Hrow' & Hid & Hadmin).
  assert (row' = row) as -> by congruence.
  rewrite (proj2 (Z.eqb_neq _ _) Hflag) in Hadmin.
  destruct (update_user_rows users user userId body) as (g & -> & Hg1 & Hg2 & Hg3 & Hg4).
  cbv zeta. rewrite !List.map_map.
  split; [apply List.map_ext; intros u; apply (Hg3 Hadmin)|].
  split; [apply List.map_ext; intros u; apply Hg1|].
  split; [apply List.map_ext; intros u; apply Hg1|].
  split.
  - intros u Hin Hne. apply in_map_iff. exists u. split; [|exact Hin].
    destruct (String.eqb_spec userId id) as [->|Hne2].
    + apply Hg2. exact Hne.
    + apply Hg4; [exact Hadmin|]. rewrite Hid. congruence.
  - intros Hne. rewrite <- (List.map_id users) at 2. apply List.map_ext.
    intros u. apply Hg4; [exact Hadmin|]. rewrite Hid. congruence.
Qed.

End UpdateUser.

(** ** The table of users under the three handlers that write it *)

Section UsersTableInvariant.

Variable pbkdf2Sync : string -> string -> Z -> Z -> string -> option (list Byte.byte).

Lemma NoDup_map_inj {A} (key : A -> string) l a b :
  NoDup (List.map key l) -> In a l -> In b l -> key a = key b -> a = b.
Proof.
  induction l as [|x r IH]; intros Hnd Ha Hb E; [destruct Ha|].
  cbn [List.map] in Hnd. apply NoDup_cons in Hnd. destruct Hnd as [Hx Hnd].
  destruct Ha as [->|Ha], Hb as [->|Hb]; [reflexivity| | |apply IH; assumption].
  - exfalso. apply Hx. rewrite E. apply list_elem_of_In, in_map, Hb.
  - exfalso. apply Hx. rewrite <- E. apply list_elem_of_In, in_map, Ha.
Qed.

Lemma NoDup_map_update {A} (val : A -> string) (hit : A -> bool) (g : A -> A)
    (v : string) l :
  (forall a b, In a l -> In b l -> hit a = true -> hit b = true -> a = b) ->
  NoDup (List.map val l) ->
  (forall a, In a l -> hit a = true -> val (g a) = v) ->
  (forall a, In a l -> val a = v -> hit a = true) ->
  NoDup (List.map val (List.map (fun a => if hit a then g a else a) l)).
Proof.
  induction l as [|a r IH]; intros Hone Hnd Hg Hv; [apply NoDup_nil; exact I|].
  cbn [List.map] in *. apply NoDup_cons in Hnd. destruct Hnd as [Ha Hnd].
  apply NoDup_cons. split.
  - intros Hin. apply list_elem_of_In, in_map_iff in Hin.
    destruct Hin as (q' & Hq' & Hin). apply in_map_iff in Hin.
    destruct Hin as (q & <- & Hin).
    destruct (hit q) eqn:Eq; destruct (hit a) eqn:Ea.
    + assert (a = q)
        by (apply Hone; [left; reflexivity|right; exact Hin|exact Ea|exact Eq]).
      subst q.
      apply Ha. apply list_elem_of_In, in_map, Hin.
    + assert (hit a = true).
      { apply Hv; [left; reflexivity|]. rewrite <- Hq'.
        apply Hg; [right; exact Hin|exact Eq]. }
      congruence.
    + assert (hit q = true).
      { apply Hv; [right; exact Hin|]. rewrite Hq'.
        apply Hg; [left; reflexivity|exact Ea]. }
      congruence.
    + apply Ha. rewrite <- Hq'. apply list_elem_of_In, in_map, Hin.
  - apply IH; [|exact Hnd| |].
    + intros x y Hx Hy. apply Hone; right; assumption.
    + intros x Hx. apply Hg. right. exact Hx.
    + intros x Hx. apply Hv. right. exact Hx.
Qed.

Lemma update_user_ok users user userId body :
  users_ok users -> users_ok (snd (update_user users user userId body)).
Proof.
  intros Hok. unfold update_user.
  destruct (negb (String.eqb (su_id user) userId) && negb (su_isAdmin user));
    [exact Hok|].
  destruct (user_by_id users userId) as [existingUser|]; [|exact Hok].
  set (lower := toLowerCase (default EmptyString (ub_email body))).
  destruct (str_truthy (ub_email body)
            && negb (String.eqb (default EmptyString (ub_email body))
                       (ur_email existingUser))) eqn:Enew.
  - cbn [andb].
    destruct (List.find _ users) as [taken|] eqn:Hf; [exact Hok|].
    cbn [snd]. destruct Hok as (Hids & Hemails & Hlower).
    split; [|split].
    + rewrite List.map_map. rewrite (List.map_ext _ ur_id); [exact Hids|].
      intros u. destruct (String.eqb (ur_id u) userId); reflexivity.
    + apply (NoDup_map_update ur_email (fun u => String.eqb (ur_id u) userId) _ lower).
      * intros a b Ha Hb Ea Eb. apply String.eqb_eq in Ea, Eb.
        apply (NoDup_map_inj ur_id users); [exact Hids|exact Ha|exact Hb|congruence].
      * exact Hemails.
      * intros a _ _. reflexivity.
      * intros a Ha Ev. pose proof (List.find_none _ _ Hf a Ha) as Hn. cbn beta in Hn.
        rewrite Ev, String.eqb_refl in Hn. cbn [andb] in Hn.
        apply negb_false_iff in Hn. exact Hn.
    + apply List.Forall_forall. intros q Hq. apply in_map_iff in Hq.
      destruct Hq as (u & <- & Hin). rewrite List.Forall_forall in Hlower.
      destruct (String.eqb (ur_id u) userId); [|exact (Hlower u Hin)].
      cbn [ur_email]. apply toLowerCase_idem.
  - cbn [andb snd]. destruct Hok as (Hids & Hemails & Hlower).
    split; [|split].
    + rewrite List.map_map. rewrite (List.map_ext _ ur_id); [exact Hids|].
      intros u. destruct (String.eqb (ur_id u) userId); reflexivity.
    + rewrite List.map_map. rewrite (List.map_ext _ ur_email); [exact Hemails|].
      intros u. destruct (String.eqb (ur_id u) userId); reflexivity.
    + apply List.Forall_forall. intros q Hq. apply in_map_iff in Hq.
      destruct Hq as (u & <- & Hin). rewrite List.Forall_forall in Hlower.
      destruct (String.eqb (ur_id u) userId); exact (Hlower u Hin).
Qed.

(** X21: registrations, changes of a password and updates of a profile keep the
    table of users with one row for each id and each email, and every email
    in lower case. *)
Theorem users_stay_well_formed users uuid random userData userId oldPassword newPassword
    user body :
  users_ok users ->
  users_ok (snd (registerUser pbkdf2Sync users uuid random userData))
  /\ users_ok (snd (change_password pbkdf2Sync users userId random oldPassword
                      newPassword))
  /\ users_ok (snd (update_user users user userId body)).
Proof.
  intros Hok. split; [|split];
    [apply registerUser_ok|apply change_password_ok|apply update_user_ok]; exact Hok.
Qed.

End UsersTableInvariant.

(** ** The cart of the shop front *)

Section ShopFront.

Lemma findIndex_none id cart :
  findIndex id cart = None -> forall item, In item cart -> cl_id item <> id.
Proof.
  induction cart as [|a r IH]; intros H item Hin; [destruct Hin|].
  cbn [findIndex] in H. destruct (Z.eqb_spec (cl_id a) id) as [E|E]; [discriminate|].
  destruct (findIndex id r); [discriminate|].
  destruct Hin as [<-|Hin]; [exact E|]. exact (IH eq_refl item Hin).
Qed.

Lemma quantity_in_absent cart id :
  (forall item, In item cart -> cl_id item <> id) -> quantity_in cart id = 0.
Proof.
  induction cart as [|a r IH]; intros H; [reflexivity|]. cbn [quantity_in].
  rewrite (proj2 (Z.eqb_neq _ _) (H a (or_introl eq_refl))).
  rewrite IH; [reflexivity|]. intros item Hin. apply H. right. exact Hin.
Qed.

Lemma quantity_in_app cart1 cart2 id :
  quantity_in (cart1 ++ cart2) id = quantity_in cart1 id + quantity_in cart2 id.
Proof.
  induction cart1 as [|a r IH]; [reflexivity|].
  cbn [app quantity_in]. rewrite IH. lia.
Qed.

Lemma addToCart_found pid cart : forall i,
  findIndex pid cart = Some i ->
  List.map cl_id (alter one_more i cart) = List.map cl_id cart
  /\ (forall id, quantity_in (alter one_more i cart) id
                 = quantity_in cart id + (if id =? pid then 1 else 0))
  /\ (Forall (fun item => 0 < cl_quantity item) cart ->
      Forall (fun item => 0 < cl_quantity item) (alter one_more i cart)).
Proof.
  induction cart as [|a r IH]; intros i H; [discriminate|].
  cbn [findIndex] in H. destruct (Z.eqb_spec (cl_id a) pid) as [E|E].
  - injection H as <-. cbn. split; [reflexivity|]. split.
    + intros id. rewrite E. rewrite (Z.eqb_sym id pid).
      destruct (pid =? id); lia.
    + intros Hall. apply Forall_cons in Hall. destruct Hall as [Ha Hr].
      apply Forall_cons. split; [cbn; lia|exact Hr].
  - destruct (findIndex pid r) as [j|] eqn:Ej; [|discriminate].
    injection H as <-. destruct (IH j eq_refl) as (H1 & H2 & H3).
    cbn. split; [f_equal; exact H1|]. split.
    + intros id. rewrite H2. lia.
    + intros Hall. apply Forall_cons in Hall. destruct Hall as [Ha Hr].
      apply Forall_cons. split; [exact Ha|exact (H3 Hr)].
Qed.

Lemma addToCart_quantity product cart id :
  quantity_in (addToCart product cart) id
  = quantity_in cart id + (if id =? cp_id product then 1 else 0).
Proof.
  unfold addToCart. destruct (findIndex (cp_id product) cart) as [i|] eqn:Hf.
  - apply (addToCart_found _ _ _ Hf).
  - rewrite quantity_in_app. cbn [quantity_in cl_id cl_quantity].
    rewrite (Z.eqb_sym id). lia.
Qed.

Lemma addToCart_one_line product cart :
  NoDup (List.map cl_id cart) -> NoDup (List.map cl_id (addToCart product cart)).
Proof.
  intros Hnd. unfold addToCart.
  destruct (findIndex (cp_id product) cart) as [i|] eqn:Hf.
  - rewrite (proj1 (addToCart_found _ _ _ Hf)). exact Hnd.
  - rewrite List.map_app. apply NoDup_app_one; [exact Hnd|].
    apply not_in_map. intros x Hx. exact (findIndex_none _ _ Hf x Hx).
Qed.

Lemma addToCart_positive product cart :
  Forall (fun item => 0 < cl_quantity item) cart ->
  Forall (fun item => 0 < cl_quantity item) (addToCart product cart).
Proof.
  intros Hall. unfold addToCart.
  destruct (findIndex (cp_id product) cart) as [i|] eqn:Hf.
  - apply (addToCart_found _ _ _ Hf). exact Hall.
  - apply Forall_app. split; [exact Hall|].
    apply Forall_cons. split; [cbn; lia|apply Forall_nil; exact I].
Qed.

(** X24: adding a product to the cart raises the quantity the cart holds of it
    by one and leaves the other products as they are; a cart with one line
    for each product and positive quantities stays so. *)
Theorem addToCart_adds_one product cart :
  (forall id, quantity_in (addToCart product cart) id
              = quantity_in cart id + (if id =? cp_id product then 1 else 0))
  /\ (NoDup (List.map cl_id cart) -> NoDup (List.map cl_id (addToCart product cart)))
  /\ (Forall (fun item => 0 < cl_quantity item) cart ->
      Forall (fun item => 0 < cl_quantity item) (addToCart product cart)).
Proof.
  split; [|split].
  - intros id. apply addToCart_quantity.
  - apply addToCart_one_line.
  - apply addToCart_positive.
Qed.

(** X25: the cart built from the empty one by adding products one after the
    other holds of every product as many as it was added, on one line. *)
Theorem cart_counts_the_additions (added : list CardProduct) :
  let cart := fold_left (fun cart product => addToCart product cart) added [] in
  NoDup (List.map cl_id cart)
  /\ Forall (fun item => 0 < cl_quantity item) cart
  /\ forall id, quantity_in cart id
                = Z.of_nat (List.length (List.filter (fun p => cp_id p =? id) added)).
Proof.
  cbv zeta.
  cut (forall cart,
         NoDup (List.map cl_id cart) ->
         Forall (fun item => 0 < cl_quantity item) cart ->
         let cart' := fold_left (fun cart product => addToCart product cart) added cart in
         NoDup (List.map cl_id cart')
         /\ Forall (fun item => 0 < cl_quantity item) cart'
         /\ forall id, quantity_in cart' id
                       = quantity_in cart id
                         + Z.of_nat (List.length
                                       (List.filter (fun p => cp_id p =? id) added))).
  { intros H. destruct (H [] (NoDup_nil_2) (Forall_nil_2 _)) as (H1 & H2 & H3).
    split; [exact H1|]. split; [exact H2|]. intros id. rewrite H3. reflexivity. }
  induction added as [|p rest IH]; intros cart Hnd Hpos; cbv zeta.
  - cbn. repeat split; auto. intros id. lia.
  - cbn [fold_left].
    destruct (IH (addToCart p cart) (addToCart_one_line p cart Hnd)
                (addToCart_positive p cart Hpos)) as (H1 & H2 & H3).
    split; [exact H1|]. split; [exact H2|].
    intros id. rewrite H3, addToCart_quantity. cbn [List.filter]. rewrite (Z.eqb_sym id).
    destruct (cp_id p =? id); cbn [List.length]; lia.
Qed.

(** X26: the price range of the filter stays one the filter can be applied
    with, whatever is typed into the two fields; and two bounds typed as the
    slider writes them, whole numbers up to [2 ^ 53] ([toString] writes all
    the digits of these), the lower one not negative and below the upper
    one, become the range. *)
Theorem typed_price_range st min max a b :
  (range_ok (priceRange st) -> range_ok (priceRange (handlePriceInputChange st min max)))
  /\ (0 <= a < b -> b <= 2 ^ 53 ->
      priceRange (handlePriceInputChange st (minPriceInput (handlePriceChange st a b))
                    (maxPriceInput (handlePriceChange st a b))) = (a, b)).
Proof.
  split.
  - intros Hok. unfold handlePriceInputChange. cbn [priceRange].
    destruct (Z.leb_spec 0 (parseInt_or min 0)); cbn [andb]; [|exact Hok].
    destruct (Z.ltb_spec (parseInt_or min 0) (parseInt_or max 10000)); [|exact Hok].
    split; cbn; assumption.
  - intros Hab _. unfold handlePriceInputChange, handlePriceChange.
    cbn [priceRange minPriceInput maxPriceInput to_String].
    assert (Hmin : parseInt_or (pretty a) 0 = a).
    { unfold parseInt_or. destruct (Z.eq_dec a 0) as [->|Hne]; [reflexivity|].
      rewrite (parseInt_pretty a Hne). rewrite (proj2 (Z.eqb_neq _ _) Hne). reflexivity. }
    assert (Hmax : parseInt_or (pretty b) 10000 = b).
    { unfold parseInt_or. assert (Hne : b <> 0) by lia.
      rewrite (parseInt_pretty b Hne). rewrite (proj2 (Z.eqb_neq _ _) Hne). reflexivity. }
    rewrite Hmin, Hmax.
    rewrite (proj2 (Z.leb_le _ _)) by lia. rewrite (proj2 (Z.ltb_lt _ _)) by lia.
    reflexivity.
Qed.

End ShopFront.

(** ** Instances of the further theorems *)

Section MoreInstances.

Import Sample Examples.

Lemma csv_row_injective_witness :
  ["Fern; large"; EmptyString; "500"] = ["Fern; large"; EmptyString; "500"].
Proof.
  apply (csv_row_injective ["Fern; large"; EmptyString; "500"]
           ["Fern; large"; EmptyString; "500"]).
  - discriminate.
  - discriminate.
  - reflexivity.
Defined.

Lemma new_order_is_shown_consistently_witness :
  exists row,
    orders (after_order shop discounted) !! 1 = Some row
    /\ co_itemsTotal (formatOrderForClient row)
       = Some (items_total (products shop) [line 1 2])
    /\ co_totalAmount (formatOrderForClient row)
       = items_total (products shop) [line 1 2]
         - num_or_zero (co_promoCodeDiscount (formatOrderForClient row))
         + co_deliveryAmount (formatOrderForClient row).
Proof.
  apply (new_order_is_shown_consistently shop now alice discounted 1
           (after_order shop discounted) [line 1 2]).
  - vm_compute. reflexivity.
  - reflexivity.
  - repeat constructor; simpl; lia.
Defined.

Lemma preview_agrees_with_checkout_witness :
  match validate_promo_code shop now "save10" 1000 with
  | ValidatePreview _ discount =>
      order_promo_discount shop now (Some "save10") 1000 = inr (Some discount)
      /\ discount <= 1000
  | ValidateNotFound =>
      order_promo_discount shop now (Some "save10") 1000 = inl InvalidPromo
  | ValidateBelowMinimum m =>
      order_promo_discount shop now (Some "save10") 1000 = inl (MinOrderAmount m)
      /\ 1000 < m
  | ValidateBadData => False
  end.
Proof.
  apply (preview_agrees_with_checkout shop now "save10" 1000).
  - discriminate.
  - lia.
Defined.

Lemma create_order_keeps_other_orders_witness :
  orders (after_order shop later) !! 2 = None
  /\ forall k row,
       orders (after_order shop later) !! k = Some row ->
       orders (after_order (after_order shop later) paid) !! k = Some row.
Proof.
  apply (create_order_keeps_other_orders (after_order shop later) now alice paid 2
           (after_order (after_order shop later) paid)).
  vm_compute. reflexivity.
Defined.


Lemma deleting_a_paid_order_undoes_it_witness :
  delete_order (after_order shop paid) 1 = (Deleted, shop).
Proof.
  apply (deleting_a_paid_order_undoes_it shop now alice paid 1 (after_order shop paid)
           [line 1 2; line 2 1]).
  - vm_compute. reflexivity.
  - reflexivity.
  - reflexivity.
  - reflexivity.
  - repeat constructor; simpl; lia.
Defined.

End MoreInstances.

Section PromoInstances.

Import Sample Examples.

Lemma shop_promo_table : promo_table_ok (promo_codes shop).
Proof.
  unfold promo_table_ok. cbn [promo_codes shop].
  split; [|split].
  - apply (bool_decide_unpack _). vm_compute. exact I.
  - apply (bool_decide_unpack _). vm_compute. exact I.
  - repeat (apply Forall_cons; split); try (apply Forall_nil; exact I);
      (split; [reflexivity|]); (split; [discriminate|]); (split; [cbn; lia|]);
      (split; [intros m H; discriminate H|]);
      (split; [intros m H; cbn in H; try discriminate H; injection H as <-; lia|]);
      right; reflexivity.
Qed.

(** The log of the example: the administrator creates WELCOME, alice orders
    with it, the administrator renames SAVE10 and deletes HALF. *)
Lemma promo_table_stays_well_formed_witness :
  promo_table_ok
    (promo_codes
       (serve_all twenty_four parseInt shop
          [ (now, PostPromoCode (welcome "welcome"));
            (now, PostOrder alice (request [line 1 2] 300 "card" None (Some "Welcome")));
            (now, PutPromoCode "1" (welcome "spring"));
            (now, DeletePromoCode "2") ])).
Proof.
  apply (promo_table_stays_well_formed twenty_four parseInt shop).
  exact shop_promo_table.
Defined.

Lemma apply_promo_takes_stored_spelling_only_witness : toUpperCase "HALF" = "HALF".
Proof.
  apply (apply_promo_takes_stored_spelling_only (after_order shop later) now "alice" 1
           "HALF" 1 (snd (apply_promo (after_order shop later) now "alice" 1 "HALF"))).
  - assert (E : promo_codes (after_order shop later) = promo_codes shop)
      by (vm_compute; reflexivity).
    rewrite E. exact shop_promo_table.
  - vm_compute. reflexivity.
Defined.


Lemma promo_code_cannot_be_created_twice_witness :
  create_promo_code twenty_four
    (snd (create_promo_code twenty_four shop (welcome "welcome"))) (welcome "WelCome")
  = (PromoDuplicate, snd (create_promo_code twenty_four shop (welcome "welcome"))).
Proof.
  apply (promo_code_cannot_be_created_twice twenty_four shop (welcome "welcome")
           (Some (promo_row 5 0 None
                    {| d_code := "welcome"; d_discountType := Percentage;
                       d_discountValue := 15; d_minOrderAmount := Some 0;
                       d_startDate := "2024-01-01T00:00:00.000Z";
                       d_endDate := "2030-01-01T00:00:00.000Z";
                       d_maxUses := None; d_isActive := true |}))
           (snd (create_promo_code twenty_four shop (welcome "welcome")))
           (welcome "WelCome") "welcome" "WelCome").
  - vm_compute. reflexivity.
  - reflexivity.
  - reflexivity.
  - reflexivity.
  - vm_compute. discriminate.
Defined.

End PromoInstances.

Section UserInstances.

Import Sample Examples.

Lemma stored_password_round_trip_witness :
  comparePasswords toy_pbkdf2 (ur_password ann) "Secret123" = true
  /\ forall supplied,
       comparePasswords toy_pbkdf2 (ur_password ann) supplied = true
       <-> toy_pbkdf2 supplied (to_hex salt1) 10000 64 "sha512"
           = toy_pbkdf2 "Secret123" (to_hex salt1) 10000 64 "sha512".
Proof.
  apply (stored_password_round_trip toy_pbkdf2 salt1 "Secret123" (ur_password ann)).
  vm_compute. reflexivity.
Defined.

Lemma stored_passwords_of_the_other_module_witness :
  Storage.comparePasswords toy_pbkdf2 "Secret123" (ur_password ann) <> Some true
  /\ comparePasswords toy_pbkdf2
       (default EmptyString (Storage.hashPassword toy_pbkdf2 salt2 "Secret123"))
       "Secret123" = false.
Proof.
  split.
  - apply (proj1 (stored_passwords_of_the_other_module toy_pbkdf2 salt1 "Secret123"
                    (ur_password ann) "Secret123")).
    vm_compute. reflexivity.
  - apply (proj2 (stored_passwords_of_the_other_module toy_pbkdf2 salt2 "Secret123"
                    (default EmptyString
                       (Storage.hashPassword toy_pbkdf2 salt2 "Secret123"))
                    "Secret123")).
    vm_compute. reflexivity.
Defined.

Lemma storage_password_round_trip_witness :
  Storage.comparePasswords toy_pbkdf2 "Secret123"
    (default EmptyString (Storage.hashPassword toy_pbkdf2 salt2 "Secret123"))
  = Some true.
Proof.
  apply (storage_password_round_trip toy_pbkdf2 salt2 "Secret123").
  vm_compute. reflexivity.
Defined.

Lemma registered_user_logs_in_witness :
  verify toy_pbkdf2 one_user "ANN@example.COM" "Secret123" = Some ann
  /\ forall supplied,
       verify toy_pbkdf2 one_user "ANN@example.COM" supplied = Some ann
       <-> toy_pbkdf2 supplied (to_hex salt1) 10000 64 "sha512"
           = toy_pbkdf2 "Secret123" (to_hex salt1) 10000 64 "sha512".
Proof.
  apply (registered_user_logs_in toy_pbkdf2 [] "u-1" salt1 ann_data ann one_user
           "ANN@example.COM").
  - vm_compute. reflexivity.
  - vm_compute. reflexivity.
Defined.

Lemma email_is_registered_once_witness :
  registerUser toy_pbkdf2 one_user "u-2" salt2
    {| ud_email := "ANN@EXAMPLE.COM"; ud_password := "Other4567"; ud_username := None |}
  = (RegisterEmailTaken, one_user).
Proof.
  apply (email_is_registered_once toy_pbkdf2 [] "u-1" salt1 ann_data ann one_user
           "u-2" salt2
           {| ud_email := "ANN@EXAMPLE.COM"; ud_password := "Other4567";
              ud_username := None |}).
  - vm_compute. reflexivity.
  - vm_compute. reflexivity.
Defined.

Lemma one_user_ok : users_ok one_user.
Proof.
  unfold users_ok.
  split; [|split].
  - apply (bool_decide_unpack _). vm_compute. exact I.
  - apply (bool_decide_unpack _). vm_compute. exact I.
  - apply Forall_cons. split; [vm_compute; reflexivity|apply Forall_nil; exact I].
Qed.

Lemma changed_password_logs_in_witness :
  exists user stored,
    In user one_user /\ ur_id user = "u-1"
    /\ comparePasswords toy_pbkdf2 (ur_password user) "Secret123" = true
    /\ (8 <= String.length "Better456")%nat
    /\ has_capital "Better456" = true /\ has_digit "Better456" = true
    /\ verify toy_pbkdf2
         (snd (change_password toy_pbkdf2 one_user "u-1" salt2 "Secret123" "Better456"))
         (ur_email user) "Better456"
       = Some (with_password stored user)
    /\ (forall supplied,
          verify toy_pbkdf2
            (snd (change_password toy_pbkdf2 one_user "u-1" salt2 "Secret123" "Better456"))
            (ur_email user) supplied
          = Some (with_password stored user)
          <-> toy_pbkdf2 supplied (to_hex salt2) 10000 64 "sha512"
              = toy_pbkdf2 "Better456" (to_hex salt2) 10000 64 "sha512")
    /\ (forall u, In u one_user -> ur_id u <> "u-1" ->
          In u (snd (change_password toy_pbkdf2 one_user "u-1" salt2 "Secret123"
                       "Better456"))).
Proof.
  apply (changed_password_logs_in toy_pbkdf2 one_user "u-1" salt2 "Secret123" "Better456"
           (snd (change_password toy_pbkdf2 one_user "u-1" salt2 "Secret123"
                   "Better456"))).
  - exact one_user_ok.
  - vm_compute. reflexivity.
Defined.

Lemma users_stay_well_formed_witness :
  users_ok (snd (registerUser toy_pbkdf2 one_user "u-2" salt2
                   {| ud_email := "Bob@example.com"; ud_password := "Other4567";
                      ud_username := Some "bob" |}))
  /\ users_ok (snd (change_password toy_pbkdf2 one_user "u-1" salt2 "Secret123"
                      "Better456"))
  /\ users_ok (snd (update_user one_user (userRecordToSessionUser ann) "u-1"
                      {| ub_email := Some "Ann@Shop.example"; ub_username := None;
                         ub_isAdmin := JBool true |})).
Proof.
  apply (users_stay_well_formed toy_pbkdf2 one_user "u-2" salt2
           {| ud_email := "Bob@example.com"; ud_password := "Other4567";
              ud_username := Some "bob" |}
           "u-1" "Secret123" "Better456" (userRecordToSessionUser ann)
           {| ub_email := Some "Ann@Shop.example"; ub_username := None;
              ub_isAdmin := JBool true |}).
  exact one_user_ok.
Defined.

Lemma administrator_rights_outlive_the_flag_witness :
  exists user2,
    fst (admin_request
           (cache_after (snd (admin_request ∅ [root; ann] "u-0"))
              [ (false, [demoted; ann], "u-1"); (true, [demoted; ann], "u-1") ])
           [demoted; ann] "u-0") = Some user2
    /\ su_isAdmin user2 = true.
Proof.
  apply (administrator_rights_outlive_the_flag ∅ [root; ann] "u-0"
           (grant (userRecordToSessionUser root))
           (snd (admin_request ∅ [root; ann] "u-0"))
           [ (false, [demoted; ann], "u-1"); (true, [demoted; ann], "u-1") ]
           [demoted; ann]).
  - rewrite (surjective_pairing (admin_request ∅ [root; ann] "u-0")).
    f_equal; vm_compute; reflexivity.
  - exists demoted. vm_compute. reflexivity.
Defined.

Lemma only_administrators_change_the_flag_witness :
  let users' :=
    snd (update_user [root; ann] cached_ann "u-1"
           {| ub_email := None; ub_username := Some "ann"; ub_isAdmin := JBool true |}) in
  List.map ur_is_admin users' = List.map ur_is_admin [root; ann]
  /\ List.map ur_password users' = List.map ur_password [root; ann]
  /\ List.map ur_id users' = List.map ur_id [root; ann]
  /\ (forall u, In u [root; ann] -> ur_id u <> "u-1" -> In u users')
  /\ ("u-1" <> "u-1" -> users' = [root; ann]).
Proof.
  apply (only_administrators_change_the_flag {[ "u-1" ]} [root; ann] "u-1" ann cached_ann
           (snd (user_request {[ "u-1" ]} [root; ann] "u-1")) "u-1"
           {| ub_email := None; ub_username := Some "ann"; ub_isAdmin := JBool true |}).
  - vm_compute. reflexivity.
  - vm_compute. discriminate.
  - rewrite (surjective_pairing (user_request {[ "u-1" ]} [root; ann] "u-1")).
    f_equal; vm_compute; reflexivity.
Defined.

End UserInstances.

Section FrontAndStockInstances.

Import Sample Examples.

Lemma addToCart_adds_one_witness :
  NoDup (List.map cl_id (addToCart fern_card (addToCart fern_card [])))
  /\ Forall (fun item => 0 < cl_quantity item) (addToCart fern_card (addToCart fern_card []))
  /\ quantity_in (addToCart fern_card (addToCart fern_card [])) 1
     = quantity_in (addToCart fern_card []) 1 + (if 1 =? cp_id fern_card then 1 else 0).
Proof.
  pose proof (addToCart_adds_one fern_card (addToCart fern_card [])) as (Hq & Hn & Hp).
  split; [|split].
  - apply Hn. apply NoDup_singleton.
  - apply Hp. repeat constructor.
  - apply Hq.
Defined.

Lemma typed_price_range_witness :
  range_ok (priceRange (handlePriceInputChange initial_price_state "abc" "0"))
  /\ priceRange
       (handlePriceInputChange initial_price_state
          (minPriceInput (handlePriceChange initial_price_state 0 2500))
          (maxPriceInput (handlePriceChange initial_price_state 0 2500)))
     = (0, 2500).
Proof.
  split.
  - apply (proj1 (typed_price_range initial_price_state "abc" "0" 0 2500)).
    split; cbn; lia.
  - apply (proj2 (typed_price_range initial_price_state "abc" "0" 0 2500)); [lia|].
    vm_compute. discriminate.
Defined.

Lemma shop_stock : nonneg_stock (products shop).
Proof.
  intros id p H. unfold shop in H. cbn [products] in H.
  apply lookup_insert_Some in H as [[_ <-]|[_ H]]; [simpl; lia|].
  apply lookup_insert_Some in H as [[_ <-]|[_ H]]; [simpl; lia|].
  rewrite lookup_empty in H. discriminate.
Qed.

Lemma updateProductQuantities_nonneg_witness :
  nonneg_stock
    (products
       (snd (updateProductQuantities shop 1
               [ {| li_id := 1; li_name := "Fern"; li_price := 500;
                    li_quantity := JNum 25 |};
                 {| li_id := 2; li_name := "Palm"; li_price := 1000;
                    li_quantity := JStr "many" |} ]))).
Proof.
  apply (updateProductQuantities_nonneg shop 1). exact shop_stock.
Defined.

Lemma create_order_nonneg_witness :
  nonneg_stock (products (snd (create_order shop now alice paid))).
Proof.
  apply (create_order_nonneg shop now alice paid [line 1 2; line 2 1]).
  - reflexivity.
  - apply (bool_decide_unpack _). vm_compute. exact I.
  - exact shop_stock.
Defined.


End FrontAndStockInstances.

(** ** The text of the payment details *)

Section PaymentDetailsText.

Lemma includes_append c s t :
  Csv.includes c (s +:+ t) = Csv.includes c s || Csv.includes c t.
Proof.
  induction s as [|a r IH]; [reflexivity|].
  rewrite append_cons. cbn [Csv.includes]. rewrite IH. apply orb_assoc.
Qed.

Lemma split_not_empty sep s : split sep s <> [].
Proof.
  destruct s as [|c r]; cbn [split]; [discriminate|].
  destruct (Ascii.eqb c sep); [discriminate|].
  destruct (split sep r); discriminate.
Qed.

Lemma join_split sep s : Csv.join (String sep EmptyString) (split sep s) = s.
Proof.
  induction s as [|c r IH]; [reflexivity|]. cbn [split].
  destruct (Ascii.eqb_spec c sep) as [->|Hne].
  - pose proof (split_not_empty sep r) as Hn.
    destruct (split sep r) as [|x rest] eqn:E; [contradiction|].
    change (Csv.join (String sep EmptyString) (EmptyString :: x :: rest))
      with (EmptyString +:+ String sep EmptyString
            +:+ Csv.join (String sep EmptyString) (x :: rest)).
    rewrite IH. reflexivity.
  - pose proof (split_not_empty sep r) as Hn.
    destruct (split sep r) as [|x rest] eqn:E; [contradiction|].
    destruct rest as [|y rest'].
    + cbn [Csv.join] in *. rewrite IH. reflexivity.
    + change (Csv.join (String sep EmptyString) (String c x :: y :: rest'))
        with (String c x +:+ String sep EmptyString
              +:+ Csv.join (String sep EmptyString) (y :: rest')).
      change (Csv.join (String sep EmptyString) (x :: y :: rest'))
        with (x +:+ String sep EmptyString
              +:+ Csv.join (String sep EmptyString) (y :: rest')) in IH.
      rewrite append_cons, IH. reflexivity.
Qed.

(** The lines of the text of a row with one-line fields. *)
Lemma bank_details_lines d :
  Csv.includes Csv.newline (pd_card_number d) = false ->
  Csv.includes Csv.newline (pd_card_holder d) = false ->
  Csv.includes Csv.newline (pd_bank_name d) = false ->
  split Csv.newline (bank_details_text d)
  = (card_label +:+ " " +:+ pd_card_number d)
    :: (holder_label +:+ " " +:+ pd_card_holder d)
    :: (bank_label +:+ " " +:+ pd_bank_name d)
    :: EmptyString
    :: split Csv.newline (pd_instructions d).
Proof.
  intros Hc Hh Hb. unfold bank_details_text, line_feed.
  assert (Hline : forall label v,
             Csv.includes Csv.newline label = false ->
             Csv.includes Csv.newline v = false ->
             Csv.includes Csv.newline (label +:+ " " +:+ v) = false).
  { intros label v Hl Hv. rewrite !includes_append, Hl, Hv. reflexivity. }
  assert (Hstep : forall label v rest,
             Csv.includes Csv.newline label = false ->
             Csv.includes Csv.newline v = false ->
             split Csv.newline
               (label +:+ " " +:+ v +:+ String Csv.newline EmptyString +:+ rest)
             = (label +:+ " " +:+ v) :: split Csv.newline rest).
  { intros label v rest Hl Hv.
    rewrite <- (split_part Csv.newline (label +:+ " " +:+ v) rest (Hline _ _ Hl Hv)).
    rewrite !append_append. reflexivity. }
  rewrite Hstep by (reflexivity || assumption).
  rewrite Hstep by (reflexivity || assumption).
  rewrite Hstep by (reflexivity || assumption).
  change (String Csv.newline EmptyString +:+ pd_instructions d)
    with (String Csv.newline (pd_instructions d)).
  cbn [split]. rewrite Ascii.eqb_refl. reflexivity.
Qed.

(** [trim] takes the white space of JavaScript off both ends: here a space
    in front, and behind a no-break space (U+00A0, two bytes) and an
    ideographic space (U+3000, three bytes); letters of two bytes stay. *)
Lemma trim_white_space_of_unicode :
  trim (" 2200 1234"
        +:+ String (ascii_of_nat 194) (String (ascii_of_nat 160) EmptyString)
        +:+ String (ascii_of_nat 227)
              (String (ascii_of_nat 128) (String (ascii_of_nat 128) EmptyString)))
  = "2200 1234"
  /\ trim " Банк " = "Банк"
  /\ trim (String (ascii_of_nat 160) "x") = String (ascii_of_nat 160) "x".
Proof. repeat split; vm_compute; reflexivity. Qed.

(** X27: the text of the payment details that [GET] shows, sent back with
    [PUT] as it is, leaves the row as it is, whatever else the body holds,
    and entered into an empty table it gives the four fields of the row:
    for a row with the card number, the holder and the bank on one line
    each, which [trim] leaves as they are (no white space of JavaScript at
    their ends, the no-break space and the other spaces of Unicode
    included), and without the label of a later line. *)
Theorem payment_details_round_trip d body :
  readable d ->
  pb_bankDetails body = Some (bank_details_text d) ->
  put_payment_details (Some d) body = d
  /\ put_payment_details None body
     = {| pd_card_number := pd_card_number d; pd_card_holder := pd_card_holder d;
          pd_bank_name := pd_bank_name d; pd_instructions := pd_instructions d;
          pd_qr_code_url := "/uploads/default-qr.png" |}.
Proof.
  intros ((Hc1 & Hc2) & (Hh1 & Hh2) & (Hb1 & Hb2) & Hch & Hcb & Hhb) Hbody.
  pose proof (bank_details_lines d Hc1 Hh1 Hb1) as Hlines.
  assert (Htruthy : str_truthy (Some (bank_details_text d)) = true) by reflexivity.
  assert (Hcard : labelled card_label (split Csv.newline (bank_details_text d))
                    (pb_cardNumber body) = Some (pd_card_number d)).
  { rewrite Hlines.
    transitivity (Some (trim (pd_card_number d))); [reflexivity|rewrite Hc2; reflexivity]. }
  assert (Hholder : labelled holder_label (split Csv.newline (bank_details_text d))
                      (pb_cardHolder body) = Some (pd_card_holder d)).
  { rewrite Hlines. unfold labelled. cbn [List.find].
    assert (includes_text holder_label (card_label +:+ " " +:+ pd_card_number d) = false)
      as -> by exact Hch.
    transitivity (Some (trim (pd_card_holder d))); [reflexivity|rewrite Hh2; reflexivity]. }
  assert (Hbank : labelled bank_label (split Csv.newline (bank_details_text d))
                    (pb_bankName body) = Some (pd_bank_name d)).
  { rewrite Hlines. unfold labelled. cbn [List.find].
    assert (includes_text bank_label (card_label +:+ " " +:+ pd_card_number d) = false)
      as -> by exact Hcb.
    assert (includes_text bank_label (holder_label +:+ " " +:+ pd_card_holder d) = false)
      as -> by exact Hhb.
    transitivity (Some (trim (pd_bank_name d))); [reflexivity|rewrite Hb2; reflexivity]. }
  assert (Hinstr : match empty_line_index (split Csv.newline (bank_details_text d)) with
                   | Some emptyLineIndex =>
                       if (emptyLineIndex
                           <? List.length (split Csv.newline (bank_details_text d)) - 1)%nat
                       then Some (Csv.join line_feed
                                    (skipn (emptyLineIndex + 1)
                                       (split Csv.newline (bank_details_text d))))
                       else pb_instructions body
                   | None => pb_instructions body
                   end = Some (pd_instructions d)).
  { rewrite Hlines.
    assert (empty_line_index
              ((card_label +:+ " " +:+ pd_card_number d)
               :: (holder_label +:+ " " +:+ pd_card_holder d)
               :: (bank_label +:+ " " +:+ pd_bank_name d)
               :: EmptyString :: split Csv.newline (pd_instructions d))
            = Some 3%nat) as -> by reflexivity.
    pose proof (split_not_empty Csv.newline (pd_instructions d)) as Hn.
    destruct (split Csv.newline (pd_instructions d)) as [|x rest] eqn:E; [contradiction|].
    cbn [List.length Nat.sub Nat.ltb Nat.leb Nat.add skipn].
    rewrite <- E. unfold line_feed. rewrite join_split. reflexivity. }
  unfold put_payment_details. rewrite Hbody, Htruthy. cbn [default]. unfold id.
  cbv beta zeta iota.
  rewrite Hcard, Hholder, Hbank, Hinstr.
  assert (Hor : forall s dflt, (s = EmptyString -> dflt = EmptyString) ->
                               text_or (Some s) dflt = s).
  { intros s dflt H. unfold text_or. cbn [str_truthy default].
    destruct (String.eqb_spec s EmptyString) as [->|Hne]; cbn [negb].
    - apply H. reflexivity.
    - reflexivity. }
  split.
  - rewrite !Hor by (intros ->; reflexivity). destruct d; reflexivity.
  - rewrite !Hor by reflexivity. reflexivity.
Qed.

End PaymentDetailsText.

Lemma payment_details_round_trip_witness :
  put_payment_details (Some PaymentExample.details) PaymentExample.body
  = PaymentExample.details
  /\ put_payment_details None PaymentExample.body
     = {| pd_card_number := pd_card_number PaymentExample.details;
          pd_card_holder := pd_card_holder PaymentExample.details;
          pd_bank_name := pd_bank_name PaymentExample.details;
          pd_instructions := pd_instructions PaymentExample.details;
          pd_qr_code_url := "/uploads/default-qr.png" |}.
Proof.
  apply (payment_details_round_trip PaymentExample.details PaymentExample.body).
  - repeat split; vm_compute; reflexivity.
  - reflexivity.
Defined.

(** ** The first day of a promo code *)

Section FirstDay.

Variable is_datetime : string -> bool.

Lemma compare_common_prefix p a b :
  String.compare (p +:+ a) (p +:+ b) = String.compare a b.
Proof.
  induction p as [|c r IH]; [reflexivity|].
  rewrite !append_cons. cbn [String.compare].
  assert (Ascii.compare c c = Eq) as ->.
  { unfold Ascii.compare. apply N.compare_refl. }
  exact IH.
Qed.

(** The text of a time of the day [day] as [datetime('now')] writes it comes
    before every text of the same day written with a T after the date. *)
Lemma same_day_is_before day time rest :
  String.leb (day +:+ "T" +:+ rest) (day +:+ " " +:+ time) = false.
Proof. unfold String.leb. rewrite compare_common_prefix. reflexivity. Qed.

Lemma find_none_intro {A} (f : A -> bool) l :
  (forall x, In x l -> f x = false) -> List.find f l = None.
Proof.
  induction l as [|a r IH]; intros H; [reflexivity|].
  cbn [List.find]. rewrite (H a (or_introl eq_refl)).
  apply IH. intros x Hx. apply H. right. exact Hx.
Qed.

Lemma parsed_fields body data :
  promoCodeSchema_parse is_datetime body = Some data ->
  (forall t, b_code body = JStr t -> d_code data = t)
  /\ (forall t, b_startDate body = JStr t -> d_startDate data = t).
Proof.
  unfold promoCodeSchema_parse. intros H.
  destruct (z_string_min1 (b_code body)) as [code|] eqn:Ec; [|discriminate].
  destruct (z_string_optional (b_description body)); [|discriminate].
  destruct (z_discount_type (b_discountType body)) as [ty|]; [|discriminate].
  destruct (z_number_min 0 (b_discountValue body)) as [value|]; [|discriminate].
  destruct (z_number_min_optional 0 (b_minOrderAmount body)) as [minimum|];
    [|discriminate].
  destruct (z_datetime is_datetime (b_startDate body)) as [startDate|] eqn:Es;
    [|discriminate].
  destruct (z_datetime is_datetime (b_endDate body)) as [endDate|]; [|discriminate].
  destruct (z_number_min_optional 1 (b_maxUses body)) as [maxUses|]; [|discriminate].
  destruct (z_boolean_default_true (b_isActive body)) as [active|]; [|discriminate].
  injection H as <-. cbn [d_code d_startDate]. split.
  - intros t Ht. rewrite Ht in Ec. cbn [z_string_min1] in Ec.
    destruct (String.eqb t EmptyString); [discriminate|]. congruence.
  - intros t Ht. rewrite Ht in Es. cbn [z_datetime] in Es.
    destruct (is_datetime t); [|discriminate]. congruence.
Qed.

(** X28: a promo code that [POST /api/promo-codes] has created with a start
    date on the current day is refused for the rest of that day, at any
    time of it and also when the start is at midnight: the preview does not
    find it and order creation rejects it as invalid.  The queries compare
    [start_date], stored as the schema takes it with a T after the date,
    with the text of [datetime('now')], which has a space there. *)
Theorem code_created_today_is_refused_today db body row db1 c day rest time typed
    cartTotal :
  create_promo_code is_datetime db body = (PromoSaved row, db1) ->
  b_code body = JStr c ->
  b_startDate body = JStr (day +:+ "T" +:+ rest) ->
  toUpperCase typed = toUpperCase c ->
  typed <> EmptyString -> 0 <= cartTotal ->
  validate_promo_code db1 (day +:+ " " +:+ time) typed cartTotal = ValidateNotFound
  /\ order_promo_discount db1 (day +:+ " " +:+ time) (Some typed) cartTotal
     = inl InvalidPromo.
Proof.
  intros H Hc Hs Hup Hne Hpos. unfold create_promo_code in H.
  destruct (promoCodeSchema_parse is_datetime body) as [data|] eqn:Hp; [|discriminate].
  destruct (List.find _ (promo_codes db)) as [existing|] eqn:Hf; [discriminate|].
  injection H as _ <-.
  destruct (parsed_fields body data Hp) as [Hcode Hstart].
  rewrite (Hcode c Hc) in Hf.
  assert (Hnone : List.find (promo_matches_now (toUpperCase typed) (day +:+ " " +:+ time))
                    (promo_codes db
                     ++ [promo_row (next_promo_id (promo_codes db)) 0 None data])%list
                  = None).
  { rewrite Hup. apply find_none_intro. intros p Hin.
    apply in_app_iff in Hin. destruct Hin as [Hin|[<-|[]]].
    - pose proof (List.find_none _ _ Hf p Hin) as Hn. cbn beta in Hn.
      unfold promo_matches_now. rewrite Hn. reflexivity.
    - unfold promo_matches_now. cbn [pc_start_date promo_row].
      rewrite (Hstart _ Hs), same_day_is_before.
      rewrite andb_false_r. reflexivity. }
  cbn [promo_codes set_promo_codes].
  split.
  - unfold validate_promo_code. cbn [promo_codes set_promo_codes].
    rewrite (proj2 (String.eqb_neq _ _) Hne), (proj2 (Z.ltb_ge _ _) Hpos).
    cbn [orb]. rewrite Hnone. reflexivity.
  - unfold order_promo_discount. cbn [promo_codes set_promo_codes str_truthy].
    rewrite (proj2 (String.eqb_neq _ _) Hne). cbn [negb]. rewrite Hnone. reflexivity.
Qed.

End FirstDay.

Section FirstDayInstance.

Import Sample Examples.

Lemma code_created_today_is_refused_today_witness :
  validate_promo_code (snd (create_promo_code twenty_four shop (welcome "today")))
    ("2024-01-01" +:+ " " +:+ "18:30:00") "Today" 1000
  = ValidateNotFound
  /\ order_promo_discount (snd (create_promo_code twenty_four shop (welcome "today")))
       ("2024-01-01" +:+ " " +:+ "18:30:00") (Some "Today") 1000
     = inl InvalidPromo.
Proof.
  apply (code_created_today_is_refused_today twenty_four shop (welcome "today")
           (Some (promo_row 5 0 None
                    {| d_code := "today"; d_discountType := Percentage;
                       d_discountValue := 15; d_minOrderAmount := Some 0;
                       d_startDate := "2024-01-01T00:00:00.000Z";
                       d_endDate := "2030-01-01T00:00:00.000Z";
                       d_maxUses := None; d_isActive := true |}))
           (snd (create_promo_code twenty_four shop (welcome "today")))
           "today" "2024-01-01" "00:00:00.000Z" "18:30:00" "Today" 1000).
  - vm_compute. reflexivity.
  - reflexivity.
  - reflexivity.
  - reflexivity.
  - discriminate.
  - lia.
Defined.

End FirstDayInstance.
